(** * sftpgo-operator: a shallow embedding of the reconcilers and of the
      SFTPGo REST client, with the properties of the design document.

    The helpers of the Go runtime and the API types are the modules [Go]
    and [v1alpha1]; the client and the controllers follow in the order of
    their dependencies.  A field [F] of a Go struct [S] is the projection
    [S_F].  Integers are [Z]
    ([int32] ports are only compared, [int64] division is written with its
    wrap-around); a Go string is a [string] (a sequence of bytes); a nil
    pointer is [None]; a Go map is a [gmap].  Calls that leave the process
    (object store, HTTP, clock) are answered by a [World] and recorded, in
    order, in a trace. *)

From Stdlib Require Import ZArith String Ascii List Bool Lia.
From stdpp Require Import gmap strings pretty.

Local Open Scope string_scope.
Local Open Scope Z_scope.
Local Open Scope list_scope.

Set Warnings "-register-all".

(* ================================================================== *)
(** ** Go runtime and standard-library helpers                        *)
(* ================================================================== *)

Module Go.

(** The double-quote byte.  Go raw string literals of the source are written
    below with an apostrophe where the source has a double quote; [raw] puts
    the double quotes back (no literal of the source holds an apostrophe). *)
Definition dquote : ascii := ascii_of_nat 34.

Fixpoint raw (s : string) : string :=
  match s with
  | EmptyString => EmptyString
  | String c r => String (if Ascii.eqb c "'" then dquote else c) (raw r)
  end.

(** [%d] of [fmt.Sprintf] on an integer. *)
Definition itoa (n : Z) : string := pretty n.

(** Two's-complement wrap-around of a [w]-bit signed integer. *)
Definition wrap (w : Z) (n : Z) : Z :=
  (n + 2 ^ (w - 1)) mod 2 ^ w - 2 ^ (w - 1).

Definition int64_range (n : Z) : Prop := - 2 ^ 63 <= n < 2 ^ 63.

(** Go's [/] on [int64]: truncated division, wrapped ([MinInt64 / -1]). *)
Definition int64_div (a b : Z) : Z := wrap 64 (Z.quot a b).

(** An [error] value: its text, and whether [errors.IsNotFound] holds of it. *)
Record error := mkError { error_Error : string; error_IsNotFound : bool }.

Definition Errorf (msg : string) : error := mkError msg false.

(** A JSON document, as [encoding/json] writes one. *)
Inductive json :=
| JNull
| JBool (b : bool)
| JNum (n : Z)
| JStr (s : string)
| JArr (items : list json)
| JObj (fields : list (string * json)).

(** The value written under a key of a JSON object. *)
Fixpoint assoc_json (k : string) (fields : list (string * json)) : option json :=
  match fields with
  | [] => None
  | (k', v) :: rest => if String.eqb k k' then Some v else assoc_json k rest
  end.

Definition json_field (k : string) (j : json) : option json :=
  match j with
  | JObj fields => assoc_json k fields
  | _ => None
  end.

(** [strings.HasPrefix]. *)
Definition HasPrefix (s p : string) : bool := String.prefix p s.

(** [strings.Split(s, "\n")]: the pieces between line feeds; one piece more
    than there are line feeds. *)
Fixpoint SplitLines (s : string) : list string :=
  match s with
  | EmptyString => [EmptyString]
  | String c r =>
      if Ascii.eqb c (ascii_of_nat 10) then EmptyString :: SplitLines r
      else match SplitLines r with
           | [] => [String c EmptyString]
           | p :: ps => String c p :: ps
           end
  end.

(** The UTF-8 encodings of the runes for which [unicode.IsSpace] holds:
    TAB LF VT FF CR SPACE, U+0085, U+00A0, U+1680, U+2000..U+200A, U+2028,
    U+2029, U+202F, U+205F, U+3000. *)
Definition space_encodings : list (list nat) :=
  ([ [9]; [10]; [11]; [12]; [13]; [32];
    [194; 133]; [194; 160]; [225; 154; 128];
    [226; 128; 128]; [226; 128; 129]; [226; 128; 130]; [226; 128; 131];
    [226; 128; 132]; [226; 128; 133]; [226; 128; 134]; [226; 128; 135];
    [226; 128; 136]; [226; 128; 137]; [226; 128; 138];
    [226; 128; 168]; [226; 128; 169]; [226; 128; 175];
    [226; 129; 159]; [227; 128; 128] ])%nat.

Fixpoint strip_prefix (p : list nat) (s : list ascii) : option (list ascii) :=
  match p, s with
  | [], _ => Some s
  | b :: p', c :: s' =>
      if Nat.eqb b (nat_of_ascii c) then strip_prefix p' s' else None
  | _ :: _, [] => None
  end.

Fixpoint strip_any (ps : list (list nat)) (s : list ascii) : option (list ascii) :=
  match ps with
  | [] => None
  | p :: ps' =>
      match strip_prefix p s with
      | Some r => Some r
      | None => strip_any ps' s
      end
  end.

(** Drops leading encodings of [ps]; every step consumes a byte, so the
    length of the input is fuel enough. *)
Fixpoint trim_left_fuel (fuel : nat) (ps : list (list nat)) (s : list ascii)
  : list ascii :=
  match fuel with
  | O => s
  | S f =>
      match strip_any ps s with
      | Some r => trim_left_fuel f ps r
      | None => s
      end
  end.

Definition trim_left (ps : list (list nat)) (s : list ascii) : list ascii :=
  trim_left_fuel (List.length s) ps s.

(** [strings.TrimSpace]: white space is cut from both ends; the right end
    is cut on the reversed bytes. *)
Definition TrimSpace (s : string) : string :=
  let l := trim_left space_encodings (list_ascii_of_string s) in
  let r := trim_left (List.map (@List.rev nat) space_encodings) (List.rev l) in
  string_of_list_ascii (List.rev r).

End Go.

(* ================================================================== *)
(** ** api/v1alpha1: the two resource kinds                            *)
(* ================================================================== *)

Module v1alpha1.

(** [time.Time] and [metav1.Time] as an instant counted from Go's zero
    time, so that [IsZero] is the test against 0. *)
Definition Time := Z.

Definition Time_IsZero (t : option Time) : bool :=
  match t with
  | None => true
  | Some x => x =? 0
  end.

(** [metav1.Condition] (the fields the controllers set or that
    [meta.SetStatusCondition] maintains). *)
Record Condition := mkCondition {
  Condition_Type : string;
  Condition_Status : string;
  Condition_ObservedGeneration : Z;
  Condition_LastTransitionTime : Time;
  Condition_Reason : string;
  Condition_Message : string
}.

Definition ConditionTrue : string := "True".
Definition ConditionFalse : string := "False".

(** [metav1.ObjectMeta], the part the controllers read or write. *)
Record ObjectMeta := mkObjectMeta {
  Name : string;
  Namespace : string;
  Finalizers : list string;
  DeletionTimestamp : option Time
}.

Record NamespacedName := mkNamespacedName {
  NamespacedName_Namespace : string;
  NamespacedName_Name : string
}.

(** *** SftpGoServer *)

Record VolumeConfig := mkVolumeConfig {
  VolumeConfig_StorageClass : option string;
  VolumeConfig_Size : string;
  VolumeConfig_MountPath : string
}.

Record SFTPConfig := mkSFTPConfig {
  SFTPConfig_Enabled : bool;
  SFTPConfig_Port : Z;
  SFTPConfig_HostKeys : list string;
  SFTPConfig_MaxAuthTries : Z;
  SFTPConfig_AllowedSSHCommands : list string;
  SFTPConfig_PasswordAuthentication : bool;
  SFTPConfig_KeyboardInteractiveAuth : bool
}.

Record HTTPConfig := mkHTTPConfig {
  HTTPConfig_Enabled : bool;
  HTTPConfig_Port : Z;
  HTTPConfig_EnableHTTPS : bool;
  HTTPConfig_CertificateFile : string;
  HTTPConfig_CertificateKeyFile : string;
  HTTPConfig_BaseURL : string
}.

(** [SFTPGOConfig]; the [Common], [FTP] and [WebDAV] blocks are read by no
    function of the controllers and are left out. *)
Record SFTPGOConfig := mkSFTPGOConfig {
  SFTPGOConfig_SFTP : option SFTPConfig;
  SFTPGOConfig_HTTP : option HTTPConfig
}.

(** [corev1.LocalObjectReference]. *)
Record LocalObjectReference := mkLocalObjectReference {
  LocalObjectReference_Name : string
}.

(** [SftpGoServerSpec]; [Database] and the scheduling fields ([Resources],
    [NodeSelector], [Tolerations], [Affinity]) are copied through by the
    controller, never inspected, and are left out. *)
Record SftpGoServerSpec := mkSftpGoServerSpec {
  SftpGoServerSpec_Image : string;
  SftpGoServerSpec_ImagePullPolicy : string;
  SftpGoServerSpec_Replicas : option Z;
  SftpGoServerSpec_ServiceAccount : string;
  SftpGoServerSpec_Config : SFTPGOConfig;
  SftpGoServerSpec_SFTPPort : Z;
  SftpGoServerSpec_WebPort : Z;
  SftpGoServerSpec_DataVolume : option VolumeConfig;
  SftpGoServerSpec_StorageBackend : string;
  SftpGoServerSpec_AdminSecretRef : option LocalObjectReference
}.

Record ServicePorts := mkServicePorts {
  ServicePorts_SFTP : Z;
  ServicePorts_Web : Z;
  ServicePorts_HTTP : Z;
  ServicePorts_FTP : Z
}.

Record SftpGoServerStatus := mkSftpGoServerStatus {
  SftpGoServerStatus_Replicas : Z;
  SftpGoServerStatus_ReadyReplicas : Z;
  SftpGoServerStatus_Conditions : list Condition;
  SftpGoServerStatus_Phase : string;
  SftpGoServerStatus_Ports : ServicePorts
}.

Record SftpGoServer := mkSftpGoServer {
  SftpGoServer_ObjectMeta : ObjectMeta;
  SftpGoServer_Spec : SftpGoServerSpec;
  SftpGoServer_Status : SftpGoServerStatus
}.

(** *** SftpGoUser *)

Record SecretRef := mkSecretRef {
  SecretRef_Name : string;
  SecretRef_Key : string
}.

Record VirtualFolder := mkVirtualFolder {
  VirtualFolder_VirtualPath : string;
  VirtualFolder_PhysicalPath : string;
  VirtualFolder_Quota : Z
}.

Record Quota := mkQuota {
  Quota_Size : Z;
  Quota_Files : Z
}.

(** Upload and download speed limits, in bytes per second, 0 = unlimited. *)
Record BandwidthLimits := mkBandwidthLimits {
  BandwidthLimits_Upload : Z;
  BandwidthLimits_Download : Z
}.

Record ServerRef := mkServerRef {
  ServerRef_Name : string;
  ServerRef_Namespace : string
}.

(** [SftpGoUserSpec]; [RateLimits], [MaxConcurrentTransfers], [Protocols],
    [Filters] and [Filesystem] are read by no function of the repository
    and are left out. *)
Record SftpGoUserSpec := mkSftpGoUserSpec {
  SftpGoUserSpec_Username : string;
  SftpGoUserSpec_Password : string;
  SftpGoUserSpec_PasswordSecretRef : option SecretRef;
  SftpGoUserSpec_PublicKeys : list string;
  SftpGoUserSpec_PublicKeysSecretRef : option SecretRef;
  SftpGoUserSpec_Email : string;
  SftpGoUserSpec_Status : string;
  SftpGoUserSpec_HomeDir : string;
  SftpGoUserSpec_VirtualFolders : list VirtualFolder;
  SftpGoUserSpec_Permissions : list string;
  SftpGoUserSpec_Quota : option Quota;
  SftpGoUserSpec_BandwidthLimits : option BandwidthLimits;
  SftpGoUserSpec_MaxSessions : Z;
  SftpGoUserSpec_AllowedIP : list string;
  SftpGoUserSpec_DeniedIP : list string;
  SftpGoUserSpec_Groups : list string;
  SftpGoUserSpec_ServerRef : ServerRef
}.

Record SftpGoUserStatus := mkSftpGoUserStatus {
  SftpGoUserStatus_Phase : string;
  SftpGoUserStatus_UserID : Z;
  SftpGoUserStatus_Conditions : list Condition;
  SftpGoUserStatus_LastSynced : option Time
}.

Record SftpGoUser := mkSftpGoUser {
  SftpGoUser_ObjectMeta : ObjectMeta;
  SftpGoUser_Spec : SftpGoUserSpec;
  SftpGoUser_Status : SftpGoUserStatus
}.

(** [corev1.Secret]: its metadata is not read; [Data] maps a key to bytes. *)
Record Secret := mkSecret {
  Secret_Data : gmap string string
}.

End v1alpha1.

Import Go v1alpha1.

(* ================================================================== *)
(** ** internal/sftpgo/client.go: payload and pure functions           *)
(* ================================================================== *)

(** [Client]; its [HTTPClient] (a 30 second timeout around the transport)
    is the [http_Do] of the world below. *)
Record Client := mkClient {
  Client_BaseURL : string;
  Client_Username : string;
  Client_Password : string
}.

Definition NewClient (baseURL username password : string) : Client :=
  {| Client_BaseURL := baseURL;
     Client_Username := username;
     Client_Password := password |}.

(** [ServiceURL]: [http://%s.%s.svc.cluster.local:%d]. *)
Definition ServiceURL (name namespace : string) (port : Z) : string :=
  "http://" +:+ name +:+ "." +:+ namespace +:+ ".svc.cluster.local:"
    +:+ itoa port.

Record VF := mkVF {
  VF_VirtualPath : string;
  VF_MappedPath : string;
  VF_QuotaSize : Z;
  VF_QuotaFiles : Z
}.

Record GM := mkGM {
  GM_Name : string;
  GM_Type : Z
}.

(** [UserPayload], the user structure of the SFTPGo API. *)
Record UserPayload := mkUserPayload {
  UserPayload_ID : Z;
  UserPayload_Username : string;
  UserPayload_Status : Z;
  UserPayload_Email : string;
  UserPayload_Password : string;
  UserPayload_PublicKeys : list string;
  UserPayload_HomeDir : string;
  UserPayload_VirtualFolders : list VF;
  UserPayload_Permissions : gmap string (list string);
  UserPayload_QuotaSize : Z;
  UserPayload_QuotaFiles : Z;
  UserPayload_UploadBandwidth : Z;
  UserPayload_DownloadBandwidth : Z;
  UserPayload_MaxSessions : Z;
  UserPayload_AllowedIP : list string;
  UserPayload_DeniedIP : list string;
  UserPayload_Groups : list GM
}.

(** [payload.ID = id] and [payload.Password = pw]. *)
Definition UserPayload_set_ID (id : Z) (p : UserPayload) : UserPayload :=
  {| UserPayload_ID := id;
     UserPayload_Username := UserPayload_Username p;
     UserPayload_Status := UserPayload_Status p;
     UserPayload_Email := UserPayload_Email p;
     UserPayload_Password := UserPayload_Password p;
     UserPayload_PublicKeys := UserPayload_PublicKeys p;
     UserPayload_HomeDir := UserPayload_HomeDir p;
     UserPayload_VirtualFolders := UserPayload_VirtualFolders p;
     UserPayload_Permissions := UserPayload_Permissions p;
     UserPayload_QuotaSize := UserPayload_QuotaSize p;
     UserPayload_QuotaFiles := UserPayload_QuotaFiles p;
     UserPayload_UploadBandwidth := UserPayload_UploadBandwidth p;
     UserPayload_DownloadBandwidth := UserPayload_DownloadBandwidth p;
     UserPayload_MaxSessions := UserPayload_MaxSessions p;
     UserPayload_AllowedIP := UserPayload_AllowedIP p;
     UserPayload_DeniedIP := UserPayload_DeniedIP p;
     UserPayload_Groups := UserPayload_Groups p |}.

Definition UserPayload_set_Password (pw : string) (p : UserPayload) : UserPayload :=
  {| UserPayload_ID := UserPayload_ID p;
     UserPayload_Username := UserPayload_Username p;
     UserPayload_Status := UserPayload_Status p;
     UserPayload_Email := UserPayload_Email p;
     UserPayload_Password := pw;
     UserPayload_PublicKeys := UserPayload_PublicKeys p;
     UserPayload_HomeDir := UserPayload_HomeDir p;
     UserPayload_VirtualFolders := UserPayload_VirtualFolders p;
     UserPayload_Permissions := UserPayload_Permissions p;
     UserPayload_QuotaSize := UserPayload_QuotaSize p;
     UserPayload_QuotaFiles := UserPayload_QuotaFiles p;
     UserPayload_UploadBandwidth := UserPayload_UploadBandwidth p;
     UserPayload_DownloadBandwidth := UserPayload_DownloadBandwidth p;
     UserPayload_MaxSessions := UserPayload_MaxSessions p;
     UserPayload_AllowedIP := UserPayload_AllowedIP p;
     UserPayload_DeniedIP := UserPayload_DeniedIP p;
     UserPayload_Groups := UserPayload_Groups p |}.

(** *** [json.Marshal] on the payload, following the struct tags *)

(** A field tagged [omitempty] is left out when its value is the empty
    value of its type: 0, the empty string, an empty slice or map. *)
Definition omit_num (k : string) (n : Z) : list (string * json) :=
  if n =? 0 then [] else [(k, JNum n)].

Definition omit_str (k : string) (s : string) : list (string * json) :=
  if String.eqb s "" then [] else [(k, JStr s)].

(** A slice is left out when it is empty, whatever its elements. *)
Definition omit_list {A} (k : string) (f : A -> json) (l : list A)
  : list (string * json) :=
  match l with
  | [] => []
  | _ :: _ => [(k, JArr (List.map f l))]
  end.

Definition marshal_VF (v : VF) : json :=
  JObj ([("virtual_path", JStr (VF_VirtualPath v));
         ("mapped_path", JStr (VF_MappedPath v))]
        ++ omit_num "quota_size" (VF_QuotaSize v)
        ++ omit_num "quota_files" (VF_QuotaFiles v)).

Definition marshal_GM (g : GM) : json :=
  JObj [("name", JStr (GM_Name g)); ("type", JNum (GM_Type g))].

(** A [map[string][]string]: one member per key ([UserFromCR] only ever
    builds the one-key map on the root path); left out when empty. *)
Definition omit_map (k : string) (m : gmap string (list string))
  : list (string * json) :=
  if decide (m = ∅) then []
  else [(k, JObj (List.map (fun kv => (fst kv, JArr (List.map JStr (snd kv))))
                           (map_to_list m)))].

Definition marshal_UserPayload (p : UserPayload) : json :=
  JObj (omit_num "id" (UserPayload_ID p)
        ++ [("username", JStr (UserPayload_Username p))]
        ++ [("status", JNum (UserPayload_Status p))]
        ++ omit_str "email" (UserPayload_Email p)
        ++ omit_str "password" (UserPayload_Password p)
        ++ omit_list "public_keys" JStr (UserPayload_PublicKeys p)
        ++ [("home_dir", JStr (UserPayload_HomeDir p))]
        ++ omit_list "virtual_folders" marshal_VF (UserPayload_VirtualFolders p)
        ++ omit_map "permissions" (UserPayload_Permissions p)
        ++ omit_num "quota_size" (UserPayload_QuotaSize p)
        ++ omit_num "quota_files" (UserPayload_QuotaFiles p)
        ++ omit_num "upload_bandwidth" (UserPayload_UploadBandwidth p)
        ++ omit_num "download_bandwidth" (UserPayload_DownloadBandwidth p)
        ++ omit_num "max_sessions" (UserPayload_MaxSessions p)
        ++ omit_list "allowed_ip" JStr (UserPayload_AllowedIP p)
        ++ omit_list "denied_ip" JStr (UserPayload_DeniedIP p)
        ++ omit_list "groups" marshal_GM (UserPayload_Groups p)).

(** *** [UserFromCR]: the SftpGoUser spec as an API payload *)

Definition UserFromCR (spec : SftpGoUserSpec) (password : string)
    (publicKeys : list string) : UserPayload :=
  let status := if String.eqb (SftpGoUserSpec_Status spec) "disabled" then 0 else 1 in
  let perm : gmap string (list string) :=
    match SftpGoUserSpec_Permissions spec with
    | _ :: _ => {[ "/" := SftpGoUserSpec_Permissions spec ]}
    | [] => {[ "/" := ["*"] ]}
    end in
  {| UserPayload_ID := 0;
     UserPayload_Username := SftpGoUserSpec_Username spec;
     UserPayload_Status := status;
     UserPayload_Email := SftpGoUserSpec_Email spec;
     UserPayload_Password := if String.eqb password "" then "" else password;
     UserPayload_PublicKeys :=
       match publicKeys with _ :: _ => publicKeys | [] => [] end;
     UserPayload_HomeDir := SftpGoUserSpec_HomeDir spec;
     UserPayload_VirtualFolders :=
       List.map (fun vf => {| VF_VirtualPath := VirtualFolder_VirtualPath vf;
                              VF_MappedPath := VirtualFolder_PhysicalPath vf;
                              VF_QuotaSize := VirtualFolder_Quota vf;
                              VF_QuotaFiles := 0 |})
                (SftpGoUserSpec_VirtualFolders spec);
     UserPayload_Permissions := perm;
     UserPayload_QuotaSize :=
       match SftpGoUserSpec_Quota spec with
       | Some q => Quota_Size q
       | None => 0
       end;
     UserPayload_QuotaFiles :=
       match SftpGoUserSpec_Quota spec with
       | Some q => Quota_Files q
       | None => 0
       end;
     (* SFTPGO API expects KB/s *)
     UserPayload_UploadBandwidth :=
       match SftpGoUserSpec_BandwidthLimits spec with
       | Some b => int64_div (BandwidthLimits_Upload b) 1024
       | None => 0
       end;
     UserPayload_DownloadBandwidth :=
       match SftpGoUserSpec_BandwidthLimits spec with
       | Some b => int64_div (BandwidthLimits_Download b) 1024
       | None => 0
       end;
     UserPayload_MaxSessions :=
       if 0 <? SftpGoUserSpec_MaxSessions spec
       then SftpGoUserSpec_MaxSessions spec else 0;
     UserPayload_AllowedIP :=
       match SftpGoUserSpec_AllowedIP spec with _ :: _ as l => l | [] => [] end;
     UserPayload_DeniedIP :=
       match SftpGoUserSpec_DeniedIP spec with _ :: _ as l => l | [] => [] end;
     UserPayload_Groups :=
       List.map (fun g => {| GM_Name := g; GM_Type := 1 |})
                (SftpGoUserSpec_Groups spec) |}.

(* ================================================================== *)
(** ** The world outside the process                                   *)
(* ================================================================== *)

(** An [*http.Request] as the client builds it, and the part of an
    [*http.Response] the client reads.  [Response_Decoded] is what
    [json.NewDecoder(resp.Body).Decode(&user)] makes of the body. *)
Record Request := mkRequest {
  Request_Method : string;
  Request_URL : string;
  Request_BasicAuth : option (string * string);
  Request_ContentType : option string;
  Request_Body : option json
}.

Record Response := mkResponse {
  Response_StatusCode : Z;
  Response_Decoded : error + UserPayload
}.

Definition StatusOK : Z := 200.
Definition StatusCreated : Z := 201.
Definition StatusNotFound : Z := 404.

(** A call that leaves the process. *)
Inductive event :=
| EvGetUser (key : NamespacedName)
| EvGetServer (key : NamespacedName)
| EvGetSecret (key : NamespacedName)
| EvUpdate (obj : SftpGoUser)
| EvStatusUpdate (obj : SftpGoUser)
| EvHTTP (req : Request).

Definition trace := list event.

(** The answers of the outside world.  Every answer may depend on the calls
    made before it: the object store and the remote service change under
    the controller's feet.  [http_NewRequest] is the error, if any, of
    [http.NewRequest] for a method and a URL. *)
Record World := mkWorld {
  kube_Get_SftpGoUser : trace -> NamespacedName -> error + SftpGoUser;
  kube_Get_SftpGoServer : trace -> NamespacedName -> error + SftpGoServer;
  kube_Get_Secret : trace -> NamespacedName -> error + Secret;
  kube_Update : trace -> SftpGoUser -> option error;
  kube_Status_Update : trace -> SftpGoUser -> option error;
  http_NewRequest : string -> string -> option error;
  http_Do : trace -> Request -> error + Response;
  time_Now : trace -> Time
}.

(** A computation that makes calls: from the calls made so far to a
    result and the calls made by then. *)
Definition Run (A : Type) : Type := trace -> A * trace.

Definition ret {A} (a : A) : Run A := fun t => (a, t).

Definition bind {A B} (m : Run A) (k : A -> Run B) : Run B :=
  fun t => let (a, t') := m t in k a t'.

Declare Scope run_scope.
Delimit Scope run_scope with run.
Notation "x <- m ;; k" := (bind m (fun x => k))
  (at level 100, m at next level, right associativity) : run_scope.
Local Open Scope run_scope.

(** The calls of a trace that reach the remote SFTPGo service. *)
Definition http_requests (t : trace) : list Request :=
  omap (fun e => match e with EvHTTP r => Some r | _ => None end) t.

(** The objects whose status was written, in order. *)
Definition status_writes (t : trace) : list SftpGoUser :=
  omap (fun e => match e with EvStatusUpdate u => Some u | _ => None end) t.

(** The objects written with [r.Update], in order. *)
Definition object_writes (t : trace) : list SftpGoUser :=
  omap (fun e => match e with EvUpdate u => Some u | _ => None end) t.

Section WithWorld.

Variable W : World.

Definition Get_SftpGoUser (key : NamespacedName) : Run (error + SftpGoUser) :=
  fun t => (kube_Get_SftpGoUser W t key, t ++ [EvGetUser key]).

Definition Get_SftpGoServer (key : NamespacedName) : Run (error + SftpGoServer) :=
  fun t => (kube_Get_SftpGoServer W t key, t ++ [EvGetServer key]).

Definition Get_Secret (key : NamespacedName) : Run (error + Secret) :=
  fun t => (kube_Get_Secret W t key, t ++ [EvGetSecret key]).

Definition Update (obj : SftpGoUser) : Run (option error) :=
  fun t => (kube_Update W t obj, t ++ [EvUpdate obj]).

Definition Status_Update (obj : SftpGoUser) : Run (option error) :=
  fun t => (kube_Status_Update W t obj, t ++ [EvStatusUpdate obj]).

Definition HTTPClient_Do (req : Request) : Run (error + Response) :=
  fun t => (http_Do W t req, t ++ [EvHTTP req]).

Definition Now : Run Time := fun t => (time_Now W t, t).

(* ================================================================== *)
(** ** internal/sftpgo/client.go: the requests                         *)
(* ================================================================== *)

(** [http.NewRequest] followed by [c.setAuth]: basic authentication is set
    when both the admin name and password are non-empty. *)
Definition setAuth (c : Client) (req : Request) : Request :=
  if negb (String.eqb (Client_Username c) "")
     && negb (String.eqb (Client_Password c) "")
  then {| Request_Method := Request_Method req;
          Request_URL := Request_URL req;
          Request_BasicAuth := Some (Client_Username c, Client_Password c);
          Request_ContentType := Request_ContentType req;
          Request_Body := Request_Body req |}
  else req.

Definition NewRequest (method url : string) (body : option json)
  : error + Request :=
  match http_NewRequest W method url with
  | Some err => inl err
  | None => inr {| Request_Method := method;
                   Request_URL := url;
                   Request_BasicAuth := None;
                   Request_ContentType := None;
                   Request_Body := body |}
  end.

Definition Header_Set_ContentType (v : string) (req : Request) : Request :=
  {| Request_Method := Request_Method req;
     Request_URL := Request_URL req;
     Request_BasicAuth := Request_BasicAuth req;
     Request_ContentType := Some v;
     Request_Body := Request_Body req |}.

(** [GetUser] fetches a user by username; 404 is absence, not an error. *)
Definition GetUser (c : Client) (username : string)
  : Run (option UserPayload * option error) :=
  match NewRequest "GET" (Client_BaseURL c +:+ "/api/v2/users/" +:+ username) None with
  | inl err => ret (None, Some err)
  | inr req =>
      let req := setAuth c req in
      r <- HTTPClient_Do req ;;
      match r with
      | inl err => ret (None, Some err)
      | inr resp =>
          if Response_StatusCode resp =? StatusNotFound then ret (None, None)
          else if negb (Response_StatusCode resp =? StatusOK) then
            ret (None, Some (Errorf ("API returned " +:+ itoa (Response_StatusCode resp))))
          else match Response_Decoded resp with
               | inl err => ret (None, Some err)
               | inr user => ret (Some user, None)
               end
      end
  end.

(** [json.Marshal] cannot fail on a [UserPayload] (strings, integers,
    slices and a string-keyed map), so [upsertUser] starts at the URL. *)
Definition upsertUser (c : Client) (method pathSuffix : string)
    (payload : UserPayload) : Run (option UserPayload * option error) :=
  let body := marshal_UserPayload payload in
  let url := Client_BaseURL c +:+ "/api/v2/users" in
  let url := if negb (String.eqb pathSuffix "") then url +:+ "/" +:+ pathSuffix
             else url in
  match NewRequest method url (Some body) with
  | inl err => ret (None, Some err)
  | inr req =>
      let req := setAuth c req in
      let req := Header_Set_ContentType "application/json" req in
      r <- HTTPClient_Do req ;;
      match r with
      | inl err => ret (None, Some err)
      | inr resp =>
          if negb (Response_StatusCode resp =? StatusOK)
             && negb (Response_StatusCode resp =? StatusCreated) then
            ret (None, Some (Errorf ("API returned " +:+ itoa (Response_StatusCode resp))))
          else match Response_Decoded resp with
               | inl err => ret (None, Some err)
               | inr user => ret (Some user, None)
               end
      end
  end.

(** [CreateUser] creates a new user. *)
Definition CreateUser (c : Client) (payload : UserPayload)
  : Run (option UserPayload * option error) :=
  upsertUser c "POST" "" payload.

(** [UpdateUser] updates an existing user. *)
Definition UpdateUser (c : Client) (username : string) (payload : UserPayload)
  : Run (option UserPayload * option error) :=
  upsertUser c "PUT" username payload.

(** [DeleteUser] deletes a user. *)
Definition DeleteUser (c : Client) (username : string) : Run (option error) :=
  match NewRequest "DELETE" (Client_BaseURL c +:+ "/api/v2/users/" +:+ username) None with
  | inl err => ret (Some err)
  | inr req =>
      let req := setAuth c req in
      r <- HTTPClient_Do req ;;
      match r with
      | inl err => ret (Some err)
      | inr resp =>
          if negb (Response_StatusCode resp =? StatusOK) then
            ret (Some (Errorf ("API returned " +:+ itoa (Response_StatusCode resp))))
          else ret None
      end
  end.

End WithWorld.

(* ================================================================== *)
(** ** internal/controller: desired state of an SftpGoServer           *)
(* ================================================================== *)

Definition sftpgoServerFinalizer : string := "sftpgo.sftpgo.io/finalizer".
Definition sftpgoDefaultImage : string := "docker.io/drakkan/sftpgo:latest".

(** [applyDefaults] works on a deep copy of the spec and fills the five
    fields that are at their zero value. *)
Definition applyDefaults (s : SftpGoServer) : SftpGoServerSpec :=
  let spec := SftpGoServer_Spec s in
  {| SftpGoServerSpec_Image :=
       if String.eqb (SftpGoServerSpec_Image spec) "" then sftpgoDefaultImage
       else SftpGoServerSpec_Image spec;
     SftpGoServerSpec_ImagePullPolicy := SftpGoServerSpec_ImagePullPolicy spec;
     SftpGoServerSpec_Replicas :=
       match SftpGoServerSpec_Replicas spec with
       | None => Some 1
       | Some n => Some n
       end;
     SftpGoServerSpec_ServiceAccount := SftpGoServerSpec_ServiceAccount spec;
     SftpGoServerSpec_Config := SftpGoServerSpec_Config spec;
     SftpGoServerSpec_SFTPPort :=
       if SftpGoServerSpec_SFTPPort spec =? 0 then 2022
       else SftpGoServerSpec_SFTPPort spec;
     SftpGoServerSpec_WebPort :=
       if SftpGoServerSpec_WebPort spec =? 0 then 8080
       else SftpGoServerSpec_WebPort spec;
     SftpGoServerSpec_DataVolume := SftpGoServerSpec_DataVolume spec;
     SftpGoServerSpec_StorageBackend :=
       if String.eqb (SftpGoServerSpec_StorageBackend spec) "" then "sqlite"
       else SftpGoServerSpec_StorageBackend spec;
     SftpGoServerSpec_AdminSecretRef := SftpGoServerSpec_AdminSecretRef spec |}.

Definition getSFTPPort (spec : SftpGoServerSpec) : Z :=
  match SFTPGOConfig_SFTP (SftpGoServerSpec_Config spec) with
  | Some c =>
      if 0 <? SFTPConfig_Port c then SFTPConfig_Port c
      else SftpGoServerSpec_SFTPPort spec
  | None => SftpGoServerSpec_SFTPPort spec
  end.

Definition getWebPort (spec : SftpGoServerSpec) : Z :=
  match SFTPGOConfig_HTTP (SftpGoServerSpec_Config spec) with
  | Some c =>
      if 0 <? HTTPConfig_Port c then HTTPConfig_Port c
      else SftpGoServerSpec_WebPort spec
  | None => SftpGoServerSpec_WebPort spec
  end.

(** The three pieces of text around the two verbs of the configuration
    template of [sftpgoMinimalConfig]. *)
Definition config_head : string := raw
"{
  'sftpd': {
    'bindings': [{'port': ".

Definition config_middle : string := raw
", 'address': '', 'apply_proxy_config': true}],
    'max_auth_tries': 0,
    'host_keys': [],
    'keyboard_interactive_authentication': true,
    'password_authentication': true
  },
  'data_provider': {
    ".

Definition config_tail : string := raw
"
  },
  'httpd': {
    'bindings': [{'port': 8080, 'address': '', 'enable_web_admin': true, 'enable_rest_api': true}]
  }
}".

Definition sftpgoMinimalConfig (spec : SftpGoServerSpec)
    (createDefaultAdmin : bool) : string :=
  let sftpPort := 2022 in
  let sftpPort :=
    if 0 <? SftpGoServerSpec_SFTPPort spec then SftpGoServerSpec_SFTPPort spec
    else sftpPort in
  let sftpPort :=
    match SFTPGOConfig_SFTP (SftpGoServerSpec_Config spec) with
    | Some c => if 0 <? SFTPConfig_Port c then SFTPConfig_Port c else sftpPort
    | None => sftpPort
    end in
  let dataProvider :=
    raw "'driver': '" +:+ SftpGoServerSpec_StorageBackend spec +:+ raw "',
    'name': '/srv/sftpgo/sftpgo.db'" in
  let dataProvider :=
    if createDefaultAdmin then dataProvider +:+ raw ",
    'create_default_admin': true"
    else dataProvider in
  config_head +:+ itoa sftpPort +:+ config_middle +:+ dataProvider +:+ config_tail.

(** [corev1.ConfigMap], [corev1.ServicePort] and [corev1.Service], as far as
    the controller fills them. *)
Record ConfigMap := mkConfigMap {
  ConfigMap_Name : string;
  ConfigMap_Namespace : string;
  ConfigMap_Data : gmap string string
}.

Record ServicePort := mkServicePort {
  ServicePort_Name : string;
  ServicePort_Port : Z;
  ServicePort_TargetPort : Z;
  ServicePort_Protocol : string
}.

Record Service := mkService {
  Service_Name : string;
  Service_Namespace : string;
  Service_Selector : gmap string string;
  Service_Ports : list ServicePort
}.

Definition configMapForServer (s : SftpGoServer) : ConfigMap :=
  let spec := applyDefaults s in
  let config :=
    sftpgoMinimalConfig spec
      (match SftpGoServerSpec_AdminSecretRef spec with Some _ => true | None => false end) in
  {| ConfigMap_Name := Name (SftpGoServer_ObjectMeta s);
     ConfigMap_Namespace := Namespace (SftpGoServer_ObjectMeta s);
     ConfigMap_Data := {[ "sftpgo.json" := config ]} |}.

Definition serviceForServer (s : SftpGoServer) : Service :=
  let spec := applyDefaults s in
  let labels : gmap string string :=
    <[ "app" := "sftpgo" ]> {[ "controller" := Name (SftpGoServer_ObjectMeta s) ]} in
  {| Service_Name := Name (SftpGoServer_ObjectMeta s);
     Service_Namespace := Namespace (SftpGoServer_ObjectMeta s);
     Service_Selector := labels;
     Service_Ports :=
       [ {| ServicePort_Name := "sftp"; ServicePort_Port := getSFTPPort spec;
            ServicePort_TargetPort := getSFTPPort spec;
            ServicePort_Protocol := "TCP" |};
         {| ServicePort_Name := "web"; ServicePort_Port := getWebPort spec;
            ServicePort_TargetPort := getWebPort spec;
            ServicePort_Protocol := "TCP" |} ] |}.

(* ================================================================== *)
(** ** internal/controller: the SftpGoUser reconciler                  *)
(* ================================================================== *)

Definition sftpgoUserFinalizer : string := "sftpgo.sftpgo.io/user-finalizer".

(** [ctrl.Result]. *)
Record Result := mkResult { Result_Requeue : bool }.

(** *** Helpers of controller-runtime and apimachinery *)

Definition SftpGoUser_set_Finalizers (fs : list string) (u : SftpGoUser) : SftpGoUser :=
  {| SftpGoUser_ObjectMeta :=
       {| Name := Name (SftpGoUser_ObjectMeta u);
          Namespace := Namespace (SftpGoUser_ObjectMeta u);
          Finalizers := fs;
          DeletionTimestamp := DeletionTimestamp (SftpGoUser_ObjectMeta u) |};
     SftpGoUser_Spec := SftpGoUser_Spec u;
     SftpGoUser_Status := SftpGoUser_Status u |}.

Definition SftpGoUser_set_Status (st : SftpGoUserStatus) (u : SftpGoUser) : SftpGoUser :=
  {| SftpGoUser_ObjectMeta := SftpGoUser_ObjectMeta u;
     SftpGoUser_Spec := SftpGoUser_Spec u;
     SftpGoUser_Status := st |}.

Definition set_Conditions (cs : list Condition) (u : SftpGoUser) : SftpGoUser :=
  SftpGoUser_set_Status
    {| SftpGoUserStatus_Phase := SftpGoUserStatus_Phase (SftpGoUser_Status u);
       SftpGoUserStatus_UserID := SftpGoUserStatus_UserID (SftpGoUser_Status u);
       SftpGoUserStatus_Conditions := cs;
       SftpGoUserStatus_LastSynced := SftpGoUserStatus_LastSynced (SftpGoUser_Status u) |} u.

Definition set_Phase (ph : string) (u : SftpGoUser) : SftpGoUser :=
  SftpGoUser_set_Status
    {| SftpGoUserStatus_Phase := ph;
       SftpGoUserStatus_UserID := SftpGoUserStatus_UserID (SftpGoUser_Status u);
       SftpGoUserStatus_Conditions := SftpGoUserStatus_Conditions (SftpGoUser_Status u);
       SftpGoUserStatus_LastSynced := SftpGoUserStatus_LastSynced (SftpGoUser_Status u) |} u.

Definition set_LastSynced (ts : option Time) (u : SftpGoUser) : SftpGoUser :=
  SftpGoUser_set_Status
    {| SftpGoUserStatus_Phase := SftpGoUserStatus_Phase (SftpGoUser_Status u);
       SftpGoUserStatus_UserID := SftpGoUserStatus_UserID (SftpGoUser_Status u);
       SftpGoUserStatus_Conditions := SftpGoUserStatus_Conditions (SftpGoUser_Status u);
       SftpGoUserStatus_LastSynced := ts |} u.

Definition set_UserID (id : Z) (u : SftpGoUser) : SftpGoUser :=
  SftpGoUser_set_Status
    {| SftpGoUserStatus_Phase := SftpGoUserStatus_Phase (SftpGoUser_Status u);
       SftpGoUserStatus_UserID := id;
       SftpGoUserStatus_Conditions := SftpGoUserStatus_Conditions (SftpGoUser_Status u);
       SftpGoUserStatus_LastSynced := SftpGoUserStatus_LastSynced (SftpGoUser_Status u) |} u.

(** [controllerutil.ContainsFinalizer], [AddFinalizer], [RemoveFinalizer]. *)
Definition ContainsFinalizer (u : SftpGoUser) (f : string) : bool :=
  existsb (String.eqb f) (Finalizers (SftpGoUser_ObjectMeta u)).

Definition AddFinalizer (u : SftpGoUser) (f : string) : SftpGoUser :=
  if ContainsFinalizer u f then u
  else SftpGoUser_set_Finalizers (Finalizers (SftpGoUser_ObjectMeta u) ++ [f]) u.

Definition RemoveFinalizer (u : SftpGoUser) (f : string) : SftpGoUser :=
  SftpGoUser_set_Finalizers
    (List.filter (fun x => negb (String.eqb x f)) (Finalizers (SftpGoUser_ObjectMeta u))) u.

(** [meta.FindStatusCondition]: the first condition of the given type. *)
Fixpoint FindStatusCondition (conds : list Condition) (ty : string)
  : option Condition :=
  match conds with
  | [] => None
  | c :: rest =>
      if String.eqb (Condition_Type c) ty then Some c
      else FindStatusCondition rest ty
  end.

(** [meta.SetStatusCondition]: a condition of a new type is appended, stamped
    with the current time when it carries none; a condition of a known type
    is overwritten in place, and its transition time moves only when the
    status changes. *)
Fixpoint SetStatusCondition (now : Time) (conds : list Condition)
    (newCondition : Condition) : list Condition :=
  match conds with
  | [] =>
      [ {| Condition_Type := Condition_Type newCondition;
           Condition_Status := Condition_Status newCondition;
           Condition_ObservedGeneration := Condition_ObservedGeneration newCondition;
           Condition_LastTransitionTime :=
             if Condition_LastTransitionTime newCondition =? 0 then now
             else Condition_LastTransitionTime newCondition;
           Condition_Reason := Condition_Reason newCondition;
           Condition_Message := Condition_Message newCondition |} ]
  | c :: rest =>
      if String.eqb (Condition_Type c) (Condition_Type newCondition) then
        {| Condition_Type := Condition_Type c;
           Condition_Status := Condition_Status newCondition;
           Condition_ObservedGeneration := Condition_ObservedGeneration newCondition;
           Condition_LastTransitionTime :=
             if String.eqb (Condition_Status c) (Condition_Status newCondition)
             then Condition_LastTransitionTime c
             else if Condition_LastTransitionTime newCondition =? 0 then now
                  else Condition_LastTransitionTime newCondition;
           Condition_Reason := Condition_Reason newCondition;
           Condition_Message := Condition_Message newCondition |} :: rest
      else c :: SetStatusCondition now rest newCondition
  end.

(** The [metav1.Condition] literal of the reconciler: type, status, reason
    and message; the other fields are zero. *)
Definition condition (ty status reason message : string) : Condition :=
  {| Condition_Type := ty;
     Condition_Status := status;
     Condition_ObservedGeneration := 0;
     Condition_LastTransitionTime := 0;
     Condition_Reason := reason;
     Condition_Message := message |}.

(** [string(secret.Data[key])]: a missing key reads as the empty string. *)
Definition Secret_string (s : Secret) (key : string) : string :=
  default "" (Secret_Data s !! key).

Section UserReconciler.

Variable W : World.

(** [meta.SetStatusCondition(&user.Status.Conditions, c)]. *)
Definition setCondition (c : Condition) (user : SftpGoUser) : Run SftpGoUser :=
  now <- Now W ;;
  ret (set_Conditions
         (SetStatusCondition now (SftpGoUserStatus_Conditions (SftpGoUser_Status user)) c)
         user).

Definition getAdminCredentials (server : SftpGoServer)
  : Run (string * string * option error) :=
  match SftpGoServerSpec_AdminSecretRef (SftpGoServer_Spec server) with
  | None => ret ("", "", None)
  | Some ref =>
      if String.eqb (LocalObjectReference_Name ref) "" then ret ("", "", None)
      else
        r <- Get_Secret W
               {| NamespacedName_Name := LocalObjectReference_Name ref;
                  NamespacedName_Namespace := Namespace (SftpGoServer_ObjectMeta server) |} ;;
        match r with
        | inl err => ret ("", "", Some err)
        | inr secret =>
            let username := Secret_string secret "username" in
            let password := Secret_string secret "password" in
            ret (username, password, None)
        end
  end.

Definition resolvePassword (user : SftpGoUser) : Run (string * option error) :=
  if negb (String.eqb (SftpGoUserSpec_Password (SftpGoUser_Spec user)) "") then
    ret (SftpGoUserSpec_Password (SftpGoUser_Spec user), None)
  else
    match SftpGoUserSpec_PasswordSecretRef (SftpGoUser_Spec user) with
    | Some ref =>
        r <- Get_Secret W
               {| NamespacedName_Name := SecretRef_Name ref;
                  NamespacedName_Namespace := Namespace (SftpGoUser_ObjectMeta user) |} ;;
        match r with
        | inl err => ret ("", Some err)
        | inr secret => ret (Secret_string secret (SecretRef_Key ref), None)
        end
    | None => ret ("", None)
    end.

(** The loop of [resolvePublicKeys] over the lines of the secret value:
    lines are trimmed; blank lines and lines starting with [#] are dropped. *)
Definition keysOfLines (raw : string) : list string :=
  List.filter (fun k => negb (String.eqb k "") && negb (HasPrefix k "#"))
              (List.map TrimSpace (SplitLines raw)).

Definition resolvePublicKeys (user : SftpGoUser) : Run (list string * option error) :=
  match SftpGoUserSpec_PublicKeys (SftpGoUser_Spec user) with
  | _ :: _ => ret (SftpGoUserSpec_PublicKeys (SftpGoUser_Spec user), None)
  | [] =>
      match SftpGoUserSpec_PublicKeysSecretRef (SftpGoUser_Spec user) with
      | Some ref =>
          r <- Get_Secret W
                 {| NamespacedName_Name := SecretRef_Name ref;
                    NamespacedName_Namespace := Namespace (SftpGoUser_ObjectMeta user) |} ;;
          match r with
          | inl err => ret ([], Some err)
          | inr secret => ret (keysOfLines (Secret_string secret (SecretRef_Key ref)), None)
          end
      | None => ret ([], None)
      end
  end.

(** The namespace of the referenced server: the user's own when unset. *)
Definition serverNamespace (user : SftpGoUser) : string :=
  let ns := ServerRef_Namespace (SftpGoUserSpec_ServerRef (SftpGoUser_Spec user)) in
  if String.eqb ns "" then Namespace (SftpGoUser_ObjectMeta user) else ns.

Definition serverKey (user : SftpGoUser) : NamespacedName :=
  {| NamespacedName_Name := ServerRef_Name (SftpGoUserSpec_ServerRef (SftpGoUser_Spec user));
     NamespacedName_Namespace := serverNamespace user |}.

(** The web port the user reconciler dials: the server's [WebPort] when
    positive, 8080 otherwise. *)
Definition apiPort (server : SftpGoServer) : Z :=
  if 0 <? SftpGoServerSpec_WebPort (SftpGoServer_Spec server)
  then SftpGoServerSpec_WebPort (SftpGoServer_Spec server)
  else 8080.

Definition deleteUserFromSFTPGO (user : SftpGoUser) : Run (option error) :=
  let ns := serverNamespace user in
  r <- Get_SftpGoServer W (serverKey user) ;;
  match r with
  | inl err =>
      if error_IsNotFound err then ret None (* Server gone, nothing to delete *)
      else ret (Some err)
  | inr server =>
      c <- getAdminCredentials server ;;
      let '(username, password, err) := c in
      match err with
      | Some _ => ret None (* Can't authenticate, skip delete *)
      | None =>
          if String.eqb username "" || String.eqb password "" then ret None
          else
            let client :=
              NewClient (ServiceURL (Name (SftpGoServer_ObjectMeta server)) ns (apiPort server))
                        username password in
            DeleteUser W client (SftpGoUserSpec_Username (SftpGoUser_Spec user))
      end
  end.

(** What [Reconcile] holds in its local variables once the payload is built:
    the fetched user, the API client, the resolved password and public keys,
    and the [payload]. *)
Record resolved := mkResolved {
  resolved_user : SftpGoUser;
  resolved_client : Client;
  resolved_userPassword : string;
  resolved_publicKeys : list string;
  resolved_payload : UserPayload
}.

(** A failed status write is dropped by the reconciler on its failure paths:
    [_ = r.Status().Update(ctx, user)]. *)
Definition fail (reason message phase : string) (user : SftpGoUser)
    (res : Result * option error) : Run (Result * option error) :=
  user <- setCondition (condition "Ready" ConditionFalse reason message) user ;;
  let user := set_Phase phase user in
  _ <- Status_Update W user ;;
  ret res.

(** [Reconcile] is one Go function.  It is written here in two parts, cut
    after the statement that builds the payload: [Reconcile_resolve] runs
    from the fetch of the user to [UserFromCR] and yields either the value
    the function has returned ([inl]) or its local variables ([inr]);
    [Reconcile_sync] is the rest, from [client.GetUser] to the end.
    Logging is left out. *)
Definition Reconcile_resolve (req : NamespacedName)
  : Run ((Result * option error) + resolved) :=
  r <- Get_SftpGoUser W req ;;
  match r with
  | inl err =>
      if error_IsNotFound err then ret (inl (mkResult false, None))
      else ret (inl (mkResult false, Some err))
  | inr user =>
  (* Add finalizer for cleanup on delete *)
  if negb (ContainsFinalizer user sftpgoUserFinalizer) then
    let user := AddFinalizer user sftpgoUserFinalizer in
    e <- Update W user ;;
    match e with
    | Some err => ret (inl (mkResult false, Some err))
    | None => ret (inl (mkResult true, None))
    end
  (* Handle deletion - remove user from SFTPGO *)
  else if negb (Time_IsZero (DeletionTimestamp (SftpGoUser_ObjectMeta user))) then
    e <- deleteUserFromSFTPGO user ;;
    match e with
    | Some err => ret (inl (mkResult false, Some err))
    | None =>
        let user := RemoveFinalizer user sftpgoUserFinalizer in
        e <- Update W user ;;
        match e with
        | Some err => ret (inl (mkResult false, Some err))
        | None => ret (inl (mkResult false, None))
        end
    end
  else
  (* Resolve ServerRef namespace, fetch SftpGoServer *)
  let ns := serverNamespace user in
  r <- Get_SftpGoServer W (serverKey user) ;;
  match r with
  | inl err =>
      if error_IsNotFound err then
        res <- fail "ServerNotFound"
                 ("SftpGoServer "
                    +:+ ServerRef_Name (SftpGoUserSpec_ServerRef (SftpGoUser_Spec user))
                    +:+ " not found in namespace " +:+ ns)
                 "Error" user (mkResult false, None) ;;
        ret (inl res)
      else ret (inl (mkResult false, Some err))
  | inr server =>
  (* Build API URL (service is same name as server) *)
  let baseURL := ServiceURL (Name (SftpGoServer_ObjectMeta server)) ns (apiPort server) in
  (* Get admin credentials *)
  c <- getAdminCredentials server ;;
  let '(username, password, err) := c in
  match err with
  | Some e =>
      res <- fail "AuthError" (error_Error e) "Error" user (mkResult false, Some e) ;;
      ret (inl res)
  | None =>
  if String.eqb username "" || String.eqb password "" then
    res <- fail "AuthNotConfigured"
             "SftpGoServer AdminSecretRef not configured - cannot manage users via API"
             "Pending" user (mkResult false, None) ;;
    ret (inl res)
  else
  let client := NewClient baseURL username password in
  (* Resolve user password *)
  p <- resolvePassword user ;;
  match snd p with
  | Some e => ret (inl (mkResult false, Some e))
  | None =>
  let userPassword := fst p in
  (* Resolve public keys *)
  k <- resolvePublicKeys user ;;
  match snd k with
  | Some e => ret (inl (mkResult false, Some e))
  | None =>
  let publicKeys := fst k in
  (* Build payload *)
  let payload := UserFromCR (SftpGoUser_Spec user) userPassword publicKeys in
  ret (inr {| resolved_user := user;
              resolved_client := client;
              resolved_userPassword := userPassword;
              resolved_publicKeys := publicKeys;
              resolved_payload := payload |})
  end end end end end.

(** The end of [Reconcile], after the create or the update: [err] is the
    error of that call and [existing] the user [GetUser] found, if any. *)
Definition Reconcile_finish (user : SftpGoUser) (existing : option UserPayload)
    (err : option error) : Run (Result * option error) :=
  match err with
  | Some e => fail "APIError" (error_Error e) "Error" user (mkResult false, Some e)
  | None =>
      (* Update status *)
      now <- Now W ;;
      user <- setCondition (condition "Ready" ConditionTrue "Synced" "") user ;;
      let user := set_Phase "Synced" user in
      let user := set_LastSynced (Some now) user in
      let user :=
        match existing with
        | Some ex => set_UserID (UserPayload_ID ex) user
        | None => user
        end in
      e <- Status_Update W user ;;
      match e with
      | Some err => ret (mkResult false, Some err)
      | None => ret (mkResult false, None)
      end
  end.

Definition Reconcile_sync (x : resolved) : Run (Result * option error) :=
  let user := resolved_user x in
  let client := resolved_client x in
  let userPassword := resolved_userPassword x in
  let publicKeys := resolved_publicKeys x in
  let payload := resolved_payload x in
  let username := SftpGoUserSpec_Username (SftpGoUser_Spec user) in
  (* Create or update *)
  g <- GetUser W client username ;;
  match snd g with
  | Some e => fail "APIError" (error_Error e) "Error" user (mkResult false, Some e)
  | None =>
      match fst g with
      | Some existing =>
          let payload := UserPayload_set_ID (UserPayload_ID existing) payload in
          let payload :=
            if String.eqb userPassword ""
            then UserPayload_set_Password "" payload (* Don't overwrite password if not provided *)
            else payload in
          r <- UpdateUser W client username payload ;;
          Reconcile_finish user (fst g) (snd r)
      | None =>
          if String.eqb userPassword "" && (Nat.eqb (List.length publicKeys) 0) then
            fail "ValidationError" "New user requires either password or publicKeys"
                 "Error" user (mkResult false, None)
          else
            r <- CreateUser W client payload ;;
            Reconcile_finish user (fst g) (snd r)
      end
  end.

Definition Reconcile (req : NamespacedName) : Run (Result * option error) :=
  r <- Reconcile_resolve req ;;
  match r with
  | inl res => ret res
  | inr x => Reconcile_sync x
  end.

End UserReconciler.

(* ================================================================== *)
(** ** internal/controller: the other children of an SftpGoServer      *)
(* ================================================================== *)

(** [corev1.Volume], with the three sources the controller uses. *)
Inductive VolumeSource :=
| ConfigMapVolumeSource (name : string)
| PersistentVolumeClaimVolumeSource (claimName : string)
| EmptyDirVolumeSource.

Record Volume := mkVolume {
  Volume_Name : string;
  Volume_VolumeSource : VolumeSource
}.

Record VolumeMount := mkVolumeMount {
  VolumeMount_Name : string;
  VolumeMount_MountPath : string;
  VolumeMount_ReadOnly : bool
}.

Record ContainerPort := mkContainerPort {
  ContainerPort_Name : string;
  ContainerPort_ContainerPort : Z;
  ContainerPort_Protocol : string
}.

(** [corev1.SecretKeySelector]. *)
Record SecretKeySelector := mkSecretKeySelector {
  SecretKeySelector_Name : string;
  SecretKeySelector_Key : string
}.

(** [corev1.EnvVar] whose value comes from a key of a secret. *)
Record EnvVar := mkEnvVar {
  EnvVar_Name : string;
  EnvVar_SecretKeyRef : SecretKeySelector
}.

(** [corev1.Container]; [Resources] is copied through from the spec and
    left out with it. *)
Record Container := mkContainer {
  Container_Name : string;
  Container_Image : string;
  Container_ImagePullPolicy : string;
  Container_Args : list string;
  Container_Ports : list ContainerPort;
  Container_VolumeMounts : list VolumeMount;
  Container_Env : list EnvVar
}.

(** [appsv1.Deployment]: the replica count, the label selector, and the
    labels, service account, containers and volumes of the pod template.
    [NodeSelector], [Tolerations] and [Affinity] are copied through from the
    spec and left out with them. *)
Record Deployment := mkDeployment {
  Deployment_Name : string;
  Deployment_Namespace : string;
  Deployment_Replicas : Z;
  Deployment_Selector : gmap string string;
  Deployment_TemplateLabels : gmap string string;
  Deployment_ServiceAccountName : string;
  Deployment_Containers : list Container;
  Deployment_Volumes : list Volume
}.

(** [resource.Quantity]: what [resource.ParseQuantity] made of a text. *)
Record Quantity := mkQuantity { Quantity_Value : Z }.

Record PersistentVolumeClaim := mkPersistentVolumeClaim {
  PersistentVolumeClaim_Name : string;
  PersistentVolumeClaim_Namespace : string;
  PersistentVolumeClaim_AccessModes : list string;
  PersistentVolumeClaim_Requests : gmap string Quantity;
  PersistentVolumeClaim_StorageClassName : option string
}.

(** [resourceQuantity] keeps the quantity and drops the error of
    [resource.ParseQuantity], which is a parameter here. *)
Definition resourceQuantity (ParseQuantity : string -> Quantity * option error)
    (s : string) : Quantity :=
  let (q, _) := ParseQuantity s in q.

(** [pvcForServer] reads through [s.Spec.DataVolume] without a test: [None]
    is the nil dereference. *)
Definition pvcForServer (ParseQuantity : string -> Quantity * option error)
    (s : SftpGoServer) : option PersistentVolumeClaim :=
  match SftpGoServerSpec_DataVolume (SftpGoServer_Spec s) with
  | None => None
  | Some spec =>
      let size := "10Gi" in
      let size :=
        if negb (String.eqb (VolumeConfig_Size spec) "") then VolumeConfig_Size spec
        else size in
      Some {| PersistentVolumeClaim_Name := Name (SftpGoServer_ObjectMeta s) +:+ "-data";
              PersistentVolumeClaim_Namespace := Namespace (SftpGoServer_ObjectMeta s);
              PersistentVolumeClaim_AccessModes := ["ReadWriteOnce"];
              PersistentVolumeClaim_Requests :=
                {[ "storage" := resourceQuantity ParseQuantity size ]};
              PersistentVolumeClaim_StorageClassName :=
                match VolumeConfig_StorageClass spec with
                | Some sc => if negb (String.eqb sc "") then Some sc else None
                | None => None
                end |}
  end.

Definition deploymentForServer (s : SftpGoServer) : Deployment :=
  let spec := applyDefaults s in
  let labels : gmap string string :=
    <[ "app" := "sftpgo" ]> {[ "controller" := Name (SftpGoServer_ObjectMeta s) ]} in
  let replicas := 1 in
  let replicas :=
    match SftpGoServerSpec_Replicas spec with
    | Some n => n
    | None => replicas
    end in
  let mountPath := "/srv/sftpgo" in
  let volumes :=
    [ {| Volume_Name := "config";
         Volume_VolumeSource :=
           ConfigMapVolumeSource (Name (SftpGoServer_ObjectMeta s)) |} ] in
  let volumeMounts :=
    [ {| VolumeMount_Name := "config"; VolumeMount_MountPath := "/etc/sftpgo";
         VolumeMount_ReadOnly := true |} ] in
  let '(volumes, volumeMounts) :=
    match SftpGoServerSpec_DataVolume spec with
    | Some dataVolume =>
        let mountPath :=
          if negb (String.eqb (VolumeConfig_MountPath dataVolume) "")
          then VolumeConfig_MountPath dataVolume else mountPath in
        (volumes ++
           [ {| Volume_Name := "data";
                Volume_VolumeSource :=
                  PersistentVolumeClaimVolumeSource
                    (Name (SftpGoServer_ObjectMeta s) +:+ "-data") |} ],
         volumeMounts ++
           [ {| VolumeMount_Name := "data"; VolumeMount_MountPath := mountPath;
                VolumeMount_ReadOnly := false |} ])
    | None =>
        (volumes ++
           [ {| Volume_Name := "data"; Volume_VolumeSource := EmptyDirVolumeSource |} ],
         volumeMounts ++
           [ {| VolumeMount_Name := "data"; VolumeMount_MountPath := mountPath;
                VolumeMount_ReadOnly := false |} ])
    end in
  let container :=
    {| Container_Name := "sftpgo";
       Container_Image := SftpGoServerSpec_Image spec;
       Container_ImagePullPolicy := SftpGoServerSpec_ImagePullPolicy spec;
       Container_Args := ["sftpgo"; "serve"; "--config-file"; "/etc/sftpgo/sftpgo.json"];
       Container_Ports :=
         [ {| ContainerPort_Name := "sftp"; ContainerPort_ContainerPort := getSFTPPort spec;
              ContainerPort_Protocol := "TCP" |};
           {| ContainerPort_Name := "web"; ContainerPort_ContainerPort := getWebPort spec;
              ContainerPort_Protocol := "TCP" |} ];
       Container_VolumeMounts := volumeMounts;
       Container_Env :=
         match SftpGoServerSpec_AdminSecretRef spec with
         | Some ref =>
             let secretName := LocalObjectReference_Name ref in
             [ {| EnvVar_Name := "SFTPGO_DEFAULT_ADMIN_USERNAME";
                  EnvVar_SecretKeyRef :=
                    {| SecretKeySelector_Name := secretName;
                       SecretKeySelector_Key := "username" |} |};
               {| EnvVar_Name := "SFTPGO_DEFAULT_ADMIN_PASSWORD";
                  EnvVar_SecretKeyRef :=
                    {| SecretKeySelector_Name := secretName;
                       SecretKeySelector_Key := "password" |} |} ]
         | None => []
         end |} in
  {| Deployment_Name := Name (SftpGoServer_ObjectMeta s);
     Deployment_Namespace := Namespace (SftpGoServer_ObjectMeta s);
     Deployment_Replicas := replicas;
     Deployment_Selector := labels;
     Deployment_TemplateLabels := labels;
     Deployment_ServiceAccountName := SftpGoServerSpec_ServiceAccount spec;
     Deployment_Containers := [container];
     Deployment_Volumes := volumes |}.

(* ================================================================== *)
(** ** internal/controller: the SftpGoServer reconciler                *)
(* ================================================================== *)

Module ServerReconciler.

(** The object handed to [createOrUpdate]: for the ConfigMap, the Deployment
    and the Service the desired object whose fields the closure copies onto
    the object found or made, for the claim the desired object itself. *)
Inductive Child :=
| ChildConfigMap (obj : ConfigMap)
| ChildPersistentVolumeClaim (obj : PersistentVolumeClaim)
| ChildDeployment (obj : Deployment)
| ChildService (obj : Service).

(** [deployment.Status], the two counters the reconciler reads. *)
Record DeploymentStatus := mkDeploymentStatus {
  DeploymentStatus_Replicas : Z;
  DeploymentStatus_ReadyReplicas : Z
}.

(** The calls that leave the process, in the order they are made. *)
Inductive event :=
| EvGet (key : NamespacedName)
| EvUpdate (obj : SftpGoServer)
| EvStatusUpdate (obj : SftpGoServer)
| EvCreateOrUpdate (owner : SftpGoServer) (obj : Child)
| EvGetDeployment (key : NamespacedName).

Definition trace := list event.

(** The answers of the cluster, each of which may depend on the calls made
    before it; [resource_ParseQuantity] is the library's parser. *)
Record World := mkWorld {
  kube_Get : trace -> NamespacedName -> error + SftpGoServer;
  kube_Update : trace -> SftpGoServer -> option error;
  kube_Status_Update : trace -> SftpGoServer -> option error;
  controllerutil_CreateOrUpdate : trace -> SftpGoServer -> Child -> option error;
  kube_Get_Deployment : trace -> NamespacedName -> error + DeploymentStatus;
  resource_ParseQuantity : string -> Quantity * option error;
  time_Now : trace -> Time
}.

Definition Run (A : Type) : Type := trace -> A * trace.

Definition ret {A} (a : A) : Run A := fun t => (a, t).

Definition bind {A B} (m : Run A) (k : A -> Run B) : Run B :=
  fun t => let (a, t') := m t in k a t'.

Declare Scope server_run_scope.
Delimit Scope server_run_scope with server_run.
Notation "x <- m ;; k" := (bind m (fun x => k))
  (at level 100, m at next level, right associativity) : server_run_scope.
Local Open Scope server_run_scope.

(** What [Reconcile] comes to: it returns, or it panics. *)
Inductive outcome :=
| Return (res : Result) (err : option error)
| Panic.

Definition SftpGoServer_set_Finalizers (fs : list string) (s : SftpGoServer)
  : SftpGoServer :=
  {| SftpGoServer_ObjectMeta :=
       {| Name := Name (SftpGoServer_ObjectMeta s);
          Namespace := Namespace (SftpGoServer_ObjectMeta s);
          Finalizers := fs;
          DeletionTimestamp := DeletionTimestamp (SftpGoServer_ObjectMeta s) |};
     SftpGoServer_Spec := SftpGoServer_Spec s;
     SftpGoServer_Status := SftpGoServer_Status s |}.

Definition SftpGoServer_set_Status (st : SftpGoServerStatus) (s : SftpGoServer)
  : SftpGoServer :=
  {| SftpGoServer_ObjectMeta := SftpGoServer_ObjectMeta s;
     SftpGoServer_Spec := SftpGoServer_Spec s;
     SftpGoServer_Status := st |}.

Definition set_Conditions (cs : list Condition) (s : SftpGoServer) : SftpGoServer :=
  SftpGoServer_set_Status
    {| SftpGoServerStatus_Replicas := SftpGoServerStatus_Replicas (SftpGoServer_Status s);
       SftpGoServerStatus_ReadyReplicas :=
         SftpGoServerStatus_ReadyReplicas (SftpGoServer_Status s);
       SftpGoServerStatus_Conditions := cs;
       SftpGoServerStatus_Phase := SftpGoServerStatus_Phase (SftpGoServer_Status s);
       SftpGoServerStatus_Ports := SftpGoServerStatus_Ports (SftpGoServer_Status s) |} s.

Definition set_Phase (ph : string) (s : SftpGoServer) : SftpGoServer :=
  SftpGoServer_set_Status
    {| SftpGoServerStatus_Replicas := SftpGoServerStatus_Replicas (SftpGoServer_Status s);
       SftpGoServerStatus_ReadyReplicas :=
         SftpGoServerStatus_ReadyReplicas (SftpGoServer_Status s);
       SftpGoServerStatus_Conditions := SftpGoServerStatus_Conditions (SftpGoServer_Status s);
       SftpGoServerStatus_Phase := ph;
       SftpGoServerStatus_Ports := SftpGoServerStatus_Ports (SftpGoServer_Status s) |} s.

Definition set_Ports (ports : ServicePorts) (s : SftpGoServer) : SftpGoServer :=
  SftpGoServer_set_Status
    {| SftpGoServerStatus_Replicas := SftpGoServerStatus_Replicas (SftpGoServer_Status s);
       SftpGoServerStatus_ReadyReplicas :=
         SftpGoServerStatus_ReadyReplicas (SftpGoServer_Status s);
       SftpGoServerStatus_Conditions := SftpGoServerStatus_Conditions (SftpGoServer_Status s);
       SftpGoServerStatus_Phase := SftpGoServerStatus_Phase (SftpGoServer_Status s);
       SftpGoServerStatus_Ports := ports |} s.

Definition set_Replicas (replicas readyReplicas : Z) (s : SftpGoServer) : SftpGoServer :=
  SftpGoServer_set_Status
    {| SftpGoServerStatus_Replicas := replicas;
       SftpGoServerStatus_ReadyReplicas := readyReplicas;
       SftpGoServerStatus_Conditions := SftpGoServerStatus_Conditions (SftpGoServer_Status s);
       SftpGoServerStatus_Phase := SftpGoServerStatus_Phase (SftpGoServer_Status s);
       SftpGoServerStatus_Ports := SftpGoServerStatus_Ports (SftpGoServer_Status s) |} s.

(** [controllerutil.ContainsFinalizer], [AddFinalizer], [RemoveFinalizer]. *)
Definition ContainsFinalizer (s : SftpGoServer) (f : string) : bool :=
  existsb (String.eqb f) (Finalizers (SftpGoServer_ObjectMeta s)).

Definition AddFinalizer (s : SftpGoServer) (f : string) : SftpGoServer :=
  if ContainsFinalizer s f then s
  else SftpGoServer_set_Finalizers (Finalizers (SftpGoServer_ObjectMeta s) ++ [f]) s.

Definition RemoveFinalizer (s : SftpGoServer) (f : string) : SftpGoServer :=
  SftpGoServer_set_Finalizers
    (List.filter (fun x => negb (String.eqb x f)) (Finalizers (SftpGoServer_ObjectMeta s))) s.

Section WithWorld.

Variable W : World.

Definition Get (key : NamespacedName) : Run (error + SftpGoServer) :=
  fun t => (kube_Get W t key, t ++ [EvGet key]).

Definition Update (obj : SftpGoServer) : Run (option error) :=
  fun t => (kube_Update W t obj, t ++ [EvUpdate obj]).

Definition Status_Update (obj : SftpGoServer) : Run (option error) :=
  fun t => (kube_Status_Update W t obj, t ++ [EvStatusUpdate obj]).

Definition Get_Deployment (key : NamespacedName) : Run (error + DeploymentStatus) :=
  fun t => (kube_Get_Deployment W t key, t ++ [EvGetDeployment key]).

Definition Now : Run Time := fun t => (time_Now W t, t).

(** [meta.SetStatusCondition(&server.Status.Conditions, c)]. *)
Definition setCondition (c : Condition) (server : SftpGoServer) : Run SftpGoServer :=
  now <- Now ;;
  ret (set_Conditions
         (SetStatusCondition now (SftpGoServerStatus_Conditions (SftpGoServer_Status server)) c)
         server).

(** [createOrUpdate] hands the object and the closure to
    [controllerutil.CreateOrUpdate] and returns its error; the operation it
    reports is only logged. *)
Definition createOrUpdate (owner : SftpGoServer) (obj : Child) : Run (option error) :=
  fun t => (controllerutil_CreateOrUpdate W t owner obj,
            t ++ [EvCreateOrUpdate owner obj]).

(** The block that follows a failed ConfigMap or Deployment: the failure is
    written as a Degraded condition, and the error of that write is dropped. *)
Definition degraded (reason : string) (err : error) (server : SftpGoServer)
  : Run outcome :=
  server <- setCondition (condition "Degraded" ConditionTrue reason (error_Error err))
              server ;;
  _ <- Status_Update server ;;
  ret (Return (mkResult false) (Some err)).

(** [Reconcile], from the refresh of the Deployment to the end. *)
Definition Reconcile_service_and_status (server : SftpGoServer)
    (spec : SftpGoServerSpec) : Run outcome :=
  (* Refresh deployment to get status *)
  r <- Get_Deployment
         {| NamespacedName_Name := Name (SftpGoServer_ObjectMeta server);
            NamespacedName_Namespace := Namespace (SftpGoServer_ObjectMeta server) |} ;;
  match r with
  | inl err => ret (Return (mkResult false) (Some err))
  | inr deployment =>
  (* Create or update Service *)
  let desiredSvc := serviceForServer server in
  e <- createOrUpdate server (ChildService desiredSvc) ;;
  match e with
  | Some err => ret (Return (mkResult false) (Some err))
  | None =>
  (* Update status *)
  server <- setCondition (condition "Ready" ConditionTrue "Reconciled" "") server ;;
  let server := set_Phase "Running" server in
  let server :=
    set_Ports {| ServicePorts_SFTP := getSFTPPort spec;
                 ServicePorts_Web := getWebPort spec;
                 ServicePorts_HTTP := getWebPort spec;
                 ServicePorts_FTP := 0 |} server in
  let server :=
    if 0 <? DeploymentStatus_Replicas deployment then
      set_Replicas (DeploymentStatus_Replicas deployment)
                   (DeploymentStatus_ReadyReplicas deployment) server
    else server in
  e <- Status_Update server ;;
  match e with
  | Some err => ret (Return (mkResult false) (Some err))
  | None => ret (Return (mkResult false) None)
  end
  end
  end.

(** [Reconcile], from the Deployment on. *)
Definition Reconcile_deployment (server : SftpGoServer) (spec : SftpGoServerSpec)
  : Run outcome :=
  let desiredDep := deploymentForServer server in
  e <- createOrUpdate server (ChildDeployment desiredDep) ;;
  match e with
  | Some err => degraded "DeploymentError" err server
  | None => Reconcile_service_and_status server spec
  end.

(** [Reconcile] is one Go function, written here in three parts.  Logging
    is left out. *)
Definition Reconcile (req : NamespacedName) : Run outcome :=
  r <- Get req ;;
  match r with
  | inl err =>
      if error_IsNotFound err then ret (Return (mkResult false) None)
      else ret (Return (mkResult false) (Some err))
  | inr server =>
  (* Add finalizer for cleanup on delete *)
  if negb (ContainsFinalizer server sftpgoServerFinalizer) then
    let server := AddFinalizer server sftpgoServerFinalizer in
    e <- Update server ;;
    match e with
    | Some err => ret (Return (mkResult false) (Some err))
    | None => ret (Return (mkResult true) None)
    end
  (* Handle deletion *)
  else if negb (Time_IsZero (DeletionTimestamp (SftpGoServer_ObjectMeta server))) then
    if ContainsFinalizer server sftpgoServerFinalizer then
      let server := RemoveFinalizer server sftpgoServerFinalizer in
      e <- Update server ;;
      match e with
      | Some err => ret (Return (mkResult false) (Some err))
      | None => ret (Return (mkResult false) None)
      end
    else ret (Return (mkResult false) None)
  else
  (* Apply defaults *)
  let spec := applyDefaults server in
  (* Create or update ConfigMap *)
  let desiredCM := configMapForServer server in
  e <- createOrUpdate server (ChildConfigMap desiredCM) ;;
  match e with
  | Some err => degraded "ConfigMapError" err server
  | None =>
  (* Create or update PVC if data volume is configured *)
  match SftpGoServerSpec_DataVolume spec with
  | Some _ =>
      match pvcForServer (resource_ParseQuantity W) server with
      | None => ret Panic
      | Some pvc =>
          e <- createOrUpdate server (ChildPersistentVolumeClaim pvc) ;;
          match e with
          | Some err => ret (Return (mkResult false) (Some err))
          | None => Reconcile_deployment server spec
          end
      end
  | None => Reconcile_deployment server spec
  end
  end
  end.

End WithWorld.

End ServerReconciler.

(* ================================================================== *)
(** ** Variations of a spec, used to state independence                *)
(* ================================================================== *)

(** The server with other web settings: top-level [WebPort] and the
    [Config.HTTP] block replaced, every other field kept. *)
Definition with_web (webPort : Z) (http : option HTTPConfig) (s : SftpGoServer)
  : SftpGoServer :=
  let spec := SftpGoServer_Spec s in
  {| SftpGoServer_ObjectMeta := SftpGoServer_ObjectMeta s;
     SftpGoServer_Spec :=
       {| SftpGoServerSpec_Image := SftpGoServerSpec_Image spec;
          SftpGoServerSpec_ImagePullPolicy := SftpGoServerSpec_ImagePullPolicy spec;
          SftpGoServerSpec_Replicas := SftpGoServerSpec_Replicas spec;
          SftpGoServerSpec_ServiceAccount := SftpGoServerSpec_ServiceAccount spec;
          SftpGoServerSpec_Config :=
            {| SFTPGOConfig_SFTP := SFTPGOConfig_SFTP (SftpGoServerSpec_Config spec);
               SFTPGOConfig_HTTP := http |};
          SftpGoServerSpec_SFTPPort := SftpGoServerSpec_SFTPPort spec;
          SftpGoServerSpec_WebPort := webPort;
          SftpGoServerSpec_DataVolume := SftpGoServerSpec_DataVolume spec;
          SftpGoServerSpec_StorageBackend := SftpGoServerSpec_StorageBackend spec;
          SftpGoServerSpec_AdminSecretRef := SftpGoServerSpec_AdminSecretRef spec |};
     SftpGoServer_Status := SftpGoServer_Status s |}.

(** The user spec with other bandwidth limits, every other field kept. *)
Definition with_BandwidthLimits (b : option BandwidthLimits) (spec : SftpGoUserSpec)
  : SftpGoUserSpec :=
  {| SftpGoUserSpec_Username := SftpGoUserSpec_Username spec;
     SftpGoUserSpec_Password := SftpGoUserSpec_Password spec;
     SftpGoUserSpec_PasswordSecretRef := SftpGoUserSpec_PasswordSecretRef spec;
     SftpGoUserSpec_PublicKeys := SftpGoUserSpec_PublicKeys spec;
     SftpGoUserSpec_PublicKeysSecretRef := SftpGoUserSpec_PublicKeysSecretRef spec;
     SftpGoUserSpec_Email := SftpGoUserSpec_Email spec;
     SftpGoUserSpec_Status := SftpGoUserSpec_Status spec;
     SftpGoUserSpec_HomeDir := SftpGoUserSpec_HomeDir spec;
     SftpGoUserSpec_VirtualFolders := SftpGoUserSpec_VirtualFolders spec;
     SftpGoUserSpec_Permissions := SftpGoUserSpec_Permissions spec;
     SftpGoUserSpec_Quota := SftpGoUserSpec_Quota spec;
     SftpGoUserSpec_BandwidthLimits := b;
     SftpGoUserSpec_MaxSessions := SftpGoUserSpec_MaxSessions spec;
     SftpGoUserSpec_AllowedIP := SftpGoUserSpec_AllowedIP spec;
     SftpGoUserSpec_DeniedIP := SftpGoUserSpec_DeniedIP spec;
     SftpGoUserSpec_Groups := SftpGoUserSpec_Groups spec;
     SftpGoUserSpec_ServerRef := SftpGoUserSpec_ServerRef spec |}.

(** The text of the [httpd] block of the generated configuration. *)
Definition httpd_block : string := raw
"'httpd': {
    'bindings': [{'port': 8080, 'address': '', 'enable_web_admin': true, 'enable_rest_api': true}]
  }
}".

(** The text that opens the configuration, up to the [sftpd] port. *)
Definition sftpd_port_prefix : string := raw
"{
  'sftpd': {
    'bindings': [{'port': ".

(* ================================================================== *)
(** ** Concrete scenarios                                              *)
(* ================================================================== *)

(** A world that does not move: the object store holds the listed objects
    and accepts every write, the remote service answers by a fixed table,
    every request is well formed, and the clock ticks with the calls. *)
Record Cluster := mkCluster {
  cluster_users : list (NamespacedName * SftpGoUser);
  cluster_servers : list (NamespacedName * SftpGoServer);
  cluster_secrets : list (NamespacedName * Secret);
  cluster_remote : Request -> error + Response
}.

Definition NamespacedName_eqb (a b : NamespacedName) : bool :=
  String.eqb (NamespacedName_Namespace a) (NamespacedName_Namespace b)
  && String.eqb (NamespacedName_Name a) (NamespacedName_Name b).

Fixpoint find_object {A} (key : NamespacedName) (l : list (NamespacedName * A))
  : option A :=
  match l with
  | [] => None
  | (k, a) :: rest => if NamespacedName_eqb key k then Some a else find_object key rest
  end.

Definition NotFoundError (key : NamespacedName) : error :=
  mkError (NamespacedName_Name key +:+ " not found") true.

Definition get_object {A} (l : list (NamespacedName * A)) (key : NamespacedName)
  : error + A :=
  match find_object key l with
  | Some a => inr a
  | None => inl (NotFoundError key)
  end.

Definition world_of (c : Cluster) : World :=
  {| kube_Get_SftpGoUser := fun _ key => get_object (cluster_users c) key;
     kube_Get_SftpGoServer := fun _ key => get_object (cluster_servers c) key;
     kube_Get_Secret := fun _ key => get_object (cluster_secrets c) key;
     kube_Update := fun _ _ => None;
     kube_Status_Update := fun _ _ => None;
     http_NewRequest := fun _ _ => None;
     http_Do := fun _ req => cluster_remote c req;
     time_Now := fun t => 1000 + Z.of_nat (List.length t) |}.

(** The server and the user of the README, in namespace [default]. *)
Definition my_sftpgo : SftpGoServer :=
  {| SftpGoServer_ObjectMeta :=
       {| Name := "my-sftpgo"; Namespace := "default";
          Finalizers := [sftpgoServerFinalizer]; DeletionTimestamp := None |};
     SftpGoServer_Spec :=
       {| SftpGoServerSpec_Image := "";
          SftpGoServerSpec_ImagePullPolicy := "";
          SftpGoServerSpec_Replicas := Some 1;
          SftpGoServerSpec_ServiceAccount := "";
          SftpGoServerSpec_Config := {| SFTPGOConfig_SFTP := None; SFTPGOConfig_HTTP := None |};
          SftpGoServerSpec_SFTPPort := 2022;
          SftpGoServerSpec_WebPort := 8080;
          SftpGoServerSpec_DataVolume :=
            Some {| VolumeConfig_StorageClass := None; VolumeConfig_Size := "10Gi";
                    VolumeConfig_MountPath := "" |};
          SftpGoServerSpec_StorageBackend := "sqlite";
          SftpGoServerSpec_AdminSecretRef :=
            Some {| LocalObjectReference_Name := "sftpgo-admin-secret" |} |};
     SftpGoServer_Status :=
       {| SftpGoServerStatus_Replicas := 1; SftpGoServerStatus_ReadyReplicas := 1;
          SftpGoServerStatus_Conditions := []; SftpGoServerStatus_Phase := "Running";
          SftpGoServerStatus_Ports := mkServicePorts 2022 8080 8080 0 |} |}.

(** A server whose spec sets nothing. *)
Definition bare_server : SftpGoServer :=
  {| SftpGoServer_ObjectMeta :=
       {| Name := "bare"; Namespace := "default";
          Finalizers := [sftpgoServerFinalizer]; DeletionTimestamp := None |};
     SftpGoServer_Spec :=
       {| SftpGoServerSpec_Image := "";
          SftpGoServerSpec_ImagePullPolicy := "";
          SftpGoServerSpec_Replicas := None;
          SftpGoServerSpec_ServiceAccount := "";
          SftpGoServerSpec_Config := {| SFTPGOConfig_SFTP := None; SFTPGOConfig_HTTP := None |};
          SftpGoServerSpec_SFTPPort := 0;
          SftpGoServerSpec_WebPort := 0;
          SftpGoServerSpec_DataVolume := None;
          SftpGoServerSpec_StorageBackend := "";
          SftpGoServerSpec_AdminSecretRef := None |};
     SftpGoServer_Status :=
       {| SftpGoServerStatus_Replicas := 0; SftpGoServerStatus_ReadyReplicas := 0;
          SftpGoServerStatus_Conditions := []; SftpGoServerStatus_Phase := "";
          SftpGoServerStatus_Ports := mkServicePorts 0 0 0 0 |} |}.

Definition admin_secret : Secret :=
  {| Secret_Data := <[ "username" := "admin" ]> {[ "password" := "your-admin-password" ]} |}.

Definition alice_spec (password : string) (passwordRef : option SecretRef)
  : SftpGoUserSpec :=
  {| SftpGoUserSpec_Username := "alice";
     SftpGoUserSpec_Password := password;
     SftpGoUserSpec_PasswordSecretRef := passwordRef;
     SftpGoUserSpec_PublicKeys := [];
     SftpGoUserSpec_PublicKeysSecretRef := None;
     SftpGoUserSpec_Email := "";
     SftpGoUserSpec_Status := "enabled";
     SftpGoUserSpec_HomeDir := "/srv/sftpgo/data/alice";
     SftpGoUserSpec_VirtualFolders := [];
     SftpGoUserSpec_Permissions := ["*"];
     SftpGoUserSpec_Quota := Some {| Quota_Size := 1073741824; Quota_Files := 10000 |};
     SftpGoUserSpec_BandwidthLimits :=
       Some {| BandwidthLimits_Upload := 1048576; BandwidthLimits_Download := 10485760 |};
     SftpGoUserSpec_MaxSessions := 5;
     SftpGoUserSpec_AllowedIP := [];
     SftpGoUserSpec_DeniedIP := [];
     SftpGoUserSpec_Groups := [];
     SftpGoUserSpec_ServerRef := {| ServerRef_Name := "my-sftpgo"; ServerRef_Namespace := "" |} |}.

Definition alice (password : string) (passwordRef : option SecretRef)
    (deletion : option Time) : SftpGoUser :=
  {| SftpGoUser_ObjectMeta :=
       {| Name := "alice"; Namespace := "default";
          Finalizers := [sftpgoUserFinalizer]; DeletionTimestamp := deletion |};
     SftpGoUser_Spec := alice_spec password passwordRef;
     SftpGoUser_Status :=
       {| SftpGoUserStatus_Phase := ""; SftpGoUserStatus_UserID := 0;
          SftpGoUserStatus_Conditions := []; SftpGoUserStatus_LastSynced := None |} |}.

Definition key (namespace name : string) : NamespacedName :=
  {| NamespacedName_Namespace := namespace; NamespacedName_Name := name |}.

(** The same user with a trickle of a bandwidth limit. *)
Definition slow_spec : SftpGoUserSpec :=
  with_BandwidthLimits
    (Some {| BandwidthLimits_Upload := 1023; BandwidthLimits_Download := 1 |})
    (alice_spec "s3cret" None).

(** Two tables for the remote service.  Where alice is unknown, a lookup,
    an update and a delete answer 404 and a create answers 201 with the new
    user, numbered [id]; where alice is known under number [id], every
    request answers 200 with that record. *)
Definition no_body : error + UserPayload := inl (Errorf "EOF").

Definition remote_without_alice (id : Z) (req : Request) : error + Response :=
  if String.eqb (Request_Method req) "POST" then
    inr {| Response_StatusCode := StatusCreated;
           Response_Decoded :=
             inr (UserPayload_set_ID id (UserFromCR (alice_spec "s3cret" None) "s3cret" [])) |}
  else inr {| Response_StatusCode := StatusNotFound; Response_Decoded := no_body |}.

Definition remote_with_alice (id : Z) (req : Request) : error + Response :=
  inr {| Response_StatusCode := StatusOK;
         Response_Decoded :=
           inr (UserPayload_set_ID id (UserFromCR (alice_spec "" None) "" [])) |}.

(** A cluster with one user, the README's server and its admin secret. *)
Definition cluster_with (user : SftpGoUser) (remote : Request -> error + Response)
  : Cluster :=
  {| cluster_users := [(key "default" "alice", user)];
     cluster_servers := [(key "default" "my-sftpgo", my_sftpgo)];
     cluster_secrets := [(key "default" "sftpgo-admin-secret", admin_secret)];
     cluster_remote := remote |}.

(** The same cluster once the server has been deleted. *)
Definition cluster_without_server (user : SftpGoUser)
    (remote : Request -> error + Response) : Cluster :=
  {| cluster_users := [(key "default" "alice", user)];
     cluster_servers := [];
     cluster_secrets := [(key "default" "sftpgo-admin-secret", admin_secret)];
     cluster_remote := remote |}.

(** The client the user reconciler builds for the README's server. *)
Definition admin_client : Client :=
  NewClient "http://my-sftpgo.default.svc.cluster.local:8080" "admin" "your-admin-password".

(** The worlds of the scenarios below.  In each, alice is a user of the
    README's server and carries the finalizer. *)

(** No password in the spec, and the remote service knows alice as user 42. *)
Definition world_update : World :=
  world_of (cluster_with (alice "" None None) (remote_with_alice 42)).

(** No password and no key in the spec, and the remote service has no alice. *)
Definition world_no_credentials : World :=
  world_of (cluster_with (alice "" None None) (remote_without_alice 7)).

(** A password in the spec; the remote service has no alice and numbers the
    user it creates 7. *)
Definition world_create : World :=
  world_of (cluster_with (alice "s3cret" None None) (remote_without_alice 7)).

(** Alice is being deleted and the server is gone. *)
Definition world_orphan : World :=
  world_of (cluster_without_server (alice "s3cret" None (Some 1700000000))
                                   (remote_without_alice 7)).

(** Alice is being deleted; the remote service no longer has that user. *)
Definition world_already_deleted : World :=
  world_of (cluster_with (alice "s3cret" None (Some 1700000000))
                         (remote_without_alice 7)).

(** The password lives in a secret that does not exist. *)
Definition world_missing_secret : World :=
  world_of (cluster_with
              (alice "" (Some {| SecretRef_Name := "alice-password";
                                 SecretRef_Key := "password" |}) None)
              (remote_without_alice 7)).

(** The local variables and the calls of alice's pass in a world, at the
    point where the payload is built (those of a pass that returned earlier
    are of no use and read as an empty client). *)
Definition alice_key : NamespacedName := key "default" "alice".

Definition pass_resolved (W : World) : resolved :=
  match fst (Reconcile_resolve W alice_key []) with
  | inr x => x
  | inl _ =>
      {| resolved_user := alice "" None None;
         resolved_client := NewClient "" "" "";
         resolved_userPassword := "";
         resolved_publicKeys := [];
         resolved_payload := UserFromCR (alice_spec "" None) "" [] |}
  end.

Definition pass_trace (W : World) : trace :=
  snd (Reconcile_resolve W alice_key []).

(** The record the remote service holds of alice in [world_update]. *)
Definition alice_42 : UserPayload :=
  UserPayload_set_ID 42 (UserFromCR (alice_spec "" None) "" []).

(** The record the remote service answers a create with in [world_create]. *)
Definition alice_7 : UserPayload :=
  UserPayload_set_ID 7 (UserFromCR (alice_spec "s3cret" None) "s3cret" []).

(** The object carries a condition of the given type with the given
    status, reason and message. *)
Definition has_condition (u : SftpGoUser) (ty status reason message : string)
  : Prop :=
  exists c,
    FindStatusCondition (SftpGoUserStatus_Conditions (SftpGoUser_Status u)) ty = Some c
    /\ Condition_Status c = status
    /\ Condition_Reason c = reason
    /\ Condition_Message c = message.

(** A computation that writes no status. *)
Definition writes_no_status {A} (m : Run A) : Prop :=
  forall t, status_writes (snd (m t)) = status_writes t.

(** A computation that never reaches the remote service. *)
Definition quiet {A} (m : Run A) : Prop :=
  forall t, http_requests (snd (m t)) = http_requests t.

(* ================================================================== *)
(** ** Vocabulary for the calls of a pass                              *)
(* ================================================================== *)

(** A read of the object store, and a write to it. *)
Definition is_read (e : event) : Prop :=
  match e with
  | EvGetUser _ | EvGetServer _ | EvGetSecret _ => True
  | _ => False
  end.

Definition is_write (e : event) : Prop :=
  match e with
  | EvUpdate _ | EvStatusUpdate _ => True
  | _ => False
  end.

(** A request that carries basic authentication with a name and a
    password, neither of them empty. *)
Definition authenticated (r : Request) : Prop :=
  exists name password,
    Request_BasicAuth r = Some (name, password) /\ name <> "" /\ password <> "".

(** What a write of the object ([r.Update]) may change of the fetched
    user: the finalizers, and nothing else. *)
Definition only_finalizers_differ (user obj : SftpGoUser) : Prop :=
  SftpGoUser_Spec obj = SftpGoUser_Spec user
  /\ SftpGoUser_Status obj = SftpGoUser_Status user
  /\ Name (SftpGoUser_ObjectMeta obj) = Name (SftpGoUser_ObjectMeta user)
  /\ Namespace (SftpGoUser_ObjectMeta obj) = Namespace (SftpGoUser_ObjectMeta user)
  /\ DeletionTimestamp (SftpGoUser_ObjectMeta obj)
     = DeletionTimestamp (SftpGoUser_ObjectMeta user).

(** What a status write may change of the fetched user: the status, and in
    it the Ready condition and the phase, which agree (Ready is True
    exactly in phase Synced); outside a success the identifier and the time
    of the last synchronisation are kept. *)
Definition only_status_differs (user obj : SftpGoUser) : Prop :=
  SftpGoUser_Spec obj = SftpGoUser_Spec user
  /\ SftpGoUser_ObjectMeta obj = SftpGoUser_ObjectMeta user
  /\ (forall ty, ty <> "Ready" ->
        FindStatusCondition (SftpGoUserStatus_Conditions (SftpGoUser_Status obj)) ty
        = FindStatusCondition (SftpGoUserStatus_Conditions (SftpGoUser_Status user)) ty)
  /\ (exists c,
        FindStatusCondition (SftpGoUserStatus_Conditions (SftpGoUser_Status obj)) "Ready"
          = Some c
        /\ ((Condition_Status c = ConditionTrue
             /\ Condition_Reason c = "Synced"
             /\ SftpGoUserStatus_Phase (SftpGoUser_Status obj) = "Synced"
             /\ SftpGoUserStatus_LastSynced (SftpGoUser_Status obj) <> None)
            \/ (Condition_Status c = ConditionFalse
                /\ (SftpGoUserStatus_Phase (SftpGoUser_Status obj) = "Error"
                    \/ SftpGoUserStatus_Phase (SftpGoUser_Status obj) = "Pending")
                /\ SftpGoUserStatus_UserID (SftpGoUser_Status obj)
                   = SftpGoUserStatus_UserID (SftpGoUser_Status user)
                /\ SftpGoUserStatus_LastSynced (SftpGoUser_Status obj)
                   = SftpGoUserStatus_LastSynced (SftpGoUser_Status user)))).

Definition write_of (user : SftpGoUser) (e : event) : Prop :=
  match e with
  | EvUpdate obj => only_finalizers_differ user obj
  | EvStatusUpdate obj => only_status_differs user obj
  | _ => False
  end.

(** The calls of a pass so far: reads of the object store, then at most
    [n] authenticated requests to the remote service. *)
Definition reads_then_requests (n : nat) (t : trace) : Prop :=
  exists (reads : trace) (https : list Request),
    t = reads ++ List.map EvHTTP https
    /\ Forall is_read reads
    /\ Forall authenticated https
    /\ (List.length https <= n)%nat.

(** The calls of a whole pass on a fetched user: as above, then at most
    one write, which changes only what it may. *)
Definition calls_of_pass (user : SftpGoUser) (t : trace) : Prop :=
  exists (before writes : trace),
    t = before ++ writes
    /\ reads_then_requests 2 before
    /\ Forall (write_of user) writes
    /\ (List.length writes <= 1)%nat.

(** Hoare triples on computations: from a property of the calls made so
    far to a property of the result and of the calls made by then. *)
Definition hoare {A} (P : trace -> Prop) (m : Run A) (Q : A -> trace -> Prop)
  : Prop :=
  forall t, P t -> Q (fst (m t)) (snd (m t)).

(** A client that has a name and a password to authenticate with. *)
Definition client_ok (c : Client) : Prop :=
  Client_Username c <> "" /\ Client_Password c <> "".

(* ================================================================== *)
(** ** More scenarios                                                  *)
(* ================================================================== *)

(** Alice as the API server first shows the object: no finalizer yet. *)
Definition alice_new : SftpGoUser :=
  SftpGoUser_set_Finalizers [] (alice "s3cret" None None).

Definition world_new : World :=
  world_of (cluster_with alice_new (remote_without_alice 7)).

(** Alice is alive and the server is gone. *)
Definition world_no_server : World :=
  world_of (cluster_without_server (alice "s3cret" None None)
                                   (remote_without_alice 7)).

(** The README's server without its [adminSecretRef]. *)
Definition open_sftpgo : SftpGoServer :=
  {| SftpGoServer_ObjectMeta := SftpGoServer_ObjectMeta my_sftpgo;
     SftpGoServer_Spec :=
       {| SftpGoServerSpec_Image := "";
          SftpGoServerSpec_ImagePullPolicy := "";
          SftpGoServerSpec_Replicas := Some 1;
          SftpGoServerSpec_ServiceAccount := "";
          SftpGoServerSpec_Config := {| SFTPGOConfig_SFTP := None; SFTPGOConfig_HTTP := None |};
          SftpGoServerSpec_SFTPPort := 2022;
          SftpGoServerSpec_WebPort := 8080;
          SftpGoServerSpec_DataVolume := None;
          SftpGoServerSpec_StorageBackend := "sqlite";
          SftpGoServerSpec_AdminSecretRef := None |};
     SftpGoServer_Status := SftpGoServer_Status my_sftpgo |}.

Definition world_open_server : World :=
  world_of {| cluster_users := [(alice_key, alice "s3cret" None None)];
              cluster_servers := [(key "default" "my-sftpgo", open_sftpgo)];
              cluster_secrets := [];
              cluster_remote := remote_without_alice 7 |}.

(** The README's server, whose admin secret has not been created. *)
Definition world_no_admin_secret : World :=
  world_of {| cluster_users := [(alice_key, alice "s3cret" None None)];
              cluster_servers := [(key "default" "my-sftpgo", my_sftpgo)];
              cluster_secrets := [];
              cluster_remote := remote_without_alice 7 |}.

(** A remote service that answers every request with 500. *)
Definition remote_down (req : Request) : error + Response :=
  inr {| Response_StatusCode := 500; Response_Decoded := no_body |}.

Definition world_remote_down : World :=
  world_of (cluster_with (alice "s3cret" None None) remote_down).

(** A remote service that has no alice and refuses to create one. *)
Definition remote_refusing (req : Request) : error + Response :=
  if String.eqb (Request_Method req) "GET"
  then inr {| Response_StatusCode := StatusNotFound; Response_Decoded := no_body |}
  else inr {| Response_StatusCode := 400; Response_Decoded := no_body |}.

Definition world_refusing : World :=
  world_of (cluster_with (alice "s3cret" None None) remote_refusing).

(** The user spec with other public keys, every other field kept. *)
Definition with_PublicKeys (keys : list string) (spec : SftpGoUserSpec)
  : SftpGoUserSpec :=
  {| SftpGoUserSpec_Username := SftpGoUserSpec_Username spec;
     SftpGoUserSpec_Password := SftpGoUserSpec_Password spec;
     SftpGoUserSpec_PasswordSecretRef := SftpGoUserSpec_PasswordSecretRef spec;
     SftpGoUserSpec_PublicKeys := keys;
     SftpGoUserSpec_PublicKeysSecretRef := SftpGoUserSpec_PublicKeysSecretRef spec;
     SftpGoUserSpec_Email := SftpGoUserSpec_Email spec;
     SftpGoUserSpec_Status := SftpGoUserSpec_Status spec;
     SftpGoUserSpec_HomeDir := SftpGoUserSpec_HomeDir spec;
     SftpGoUserSpec_VirtualFolders := SftpGoUserSpec_VirtualFolders spec;
     SftpGoUserSpec_Permissions := SftpGoUserSpec_Permissions spec;
     SftpGoUserSpec_Quota := SftpGoUserSpec_Quota spec;
     SftpGoUserSpec_BandwidthLimits := SftpGoUserSpec_BandwidthLimits spec;
     SftpGoUserSpec_MaxSessions := SftpGoUserSpec_MaxSessions spec;
     SftpGoUserSpec_AllowedIP := SftpGoUserSpec_AllowedIP spec;
     SftpGoUserSpec_DeniedIP := SftpGoUserSpec_DeniedIP spec;
     SftpGoUserSpec_Groups := SftpGoUserSpec_Groups spec;
     SftpGoUserSpec_ServerRef := SftpGoUserSpec_ServerRef spec |}.

(** Alice with one public key and no password. *)
Definition alice_key_only : SftpGoUser :=
  {| SftpGoUser_ObjectMeta := SftpGoUser_ObjectMeta (alice "" None None);
     SftpGoUser_Spec := with_PublicKeys ["ssh-ed25519 AAAAC3Nza alice@laptop"]
                          (alice_spec "" None);
     SftpGoUser_Status := SftpGoUser_Status (alice "" None None) |}.

Definition world_key_only : World :=
  world_of (cluster_with alice_key_only (remote_without_alice 7)).

(** Alice is being deleted and the remote service still has the user. *)
Definition world_deleting : World :=
  world_of (cluster_with (alice "s3cret" None (Some 1700000000))
                         (remote_with_alice 42)).

(** A computation keeps a property of the requests sent: when it holds of
    every request sent before, it holds of every request sent after. *)
Definition keeps {A} (P : Request -> Prop) (m : Run A) : Prop :=
  forall t, Forall P (http_requests t) -> Forall P (http_requests (snd (m t))).

(** A computation only adds calls to those made before it. *)
Definition extends {A} (m : Run A) : Prop :=
  forall t, exists l, snd (m t) = t ++ l.

(** *** Vocabulary for the keys read from a secret *)

Definition line_feed : ascii := ascii_of_nat 10.

Definition no_line_feed (s : string) : Prop :=
  ~ In line_feed (list_ascii_of_string s).

(** A key as the reader returns it: nothing to trim, not empty, not a
    comment, on one line. *)
Definition clean_key (k : string) : Prop :=
  TrimSpace k = k /\ k <> "" /\ HasPrefix k "#" = false /\ no_line_feed k.


(** *** Vocabulary for the children of a server *)

(** The port a Service exposes under a name. *)
Definition port_named (name : string) (svc : Service) : option Z :=
  match List.find (fun p => String.eqb (ServicePort_Name p) name) (Service_Ports svc) with
  | Some p => Some (ServicePort_Port p)
  | None => None
  end.

(** The server with another spec. *)
Definition with_Spec (spec : SftpGoServerSpec) (s : SftpGoServer) : SftpGoServer :=
  {| SftpGoServer_ObjectMeta := SftpGoServer_ObjectMeta s;
     SftpGoServer_Spec := spec;
     SftpGoServer_Status := SftpGoServer_Status s |}.

(** A parser for the scenarios: every text is the quantity of its length. *)
Definition parse_by_length (s : string) : Quantity * option error :=
  ({| Quantity_Value := Z.of_nat (String.length s) |}, None).

(** The README server with the HTTP block of the configuration set to a
    port. *)
Definition my_sftpgo_http (port : Z) : SftpGoServer :=
  with_web 8080
    (Some {| HTTPConfig_Enabled := true; HTTPConfig_Port := port;
             HTTPConfig_EnableHTTPS := false; HTTPConfig_CertificateFile := "";
             HTTPConfig_CertificateKeyFile := ""; HTTPConfig_BaseURL := "" |})
    my_sftpgo.

(** *** Vocabulary for the calls of a server pass *)

(** The children handed to [createOrUpdate], in order. *)
Definition applied (t : ServerReconciler.trace) : list ServerReconciler.Child :=
  omap (fun e => match e with
                 | ServerReconciler.EvCreateOrUpdate _ c => Some c
                 | _ => None
                 end) t.

(** The servers whose status was written, in order. *)
Definition server_status_writes (t : ServerReconciler.trace) : list SftpGoServer :=
  omap (fun e => match e with
                 | ServerReconciler.EvStatusUpdate s => Some s
                 | _ => None
                 end) t.

(** The servers written with [r.Update], in order. *)
Definition server_object_writes (t : ServerReconciler.trace) : list SftpGoServer :=
  omap (fun e => match e with
                 | ServerReconciler.EvUpdate s => Some s
                 | _ => None
                 end) t.

(** The children of a server: the ConfigMap, the claim when the spec has a
    data volume, the Deployment and the Service. *)
Definition children (W : ServerReconciler.World) (server : SftpGoServer)
  : list ServerReconciler.Child :=
  [ServerReconciler.ChildConfigMap (configMapForServer server)]
  ++ match pvcForServer (ServerReconciler.resource_ParseQuantity W) server with
     | Some pvc => [ServerReconciler.ChildPersistentVolumeClaim pvc]
     | None => []
     end
  ++ [ServerReconciler.ChildDeployment (deploymentForServer server);
      ServerReconciler.ChildService (serviceForServer server)].

(** The call [e], made after the calls [before], was answered with [err]. *)
Definition failed (W : ServerReconciler.World) (before : ServerReconciler.trace)
    (e : ServerReconciler.event) (err : error) : Prop :=
  match e with
  | ServerReconciler.EvCreateOrUpdate owner c =>
      ServerReconciler.controllerutil_CreateOrUpdate W before owner c = Some err
  | ServerReconciler.EvGetDeployment k =>
      ServerReconciler.kube_Get_Deployment W before k = inl err
  | _ => False
  end.

(** The status of [written] differs from that of [server] in the Degraded
    condition only, which is true with the given reason and message. *)
Definition only_degraded (reason message : string) (server written : SftpGoServer)
  : Prop :=
  SftpGoServer_ObjectMeta written = SftpGoServer_ObjectMeta server
  /\ SftpGoServer_Spec written = SftpGoServer_Spec server
  /\ SftpGoServerStatus_Phase (SftpGoServer_Status written)
     = SftpGoServerStatus_Phase (SftpGoServer_Status server)
  /\ SftpGoServerStatus_Ports (SftpGoServer_Status written)
     = SftpGoServerStatus_Ports (SftpGoServer_Status server)
  /\ SftpGoServerStatus_Replicas (SftpGoServer_Status written)
     = SftpGoServerStatus_Replicas (SftpGoServer_Status server)
  /\ SftpGoServerStatus_ReadyReplicas (SftpGoServer_Status written)
     = SftpGoServerStatus_ReadyReplicas (SftpGoServer_Status server)
  /\ (forall ty, ty <> "Degraded" ->
        FindStatusCondition (SftpGoServerStatus_Conditions (SftpGoServer_Status written)) ty
        = FindStatusCondition (SftpGoServerStatus_Conditions (SftpGoServer_Status server)) ty)
  /\ exists c,
       FindStatusCondition (SftpGoServerStatus_Conditions (SftpGoServer_Status written))
                           "Degraded" = Some c
       /\ Condition_Status c = ConditionTrue
       /\ Condition_Reason c = reason
       /\ Condition_Message c = message.

(** A cluster for one server that does not move: the server is found under
    its own key, every write is accepted, [failing] tells which children are
    refused, and the Deployment reads back as [deployment]. *)
Definition server_world (server : SftpGoServer)
    (failing : ServerReconciler.Child -> option error)
    (deployment : error + ServerReconciler.DeploymentStatus)
  : ServerReconciler.World :=
  {| ServerReconciler.kube_Get := fun _ k =>
       if String.eqb (NamespacedName_Name k) (Name (SftpGoServer_ObjectMeta server))
          && String.eqb (NamespacedName_Namespace k)
                        (Namespace (SftpGoServer_ObjectMeta server))
       then inr server else inl (mkError "not found" true);
     ServerReconciler.kube_Update := fun _ _ => None;
     ServerReconciler.kube_Status_Update := fun _ _ => None;
     ServerReconciler.controllerutil_CreateOrUpdate := fun _ _ c => failing c;
     ServerReconciler.kube_Get_Deployment := fun _ _ => deployment;
     ServerReconciler.resource_ParseQuantity := parse_by_length;
     ServerReconciler.time_Now := fun t => 1000 + Z.of_nat (List.length t) |}.

Definition my_sftpgo_key : NamespacedName :=
  {| NamespacedName_Namespace := "default"; NamespacedName_Name := "my-sftpgo" |}.

Definition one_ready : error + ServerReconciler.DeploymentStatus :=
  inr {| ServerReconciler.DeploymentStatus_Replicas := 1;
         ServerReconciler.DeploymentStatus_ReadyReplicas := 1 |}.

(** Every child is accepted. *)
Definition world_server_ok : ServerReconciler.World :=
  server_world my_sftpgo (fun _ => None) one_ready.

(** The claim is refused. *)
Definition world_claim_refused : ServerReconciler.World :=
  server_world my_sftpgo
    (fun c => match c with
              | ServerReconciler.ChildPersistentVolumeClaim _ =>
                  Some (Errorf "storage class not found")
              | _ => None
              end)
    one_ready.

(** The Deployment is refused. *)
Definition world_deployment_refused : ServerReconciler.World :=
  server_world my_sftpgo
    (fun c => match c with
              | ServerReconciler.ChildDeployment _ => Some (Errorf "quota exceeded")
              | _ => None
              end)
    one_ready.

(** What follows a failed call in the trace of a pass: after a refused
    ConfigMap or Deployment one status write that records the failure as a
    Degraded condition, after any other failed call nothing. *)
Definition aftermath (server : SftpGoServer) (err : error)
    (e : ServerReconciler.event) (rest : ServerReconciler.trace) : Prop :=
  match e with
  | ServerReconciler.EvCreateOrUpdate _ (ServerReconciler.ChildConfigMap _) =>
      exists written,
        rest = [ServerReconciler.EvStatusUpdate written]
        /\ only_degraded "ConfigMapError" (error_Error err) server written
  | ServerReconciler.EvCreateOrUpdate _ (ServerReconciler.ChildDeployment _) =>
      exists written,
        rest = [ServerReconciler.EvStatusUpdate written]
        /\ only_degraded "DeploymentError" (error_Error err) server written
  | _ => rest = []
  end.

(** The status written at the end of a pass that went through: Ready and
    Running, the ports of the Service, the replica counters of the Deployment
    when it has replicas and the old counters otherwise; every condition
    other than Ready is as it was. *)
Definition reconciled (server : SftpGoServer)
    (deployment : ServerReconciler.DeploymentStatus) (written : SftpGoServer) : Prop :=
  let st := SftpGoServer_Status written in
  SftpGoServer_ObjectMeta written = SftpGoServer_ObjectMeta server
  /\ SftpGoServer_Spec written = SftpGoServer_Spec server
  /\ SftpGoServerStatus_Phase st = "Running"
  /\ port_named "sftp" (serviceForServer server)
     = Some (ServicePorts_SFTP (SftpGoServerStatus_Ports st))
  /\ port_named "web" (serviceForServer server)
     = Some (ServicePorts_Web (SftpGoServerStatus_Ports st))
  /\ ServicePorts_HTTP (SftpGoServerStatus_Ports st)
     = ServicePorts_Web (SftpGoServerStatus_Ports st)
  /\ ServicePorts_FTP (SftpGoServerStatus_Ports st) = 0
  /\ (SftpGoServerStatus_Replicas st, SftpGoServerStatus_ReadyReplicas st)
     = (if 0 <? ServerReconciler.DeploymentStatus_Replicas deployment
        then (ServerReconciler.DeploymentStatus_Replicas deployment,
              ServerReconciler.DeploymentStatus_ReadyReplicas deployment)
        else (SftpGoServerStatus_Replicas (SftpGoServer_Status server),
              SftpGoServerStatus_ReadyReplicas (SftpGoServer_Status server)))
  /\ (forall ty, ty <> "Ready" ->
        FindStatusCondition (SftpGoServerStatus_Conditions st) ty
        = FindStatusCondition (SftpGoServerStatus_Conditions (SftpGoServer_Status server)) ty)
  /\ exists c,
       FindStatusCondition (SftpGoServerStatus_Conditions st) "Ready" = Some c
       /\ Condition_Status c = ConditionTrue
       /\ Condition_Reason c = "Reconciled".

(** The README server once its deletion has been asked for. *)
Definition my_sftpgo_deleting : SftpGoServer :=
  {| SftpGoServer_ObjectMeta :=
       {| Name := "my-sftpgo"; Namespace := "default";
          Finalizers := [sftpgoServerFinalizer];
          DeletionTimestamp := Some 1700000000 |};
     SftpGoServer_Spec := SftpGoServer_Spec my_sftpgo;
     SftpGoServer_Status := SftpGoServer_Status my_sftpgo |}.

Definition world_server_deleting : ServerReconciler.World :=
  server_world my_sftpgo_deleting (fun _ => None) one_ready.

(* ================================================================== *)
(** * Properties                                                       *)
(* ================================================================== *)

(** ** Helper facts on the runtime model *)

Lemma wrap_id (n : Z) : int64_range n -> wrap 64 n = n.
Proof.
  unfold int64_range, wrap. intros H.
  replace (2 ^ (64 - 1)) with 9223372036854775808 in * by reflexivity.
  replace (2 ^ 63) with 9223372036854775808 in * by reflexivity.
  replace (2 ^ 64) with 18446744073709551616 by reflexivity.
  rewrite Z.mod_small by lia. lia.
Qed.

Lemma int64_div_1024 (n : Z) : int64_range n -> int64_div n 1024 = n ÷ 1024.
Proof.
  intros H. unfold int64_div. apply wrap_id.
  unfold int64_range in *.
  replace (2 ^ 63) with 9223372036854775808 in * by reflexivity.
  destruct (Z.le_gt_cases 0 n) as [Hn | Hn].
  - pose proof (Z.quot_pos n 1024 Hn ltac:(lia)).
    assert (n ÷ 1024 <= n) by (apply Z.quot_le_upper_bound; lia). lia.
  - assert (Hq : n ÷ 1024 = - ((- n) ÷ 1024)) by (rewrite Z.quot_opp_l; lia).
    assert ((- n) ÷ 1024 <= - n) by (apply Z.quot_le_upper_bound; lia).
    assert (0 <= (- n) ÷ 1024) by (apply Z.quot_pos; lia). lia.
Qed.

Lemma quot_small (n : Z) : 0 < n < 1024 -> n ÷ 1024 = 0.
Proof. intros H. apply Z.quot_small. lia. Qed.

(** ** Reading a member of a marshalled object *)

Lemma assoc_json_app (k : string) (l1 l2 : list (string * json)) :
  assoc_json k (l1 ++ l2) =
  match assoc_json k l1 with
  | Some v => Some v
  | None => assoc_json k l2
  end.
Proof.
  induction l1 as [| [k' v] l1 IH]; simpl; [reflexivity |].
  destruct (String.eqb k k'); [reflexivity | exact IH].
Qed.

Lemma assoc_one_ne (k k' : string) (v : json) :
  String.eqb k k' = false -> assoc_json k [(k', v)] = None.
Proof. intros H. simpl. now rewrite H. Qed.

Lemma assoc_omit_num_ne (k k' : string) (n : Z) :
  String.eqb k k' = false -> assoc_json k (omit_num k' n) = None.
Proof.
  intros H. unfold omit_num. destruct (n =? 0); simpl; [reflexivity |].
  now rewrite H.
Qed.

Lemma assoc_omit_str_ne (k k' s : string) :
  String.eqb k k' = false -> assoc_json k (omit_str k' s) = None.
Proof.
  intros H. unfold omit_str. destruct (String.eqb s ""); simpl; [reflexivity |].
  now rewrite H.
Qed.

Lemma assoc_omit_list_ne {A} (k k' : string) (f : A -> json) (l : list A) :
  String.eqb k k' = false -> assoc_json k (omit_list k' f l) = None.
Proof.
  intros H. destruct l; simpl; [reflexivity |]. now rewrite H.
Qed.

Lemma assoc_omit_map_ne (k k' : string) (m : gmap string (list string)) :
  String.eqb k k' = false -> assoc_json k (omit_map k' m) = None.
Proof.
  intros H. unfold omit_map. destruct (decide (m = ∅)); simpl; [reflexivity |].
  now rewrite H.
Qed.

Lemma assoc_omit_num_eq (k : string) (n : Z) (rest : list (string * json)) :
  assoc_json k (omit_num k n ++ rest) =
  if n =? 0 then assoc_json k rest else Some (JNum n).
Proof.
  unfold omit_num. destruct (n =? 0); simpl; [reflexivity |].
  now rewrite String.eqb_refl.
Qed.

Lemma assoc_omit_str_eq (k s : string) (rest : list (string * json)) :
  assoc_json k (omit_str k s ++ rest) =
  if String.eqb s "" then assoc_json k rest else Some (JStr s).
Proof.
  unfold omit_str. destruct (String.eqb s ""); simpl; [reflexivity |].
  now rewrite String.eqb_refl.
Qed.

(** One step over a member whose key is not the one looked up. *)
Ltac skip_member :=
  rewrite assoc_json_app;
  first [ rewrite assoc_one_ne by reflexivity
        | rewrite assoc_omit_num_ne by reflexivity
        | rewrite assoc_omit_str_ne by reflexivity
        | rewrite assoc_omit_list_ne by reflexivity
        | rewrite assoc_omit_map_ne by reflexivity ];
  cbv beta iota.

Lemma marshal_id (p : UserPayload) :
  json_field "id" (marshal_UserPayload p) =
  if UserPayload_ID p =? 0 then None else Some (JNum (UserPayload_ID p)).
Proof.
  unfold marshal_UserPayload, json_field.
  rewrite assoc_omit_num_eq.
  destruct (UserPayload_ID p =? 0); [| reflexivity].
  repeat skip_member. apply assoc_omit_list_ne. reflexivity.
Qed.

Lemma marshal_password (p : UserPayload) :
  json_field "password" (marshal_UserPayload p) =
  if String.eqb (UserPayload_Password p) "" then None
  else Some (JStr (UserPayload_Password p)).
Proof.
  unfold marshal_UserPayload, json_field.
  do 4 skip_member. rewrite assoc_omit_str_eq.
  destruct (String.eqb (UserPayload_Password p) ""); [| reflexivity].
  repeat skip_member. apply assoc_omit_list_ne. reflexivity.
Qed.

Lemma marshal_upload_bandwidth (p : UserPayload) :
  json_field "upload_bandwidth" (marshal_UserPayload p) =
  if UserPayload_UploadBandwidth p =? 0 then None
  else Some (JNum (UserPayload_UploadBandwidth p)).
Proof.
  unfold marshal_UserPayload, json_field.
  do 11 skip_member. rewrite assoc_omit_num_eq.
  destruct (UserPayload_UploadBandwidth p =? 0); [| reflexivity].
  repeat skip_member. apply assoc_omit_list_ne. reflexivity.
Qed.

Lemma marshal_download_bandwidth (p : UserPayload) :
  json_field "download_bandwidth" (marshal_UserPayload p) =
  if UserPayload_DownloadBandwidth p =? 0 then None
  else Some (JNum (UserPayload_DownloadBandwidth p)).
Proof.
  unfold marshal_UserPayload, json_field.
  do 12 skip_member. rewrite assoc_omit_num_eq.
  destruct (UserPayload_DownloadBandwidth p =? 0); [| reflexivity].
  repeat skip_member. apply assoc_omit_list_ne. reflexivity.
Qed.

(* ================================================================== *)
(** ** Desired state of a server                                       *)
(* ================================================================== *)

(** C5.  Defaulting replaces the image, the replica count (1), the SFTP
    port (2022), the web port (8080) and the storage backend (sqlite)
    exactly when the field is unset, and keeps a set field.  The SFTP and
    web ports of the desired state ([getSFTPPort], [getWebPort], which the
    Service ports are made of) are the protocol-specific override when it is
    present and positive, and the top-level port otherwise. *)
Theorem applyDefaults_and_resolved_ports (s : SftpGoServer) :
  let spec := SftpGoServer_Spec s in
  let d := applyDefaults s in
  ((SftpGoServerSpec_Image spec = "" -> SftpGoServerSpec_Image d = sftpgoDefaultImage) /\
   (SftpGoServerSpec_Image spec <> "" -> SftpGoServerSpec_Image d = SftpGoServerSpec_Image spec)) /\
  ((SftpGoServerSpec_Replicas spec = None -> SftpGoServerSpec_Replicas d = Some 1) /\
   (forall n, SftpGoServerSpec_Replicas spec = Some n -> SftpGoServerSpec_Replicas d = Some n)) /\
  ((SftpGoServerSpec_SFTPPort spec = 0 -> SftpGoServerSpec_SFTPPort d = 2022) /\
   (SftpGoServerSpec_SFTPPort spec <> 0 ->
    SftpGoServerSpec_SFTPPort d = SftpGoServerSpec_SFTPPort spec)) /\
  ((SftpGoServerSpec_WebPort spec = 0 -> SftpGoServerSpec_WebPort d = 8080) /\
   (SftpGoServerSpec_WebPort spec <> 0 ->
    SftpGoServerSpec_WebPort d = SftpGoServerSpec_WebPort spec)) /\
  ((SftpGoServerSpec_StorageBackend spec = "" -> SftpGoServerSpec_StorageBackend d = "sqlite") /\
   (SftpGoServerSpec_StorageBackend spec <> "" ->
    SftpGoServerSpec_StorageBackend d = SftpGoServerSpec_StorageBackend spec)) /\
  ((forall c, SFTPGOConfig_SFTP (SftpGoServerSpec_Config spec) = Some c ->
              0 < SFTPConfig_Port c -> getSFTPPort d = SFTPConfig_Port c) /\
   ((forall c, SFTPGOConfig_SFTP (SftpGoServerSpec_Config spec) = Some c ->
               SFTPConfig_Port c <= 0) ->
    getSFTPPort d = SftpGoServerSpec_SFTPPort d)) /\
  ((forall c, SFTPGOConfig_HTTP (SftpGoServerSpec_Config spec) = Some c ->
              0 < HTTPConfig_Port c -> getWebPort d = HTTPConfig_Port c) /\
   ((forall c, SFTPGOConfig_HTTP (SftpGoServerSpec_Config spec) = Some c ->
               HTTPConfig_Port c <= 0) ->
    getWebPort d = SftpGoServerSpec_WebPort d)) /\
  List.map ServicePort_Port (Service_Ports (serviceForServer s))
    = [getSFTPPort d; getWebPort d].
Proof.
  intros spec d. subst d. unfold applyDefaults. fold spec. cbn [SftpGoServerSpec_Image
    SftpGoServerSpec_Replicas SftpGoServerSpec_SFTPPort SftpGoServerSpec_WebPort
    SftpGoServerSpec_StorageBackend].
  repeat split.
  - intros ->. reflexivity.
  - intros H. destruct (String.eqb_spec (SftpGoServerSpec_Image spec) ""); congruence.
  - intros ->. reflexivity.
  - intros n ->. reflexivity.
  - intros ->. reflexivity.
  - intros H. destruct (Z.eqb_spec (SftpGoServerSpec_SFTPPort spec) 0); congruence.
  - intros ->. reflexivity.
  - intros H. destruct (Z.eqb_spec (SftpGoServerSpec_WebPort spec) 0); congruence.
  - intros ->. reflexivity.
  - intros H. destruct (String.eqb_spec (SftpGoServerSpec_StorageBackend spec) ""); congruence.
  - intros c Hc Hpos. unfold getSFTPPort. cbn [SftpGoServerSpec_Config]. rewrite Hc.
    destruct (Z.ltb_spec 0 (SFTPConfig_Port c)); [reflexivity | lia].
  - intros H. unfold getSFTPPort. cbn [SftpGoServerSpec_Config SftpGoServerSpec_SFTPPort].
    destruct (SFTPGOConfig_SFTP (SftpGoServerSpec_Config spec)) as [c |]; [| reflexivity].
    specialize (H c eq_refl).
    destruct (Z.ltb_spec 0 (SFTPConfig_Port c)); [lia | reflexivity].
  - intros c Hc Hpos. unfold getWebPort. cbn [SftpGoServerSpec_Config]. rewrite Hc.
    destruct (Z.ltb_spec 0 (HTTPConfig_Port c)); [reflexivity | lia].
  - intros H. unfold getWebPort. cbn [SftpGoServerSpec_Config SftpGoServerSpec_WebPort].
    destruct (SFTPGOConfig_HTTP (SftpGoServerSpec_Config spec)) as [c |]; [| reflexivity].
    specialize (H c eq_refl).
    destruct (Z.ltb_spec 0 (HTTPConfig_Port c)); [lia | reflexivity].
Qed.

(** The scenario of the design document: with no port field set, the
    desired SFTP port is 2022, the web port 8080, the storage backend sqlite. *)
Example no_port_set_scenario :
  getSFTPPort (applyDefaults bare_server) = 2022
  /\ getWebPort (applyDefaults bare_server) = 8080
  /\ SftpGoServerSpec_StorageBackend (applyDefaults bare_server) = "sqlite"
  /\ SftpGoServerSpec_Replicas (applyDefaults bare_server) = Some 1
  /\ SftpGoServerSpec_Image (applyDefaults bare_server) = sftpgoDefaultImage.
Proof. repeat split. Qed.

Lemma string_app_assoc (a b c : string) : (a +:+ b) +:+ c = a +:+ (b +:+ c).
Proof.
  induction a as [| x a IH]; [reflexivity |].
  change (String x ((a +:+ b) +:+ c) = String x (a +:+ (b +:+ c))).
  f_equal. exact IH.
Qed.

(** C10.  The configuration artifact of a server binds the httpd listener
    (web admin and REST API) on the constant port 8080: the artifact ends
    with the fixed httpd block, and it does not change when the spec's
    [WebPort] and [Config.HTTP] are replaced by any others.  The sftpd
    binding is what follows the ports of the spec: for a top-level SFTP port
    that is not negative it is the resolved SFTP port. *)
Theorem config_httpd_port_is_8080 (s : SftpGoServer) (webPort : Z)
    (http : option HTTPConfig) :
  (exists before : string,
      ConfigMap_Data (configMapForServer s) !! "sftpgo.json"
        = Some (before +:+ httpd_block)) /\
  configMapForServer (with_web webPort http s) = configMapForServer s /\
  (0 <= SftpGoServerSpec_SFTPPort (SftpGoServer_Spec s) ->
   exists rest : string,
      ConfigMap_Data (configMapForServer s) !! "sftpgo.json"
        = Some (sftpd_port_prefix +:+ itoa (getSFTPPort (applyDefaults s)) +:+ rest)).
Proof.
  split; [| split].
  - unfold configMapForServer. cbn [ConfigMap_Data].
    rewrite lookup_singleton_eq.
    unfold sftpgoMinimalConfig.
    eexists. f_equal.
    change config_tail with ((String (ascii_of_nat 10) "  },
  ") +:+ httpd_block).
    rewrite <- !string_app_assoc. reflexivity.
  - reflexivity.
  - intros Hport. unfold configMapForServer. cbn [ConfigMap_Data].
    rewrite lookup_singleton_eq.
    unfold sftpgoMinimalConfig.
    change config_head with sftpd_port_prefix.
    eexists. do 3 f_equal.
    unfold getSFTPPort, applyDefaults.
    cbn [SftpGoServerSpec_Config SftpGoServerSpec_SFTPPort].
    set (p := SftpGoServerSpec_SFTPPort (SftpGoServer_Spec s)) in *.
    assert (Hp : (if 0 <? (if p =? 0 then 2022 else p)
                  then (if p =? 0 then 2022 else p) else 2022)
                 = if p =? 0 then 2022 else p).
    { destruct (Z.eqb_spec p 0) as [-> | Hne]; [reflexivity |].
      destruct (Z.ltb_spec 0 p); [reflexivity | lia]. }
    rewrite Hp.
    destruct (SFTPGOConfig_SFTP (SftpGoServerSpec_Config (SftpGoServer_Spec s))) as [c |];
      reflexivity.
Qed.

(* ================================================================== *)
(** ** The payload of a user                                           *)
(* ================================================================== *)

(** C6.  With bandwidth limits set, the payload's [upload_bandwidth] and
    [download_bandwidth] are the limits of the spec, given in bytes per
    second, divided by 1024 (KB/s); a limit of 1048576 is sent as 1024. *)
Theorem bandwidth_is_sent_in_kilobytes (spec : SftpGoUserSpec) (password : string)
    (publicKeys : list string) (b : BandwidthLimits) :
  SftpGoUserSpec_BandwidthLimits spec = Some b ->
  int64_range (BandwidthLimits_Upload b) ->
  int64_range (BandwidthLimits_Download b) ->
  let p := UserFromCR spec password publicKeys in
  UserPayload_UploadBandwidth p = BandwidthLimits_Upload b ÷ 1024 /\
  UserPayload_DownloadBandwidth p = BandwidthLimits_Download b ÷ 1024 /\
  (BandwidthLimits_Upload b = 1048576 ->
   UserPayload_UploadBandwidth p = 1024 /\
   json_field "upload_bandwidth" (marshal_UserPayload p) = Some (JNum 1024)).
Proof.
  intros Hb Hup Hdown p.
  assert (Hu : UserPayload_UploadBandwidth p = BandwidthLimits_Upload b ÷ 1024).
  { subst p. unfold UserFromCR. cbn [UserPayload_UploadBandwidth]. rewrite Hb.
    now apply int64_div_1024. }
  assert (Hd : UserPayload_DownloadBandwidth p = BandwidthLimits_Download b ÷ 1024).
  { subst p. unfold UserFromCR. cbn [UserPayload_DownloadBandwidth]. rewrite Hb.
    now apply int64_div_1024. }
  repeat split; try assumption.
  - rewrite Hu, H. reflexivity.
  - rewrite marshal_upload_bandwidth, Hu, H. reflexivity.
Qed.

(** The limits of the README: 1 MB/s up and 10 MB/s down. *)
Lemma bandwidth_is_sent_in_kilobytes_witness :
  UserPayload_UploadBandwidth (UserFromCR (alice_spec "s3cret" None) "s3cret" []) = 1024 /\
  UserPayload_DownloadBandwidth (UserFromCR (alice_spec "s3cret" None) "s3cret" []) = 10240.
Proof.
  pose proof (bandwidth_is_sent_in_kilobytes (alice_spec "s3cret" None) "s3cret" []
                {| BandwidthLimits_Upload := 1048576; BandwidthLimits_Download := 10485760 |}
                eq_refl) as H.
  cbv zeta in H.
  destruct H as (Hu & Hd & _).
  - unfold int64_range; cbn [BandwidthLimits_Upload]; lia.
  - unfold int64_range; cbn [BandwidthLimits_Download]; lia.
  - split; [exact Hu | exact Hd].
Defined.

(** C9.  The conversion truncates toward zero: a limit strictly between 0
    and 1024 bytes per second is sent as 0, the member is then absent from
    the JSON body, and the payload is the one of a spec whose limit is 0,
    which stands for unlimited; likewise for the download limit. *)
Theorem small_bandwidth_limit_becomes_unlimited (spec : SftpGoUserSpec)
    (password : string) (publicKeys : list string) (b : BandwidthLimits) :
  SftpGoUserSpec_BandwidthLimits spec = Some b ->
  let p := UserFromCR spec password publicKeys in
  (0 < BandwidthLimits_Upload b < 1024 ->
   UserPayload_UploadBandwidth p = 0 /\
   json_field "upload_bandwidth" (marshal_UserPayload p) = None /\
   p = UserFromCR
         (with_BandwidthLimits
            (Some {| BandwidthLimits_Upload := 0;
                     BandwidthLimits_Download := BandwidthLimits_Download b |}) spec)
         password publicKeys) /\
  (0 < BandwidthLimits_Download b < 1024 ->
   UserPayload_DownloadBandwidth p = 0 /\
   json_field "download_bandwidth" (marshal_UserPayload p) = None /\
   p = UserFromCR
         (with_BandwidthLimits
            (Some {| BandwidthLimits_Upload := BandwidthLimits_Upload b;
                     BandwidthLimits_Download := 0 |}) spec)
         password publicKeys).
Proof.
  intros Hb p. split; intros Hsmall.
  - assert (Hu : UserPayload_UploadBandwidth p = 0).
    { subst p. unfold UserFromCR. cbn [UserPayload_UploadBandwidth]. rewrite Hb.
      rewrite int64_div_1024 by (unfold int64_range; lia).
      now apply quot_small. }
    split; [exact Hu | split].
    + rewrite marshal_upload_bandwidth, Hu. reflexivity.
    + subst p. unfold UserFromCR in *. cbn [UserPayload_UploadBandwidth] in Hu.
      unfold with_BandwidthLimits. cbn. rewrite Hb in *. cbn. rewrite Hu. reflexivity.
  - assert (Hd : UserPayload_DownloadBandwidth p = 0).
    { subst p. unfold UserFromCR. cbn [UserPayload_DownloadBandwidth]. rewrite Hb.
      rewrite int64_div_1024 by (unfold int64_range; lia).
      now apply quot_small. }
    split; [exact Hd | split].
    + rewrite marshal_download_bandwidth, Hd. reflexivity.
    + subst p. unfold UserFromCR in *. cbn [UserPayload_DownloadBandwidth] in Hd.
      unfold with_BandwidthLimits. cbn. rewrite Hb in *. cbn. rewrite Hd. reflexivity.
Qed.

(** 1023 bytes per second up and 1 byte per second down are both sent as 0. *)
Lemma small_bandwidth_limit_becomes_unlimited_witness :
  UserPayload_UploadBandwidth (UserFromCR slow_spec "s3cret" []) = 0 /\
  UserPayload_DownloadBandwidth (UserFromCR slow_spec "s3cret" []) = 0.
Proof.
  pose proof (small_bandwidth_limit_becomes_unlimited slow_spec "s3cret" []
                {| BandwidthLimits_Upload := 1023; BandwidthLimits_Download := 1 |}
                eq_refl) as H.
  cbv zeta in H. destruct H as [Hu Hd].
  split.
  - apply Hu. cbn [BandwidthLimits_Upload]. lia.
  - apply Hd. cbn [BandwidthLimits_Download]. lia.
Defined.

(* ================================================================== *)
(** ** Calls made by the client and the reconciler                     *)
(* ================================================================== *)

Lemma http_requests_snoc (t : trace) (e : event) :
  http_requests (t ++ [e]) =
  http_requests t ++ match e with EvHTTP r => [r] | _ => [] end.
Proof.
  unfold http_requests. rewrite omap_app. f_equal. destruct e; reflexivity.
Qed.

Lemma status_writes_snoc (t : trace) (e : event) :
  status_writes (t ++ [e]) =
  status_writes t ++ match e with EvStatusUpdate u => [u] | _ => [] end.
Proof.
  unfold status_writes. rewrite omap_app. f_equal. destruct e; reflexivity.
Qed.

Create HintDb quiet.

Lemma quiet_ret {A} (a : A) : quiet (ret a).
Proof. intros t. reflexivity. Qed.

Lemma quiet_bind {A B} (m : Run A) (k : A -> Run B) :
  quiet m -> (forall a, quiet (k a)) -> quiet (bind m k).
Proof.
  intros Hm Hk t. unfold bind. specialize (Hm t).
  destruct (m t) as [a t1]. rewrite Hk. exact Hm.
Qed.

Section Calls.

Variable W : World.

Lemma quiet_Get_Secret k : quiet (Get_Secret W k).
Proof. intros t. cbn. rewrite http_requests_snoc. apply app_nil_r. Qed.

Lemma quiet_Get_SftpGoServer k : quiet (Get_SftpGoServer W k).
Proof. intros t. cbn. rewrite http_requests_snoc. apply app_nil_r. Qed.

Lemma quiet_Get_SftpGoUser k : quiet (Get_SftpGoUser W k).
Proof. intros t. cbn. rewrite http_requests_snoc. apply app_nil_r. Qed.

Lemma quiet_Update u : quiet (Update W u).
Proof. intros t. cbn. rewrite http_requests_snoc. apply app_nil_r. Qed.

Lemma quiet_Status_Update u : quiet (Status_Update W u).
Proof. intros t. cbn. rewrite http_requests_snoc. apply app_nil_r. Qed.

Lemma quiet_Now : quiet (Now W).
Proof. intros t. reflexivity. Qed.

#[local] Hint Resolve quiet_ret quiet_Get_Secret quiet_Get_SftpGoServer
  quiet_Get_SftpGoUser quiet_Update quiet_Status_Update quiet_Now : quiet.

Ltac quiet_step :=
  first [ apply quiet_bind; [| intros ?]
        | solve [auto with quiet]
        | match goal with
          | |- quiet (match ?x with _ => _ end) => destruct x
          | |- quiet (if ?x then _ else _) => destruct x
          | |- quiet (let (_, _) := ?x in _) => destruct x
          end ].

Lemma quiet_setCondition c u : quiet (setCondition W c u).
Proof. unfold setCondition. repeat quiet_step. Qed.

Lemma quiet_fail reason message phase u res :
  quiet (fail W reason message phase u res).
Proof.
  unfold fail. apply quiet_bind; [apply quiet_setCondition | intros ?].
  repeat quiet_step.
Qed.

Lemma quiet_getAdminCredentials server : quiet (getAdminCredentials W server).
Proof. unfold getAdminCredentials. repeat quiet_step. Qed.

Lemma quiet_resolvePassword u : quiet (resolvePassword W u).
Proof. unfold resolvePassword. repeat quiet_step. Qed.

Lemma quiet_resolvePublicKeys u : quiet (resolvePublicKeys W u).
Proof. unfold resolvePublicKeys. repeat quiet_step. Qed.

Lemma quiet_Reconcile_finish u existing err :
  quiet (Reconcile_finish W u existing err).
Proof.
  unfold Reconcile_finish. destruct err; [apply quiet_fail |].
  apply quiet_bind; [apply quiet_Now | intros ?].
  apply quiet_bind; [apply quiet_setCondition | intros ?].
  repeat quiet_step.
Qed.

(** The part of a pass that ends with the payload built has made no call
    to the remote service: the only branch that does, the deletion, returns. *)
Lemma Reconcile_resolve_quiet req t0 x t :
  Reconcile_resolve W req t0 = (inr x, t) -> http_requests t = http_requests t0.
Proof.
  unfold Reconcile_resolve, bind.
  pose proof (quiet_Get_SftpGoUser req t0) as H0.
  destruct (Get_SftpGoUser W req t0) as [[e | user] t1]; cbn [snd] in H0.
  { destruct (error_IsNotFound e); discriminate. }
  destruct (negb (ContainsFinalizer user sftpgoUserFinalizer)).
  { destruct (Update W _ t1) as [[?|] ?]; discriminate. }
  destruct (negb (Time_IsZero (DeletionTimestamp (SftpGoUser_ObjectMeta user)))).
  { destruct (deleteUserFromSFTPGO W user t1) as [[?|] ?]; [discriminate |].
    destruct (Update W _ _) as [[?|] ?]; discriminate. }
  pose proof (quiet_Get_SftpGoServer (serverKey user) t1) as H1.
  destruct (Get_SftpGoServer W (serverKey user) t1) as [[e | server] t2]; cbn [snd] in H1.
  { destruct (error_IsNotFound e); [| discriminate].
    destruct (fail W _ _ _ _ _ t2); discriminate. }
  pose proof (quiet_getAdminCredentials server t2) as H2.
  destruct (getAdminCredentials W server t2) as [[[u p] [e |]] t3]; cbn [snd] in H2.
  { destruct (fail W _ _ _ _ _ t3); discriminate. }
  destruct (String.eqb u "" || String.eqb p "").
  { destruct (fail W _ _ _ _ _ t3); discriminate. }
  pose proof (quiet_resolvePassword user t3) as H3.
  destruct (resolvePassword W user t3) as [[pw [e |]] t4]; cbn [snd fst] in *;
    [discriminate |].
  pose proof (quiet_resolvePublicKeys user t4) as H4.
  destruct (resolvePublicKeys W user t4) as [[ks [e |]] t5]; cbn [snd fst] in *;
    [discriminate |].
  unfold ret. intros [= <- <-]. congruence.
Qed.

(** A well-formed request of [upsertUser] is sent, whatever comes back. *)
Lemma upsertUser_sends c method suffix payload t :
  let url := if negb (String.eqb suffix "")
             then Client_BaseURL c +:+ "/api/v2/users" +:+ "/" +:+ suffix
             else Client_BaseURL c +:+ "/api/v2/users" in
  http_NewRequest W method url = None ->
  snd (upsertUser W c method suffix payload t) =
  t ++ [EvHTTP (Header_Set_ContentType "application/json"
                  (setAuth c {| Request_Method := method;
                                Request_URL := url;
                                Request_BasicAuth := None;
                                Request_ContentType := None;
                                Request_Body := Some (marshal_UserPayload payload) |}))].
Proof.
  intros url Hreq. unfold upsertUser, NewRequest.
  assert (Hurl : (if negb (String.eqb suffix "")
                  then (Client_BaseURL c +:+ "/api/v2/users") +:+ "/" +:+ suffix
                  else Client_BaseURL c +:+ "/api/v2/users") = url).
  { subst url. destruct (negb (String.eqb suffix "")); [| reflexivity].
    now rewrite string_app_assoc. }
  cbv zeta. rewrite Hurl, Hreq. unfold bind, HTTPClient_Do, ret.
  destruct (http_Do W t _) as [e | resp]; [reflexivity |].
  destruct (negb (Response_StatusCode resp =? StatusOK)
            && negb (Response_StatusCode resp =? StatusCreated)); [reflexivity |].
  destruct (Response_Decoded resp); reflexivity.
Qed.

(** A lookup that came back without an error has sent one GET request. *)
Lemma GetUser_sends c username t existing t' :
  GetUser W c username t = ((existing, None), t') ->
  t' = t ++ [EvHTTP (setAuth c {| Request_Method := "GET";
                                  Request_URL := Client_BaseURL c +:+ "/api/v2/users/" +:+ username;
                                  Request_BasicAuth := None;
                                  Request_ContentType := None;
                                  Request_Body := None |})].
Proof.
  unfold GetUser, NewRequest.
  destruct (http_NewRequest W "GET" _); [discriminate |].
  unfold bind, HTTPClient_Do, ret.
  destruct (http_Do W t _) as [e | resp]; [discriminate |].
  destruct (Response_StatusCode resp =? StatusNotFound); [now intros [= <- <-] |].
  destruct (negb (Response_StatusCode resp =? StatusOK)); [discriminate |].
  destruct (Response_Decoded resp); [discriminate |]. now intros [= <- <-].
Qed.

End Calls.

(** ** Conditions *)

Lemma Find_after_Set (now : Time) (conds : list Condition) (c : Condition) :
  exists c',
    FindStatusCondition (SetStatusCondition now conds c) (Condition_Type c) = Some c'
    /\ Condition_Status c' = Condition_Status c
    /\ Condition_Reason c' = Condition_Reason c
    /\ Condition_Message c' = Condition_Message c.
Proof.
  induction conds as [| d conds IH]; cbn [SetStatusCondition].
  - eexists. cbn [FindStatusCondition Condition_Type]. rewrite String.eqb_refl.
    repeat split.
  - destruct (String.eqb (Condition_Type d) (Condition_Type c)) eqn:E.
    + eexists. cbn [FindStatusCondition Condition_Type]. rewrite E. repeat split.
    + cbn [FindStatusCondition]. rewrite E. exact IH.
Qed.

(** What the failure block of the reconciler writes. *)
Lemma fail_writes (W : World) reason message phase u res t :
  exists u',
    fail W reason message phase u res t = (res, t ++ [EvStatusUpdate u'])
    /\ has_condition u' "Ready" ConditionFalse reason message
    /\ SftpGoUserStatus_Phase (SftpGoUser_Status u') = phase
    /\ SftpGoUserStatus_UserID (SftpGoUser_Status u')
        = SftpGoUserStatus_UserID (SftpGoUser_Status u)
    /\ SftpGoUserStatus_LastSynced (SftpGoUser_Status u')
        = SftpGoUserStatus_LastSynced (SftpGoUser_Status u).
Proof.
  unfold fail, setCondition, bind, ret, Now, Status_Update.
  eexists. split; [reflexivity |]. repeat split.
  unfold has_condition. cbn [set_Phase set_Conditions SftpGoUser_set_Status
    SftpGoUser_Status SftpGoUserStatus_Conditions].
  apply (Find_after_Set _ _ (condition "Ready" ConditionFalse reason message)).
Qed.

(** What the end of a successful pass writes. *)
Lemma finish_writes (W : World) u existing t :
  exists written : SftpGoUser,
    Reconcile_finish W u existing None t
      = ((mkResult false, kube_Status_Update W t written),
         t ++ [EvStatusUpdate written])
    /\ has_condition written "Ready" ConditionTrue "Synced" ""
    /\ SftpGoUserStatus_Phase (SftpGoUser_Status written) = "Synced"
    /\ SftpGoUserStatus_LastSynced (SftpGoUser_Status written) = Some (time_Now W t)
    /\ SftpGoUserStatus_UserID (SftpGoUser_Status written)
        = match existing with
          | Some ex => UserPayload_ID ex
          | None => SftpGoUserStatus_UserID (SftpGoUser_Status u)
          end.
Proof.
  unfold Reconcile_finish, setCondition, bind, ret, Now, Status_Update.
  match goal with |- context [EvStatusUpdate ?w] => exists w end.
  split; [destruct (kube_Status_Update W t _); reflexivity |].
  split; [| destruct existing; repeat split].
  unfold has_condition.
  destruct existing; cbn [set_UserID set_Phase set_LastSynced set_Conditions
      SftpGoUser_set_Status SftpGoUser_Status SftpGoUserStatus_Conditions];
    apply (Find_after_Set _ _ (condition "Ready" ConditionTrue "Synced" "")).
Qed.

(** C1.  When the pass reaches the create-or-update step with an empty
    resolved password and the remote user exists, the remote service is
    sent one lookup and one update, and the body of the update carries the
    numeric identifier of the existing user and no password member: the
    stored credential is not overwritten with an empty one. *)
Theorem update_with_empty_password_omits_it (W : World) (req : NamespacedName)
    (x : resolved)
    (t t' : trace) (existing : UserPayload) :
  Reconcile_resolve W req [] = (inr x, t) ->
  GetUser W (resolved_client x)
    (SftpGoUserSpec_Username (SftpGoUser_Spec (resolved_user x))) t
    = ((Some existing, None), t') ->
  resolved_userPassword x = "" ->
  (forall url, http_NewRequest W "PUT" url = None) ->
  exists (get put : Request) (payload : UserPayload),
    http_requests (snd (Reconcile W req [])) = [get; put]
    /\ Request_Method get = "GET"
    /\ Request_Method put = "PUT"
    /\ Request_Body put = Some (marshal_UserPayload payload)
    /\ UserPayload_ID payload = UserPayload_ID existing
    /\ UserPayload_Password payload = ""
    /\ json_field "password" (marshal_UserPayload payload) = None
    /\ (UserPayload_ID existing <> 0 ->
        json_field "id" (marshal_UserPayload payload)
          = Some (JNum (UserPayload_ID existing))).
Proof.
  intros Hres Hget Hpw Hput.
  pose proof (Reconcile_resolve_quiet W _ _ _ _ Hres) as Hq.
  pose proof (GetUser_sends W _ _ _ _ _ Hget) as Ht'.
  unfold Reconcile, bind. rewrite Hres. unfold Reconcile_sync, bind.
  rewrite Hget. cbn [fst snd]. rewrite Hpw. cbn [String.eqb].
  set (payload := UserPayload_set_Password ""
                    (UserPayload_set_ID (UserPayload_ID existing) (resolved_payload x))).
  pose proof (upsertUser_sends W (resolved_client x) "PUT"
                (SftpGoUserSpec_Username (SftpGoUser_Spec (resolved_user x)))
                payload t' (Hput _)) as Hsent.
  unfold UpdateUser.
  destruct (upsertUser W _ "PUT" _ payload t') as [r t2]. cbn [snd] in Hsent.
  rewrite quiet_Reconcile_finish.
  subst t2 t'. rewrite !http_requests_snoc, Hq. cbn [http_requests omap app].
  do 2 eexists. exists payload. split; [reflexivity |].
  assert (Hid : UserPayload_ID payload = UserPayload_ID existing) by reflexivity.
  assert (Hp : UserPayload_Password payload = "") by reflexivity.
  repeat split.
  - unfold setAuth. now destruct (_ && _).
  - unfold setAuth. now destruct (_ && _).
  - unfold setAuth. now destruct (_ && _).
  - rewrite marshal_password, Hp. reflexivity.
  - intros Hne. rewrite marshal_id, Hid.
    destruct (Z.eqb_spec (UserPayload_ID existing) 0); [contradiction | reflexivity].
Qed.

(** On the README's user, whose spec has no password, once the remote
    service knows that user as number 42. *)
Lemma update_with_empty_password_omits_it_witness :
  exists (get put : Request) (payload : UserPayload),
    http_requests (snd (Reconcile world_update alice_key [])) = [get; put]
    /\ Request_Method get = "GET"
    /\ Request_Method put = "PUT"
    /\ Request_Body put = Some (marshal_UserPayload payload)
    /\ UserPayload_ID payload = UserPayload_ID alice_42
    /\ UserPayload_Password payload = ""
    /\ json_field "password" (marshal_UserPayload payload) = None
    /\ (UserPayload_ID alice_42 <> 0 ->
        json_field "id" (marshal_UserPayload payload)
          = Some (JNum (UserPayload_ID alice_42))).
Proof.
  apply (update_with_empty_password_omits_it world_update alice_key
           (pass_resolved world_update) (pass_trace world_update)
           (snd (GetUser world_update admin_client "alice" (pass_trace world_update)))
           alice_42).
  - vm_compute. reflexivity.
  - vm_compute. reflexivity.
  - vm_compute. reflexivity.
  - intros url. reflexivity.
Defined.

(** C2.  When the pass reaches the create-or-update step with an empty
    resolved password and an empty resolved list of public keys, and the
    lookup says the remote user does not exist, the creation is rejected:
    the status is written with condition Ready=False, reason
    [ValidationError] and phase [Error], the pass returns without an error
    (nothing to retry), and the lookup is the only request the remote
    service has received: no create is sent. *)
Theorem create_without_credentials_is_rejected (W : World)
    (req : NamespacedName) (x : resolved) (t t' : trace) :
  Reconcile_resolve W req [] = (inr x, t) ->
  GetUser W (resolved_client x)
    (SftpGoUserSpec_Username (SftpGoUser_Spec (resolved_user x))) t
    = ((None, None), t') ->
  resolved_userPassword x = "" ->
  resolved_publicKeys x = [] ->
  exists (get : Request) (written : SftpGoUser),
    Reconcile W req [] = ((mkResult false, None), t' ++ [EvStatusUpdate written])
    /\ has_condition written "Ready" ConditionFalse "ValidationError"
         "New user requires either password or publicKeys"
    /\ SftpGoUserStatus_Phase (SftpGoUser_Status written) = "Error"
    /\ http_requests (snd (Reconcile W req [])) = [get]
    /\ Request_Method get = "GET".
Proof.
  intros Hres Hget Hpw Hkeys.
  pose proof (Reconcile_resolve_quiet W _ _ _ _ Hres) as Hq.
  pose proof (GetUser_sends W _ _ _ _ _ Hget) as Ht'.
  unfold Reconcile, bind. rewrite Hres. unfold Reconcile_sync, bind.
  rewrite Hget. cbn [fst snd]. rewrite Hpw, Hkeys.
  cbn [String.eqb List.length Nat.eqb andb].
  destruct (fail_writes W "ValidationError"
              "New user requires either password or publicKeys" "Error"
              (resolved_user x) (mkResult false, None) t')
    as (written & Hrun & Hcond & Hphase & _).
  rewrite Hrun. cbn [snd].
  eexists. exists written. repeat split; try assumption.
  - rewrite Ht', !http_requests_snoc, Hq. reflexivity.
  - unfold setAuth. now destruct (_ && _).
Qed.

(** On the README's user with neither password nor key, unknown to the
    remote service. *)
Lemma create_without_credentials_is_rejected_witness :
  exists (get : Request) (written : SftpGoUser),
    Reconcile world_no_credentials alice_key []
      = ((mkResult false, None),
         snd (GetUser world_no_credentials admin_client "alice"
                (pass_trace world_no_credentials)) ++ [EvStatusUpdate written])
    /\ has_condition written "Ready" ConditionFalse "ValidationError"
         "New user requires either password or publicKeys"
    /\ SftpGoUserStatus_Phase (SftpGoUser_Status written) = "Error"
    /\ http_requests (snd (Reconcile world_no_credentials alice_key [])) = [get]
    /\ Request_Method get = "GET".
Proof.
  apply (create_without_credentials_is_rejected world_no_credentials alice_key
           (pass_resolved world_no_credentials) (pass_trace world_no_credentials)).
  - vm_compute. reflexivity.
  - vm_compute. reflexivity.
  - vm_compute. reflexivity.
  - vm_compute. reflexivity.
Defined.

(** C7.  A pass that creates the remote user and succeeds writes condition
    Ready=True, phase [Synced] and the time of the synchronisation, but
    leaves [Status.UserID] as it was: the user the create call returns, and
    its numeric identifier with it, is dropped.  (Only a pass that finds the
    user already there records the identifier, see [update_records_user_id].) *)
Theorem created_user_id_is_not_recorded (W : World) (req : NamespacedName)
    (x : resolved)
    (t t1 t2 : trace) (created : UserPayload) :
  Reconcile_resolve W req [] = (inr x, t) ->
  GetUser W (resolved_client x)
    (SftpGoUserSpec_Username (SftpGoUser_Spec (resolved_user x))) t
    = ((None, None), t1) ->
  String.eqb (resolved_userPassword x) ""
    && Nat.eqb (List.length (resolved_publicKeys x)) 0 = false ->
  CreateUser W (resolved_client x) (resolved_payload x) t1
    = ((Some created, None), t2) ->
  exists written : SftpGoUser,
    Reconcile W req []
      = ((mkResult false, kube_Status_Update W t2 written),
         t2 ++ [EvStatusUpdate written])
    /\ has_condition written "Ready" ConditionTrue "Synced" ""
    /\ SftpGoUserStatus_Phase (SftpGoUser_Status written) = "Synced"
    /\ SftpGoUserStatus_LastSynced (SftpGoUser_Status written) = Some (time_Now W t2)
    /\ SftpGoUserStatus_UserID (SftpGoUser_Status written)
        = SftpGoUserStatus_UserID (SftpGoUser_Status (resolved_user x)).
Proof.
  intros Hres Hget Hcred Hcreate.
  unfold Reconcile, bind. rewrite Hres. unfold Reconcile_sync, bind.
  rewrite Hget. cbn [fst snd]. rewrite Hcred, Hcreate. cbn [fst snd].
  exact (finish_writes W (resolved_user x) None t2).
Qed.

(** The remote service numbers the new user 7; the status keeps 0. *)
Lemma created_user_id_is_not_recorded_witness :
  UserPayload_ID alice_7 = 7 /\
  exists written : SftpGoUser,
    Reconcile world_create alice_key []
      = ((mkResult false, None),
         snd (CreateUser world_create admin_client
                (resolved_payload (pass_resolved world_create))
                (snd (GetUser world_create admin_client "alice"
                        (pass_trace world_create))))
           ++ [EvStatusUpdate written])
    /\ has_condition written "Ready" ConditionTrue "Synced" ""
    /\ SftpGoUserStatus_Phase (SftpGoUser_Status written) = "Synced"
    /\ SftpGoUserStatus_LastSynced (SftpGoUser_Status written) = Some 1005
    /\ SftpGoUserStatus_UserID (SftpGoUser_Status written) = 0.
Proof.
  split; [reflexivity |].
  apply (created_user_id_is_not_recorded world_create alice_key
           (pass_resolved world_create) (pass_trace world_create)
           (snd (GetUser world_create admin_client "alice" (pass_trace world_create)))
           (snd (CreateUser world_create admin_client
                   (resolved_payload (pass_resolved world_create))
                   (snd (GetUser world_create admin_client "alice"
                           (pass_trace world_create)))))
           alice_7).
  - vm_compute. reflexivity.
  - vm_compute. reflexivity.
  - vm_compute. reflexivity.
  - vm_compute. reflexivity.
Defined.

(** The sibling path: a pass that finds the remote user and updates it
    with success records the identifier the lookup returned. *)
Lemma update_records_user_id (W : World) (req : NamespacedName) (x : resolved)
    (t t1 : trace) (existing : UserPayload) :
  Reconcile_resolve W req [] = (inr x, t) ->
  GetUser W (resolved_client x)
    (SftpGoUserSpec_Username (SftpGoUser_Spec (resolved_user x))) t
    = ((Some existing, None), t1) ->
  forall payload r t2,
    UpdateUser W (resolved_client x)
      (SftpGoUserSpec_Username (SftpGoUser_Spec (resolved_user x))) payload t1
      = ((r, None), t2) ->
    payload = (if String.eqb (resolved_userPassword x) ""
               then UserPayload_set_Password ""
                      (UserPayload_set_ID (UserPayload_ID existing) (resolved_payload x))
               else UserPayload_set_ID (UserPayload_ID existing) (resolved_payload x)) ->
  exists written : SftpGoUser,
    Reconcile W req []
      = ((mkResult false, kube_Status_Update W t2 written),
         t2 ++ [EvStatusUpdate written])
    /\ has_condition written "Ready" ConditionTrue "Synced" ""
    /\ SftpGoUserStatus_Phase (SftpGoUser_Status written) = "Synced"
    /\ SftpGoUserStatus_LastSynced (SftpGoUser_Status written) = Some (time_Now W t2)
    /\ SftpGoUserStatus_UserID (SftpGoUser_Status written) = UserPayload_ID existing.
Proof.
  intros Hres Hget payload r t2 Hupd ->.
  unfold Reconcile, bind. rewrite Hres. unfold Reconcile_sync, bind.
  rewrite Hget. cbn [fst snd]. rewrite Hupd. cbn [fst snd].
  exact (finish_writes W (resolved_user x) (Some existing) t2).
Qed.



(* ================================================================== *)
(** ** Deletion                                                        *)
(* ================================================================== *)

Lemma RemoveFinalizer_removes (u : SftpGoUser) (f : string) :
  ContainsFinalizer (RemoveFinalizer u f) f = false.
Proof.
  unfold ContainsFinalizer, RemoveFinalizer, SftpGoUser_set_Finalizers.
  cbn [SftpGoUser_ObjectMeta Finalizers].
  induction (Finalizers (SftpGoUser_ObjectMeta u)) as [| g fs IH]; [reflexivity |].
  cbn [List.filter]. destruct (String.eqb_spec g f) as [-> | Hne]; cbn [negb].
  - exact IH.
  - cbn [existsb]. rewrite IH.
    destruct (String.eqb_spec f g); [congruence | reflexivity].
Qed.

(** C4.  A user whose deletion is requested (finalizer present) and whose
    server does not exist, or whose admin credentials cannot be resolved
    (the resolver fails, or the name or password is empty), is released
    without a word to the remote service: no request is sent, the object is
    written back without the finalizer, and the pass returns what that
    write returns, success when the write succeeds. *)
Theorem deletion_without_server_or_credentials (W : World) (req : NamespacedName)
    (user : SftpGoUser) :
  kube_Get_SftpGoUser W [] req = inr user ->
  ContainsFinalizer user sftpgoUserFinalizer = true ->
  Time_IsZero (DeletionTimestamp (SftpGoUser_ObjectMeta user)) = false ->
  ((exists err, kube_Get_SftpGoServer W [EvGetUser req] (serverKey user) = inl err
                /\ error_IsNotFound err = true)
   \/ (exists server name password err t2,
          kube_Get_SftpGoServer W [EvGetUser req] (serverKey user) = inr server
          /\ getAdminCredentials W server [EvGetUser req; EvGetServer (serverKey user)]
             = ((name, password, err), t2)
          /\ (err <> None \/ name = "" \/ password = ""))) ->
  exists t : trace,
    let released := RemoveFinalizer user sftpgoUserFinalizer in
    Reconcile W req []
      = ((mkResult false, kube_Update W t released), t ++ [EvUpdate released])
    /\ http_requests (t ++ [EvUpdate released]) = []
    /\ ContainsFinalizer released sftpgoUserFinalizer = false
    /\ (kube_Update W t released = None ->
        Reconcile W req [] = ((mkResult false, None), t ++ [EvUpdate released])).
Proof.
  intros Huser Hfin Hdel Hwhy.
  assert (Hshape : forall t,
    (let (e, t1) := Update W (RemoveFinalizer user sftpgoUserFinalizer) t in
     match e with
     | Some err => ret (inl (mkResult false, Some err))
     | None => ret (inl (mkResult false, None))
     end t1)
    = (@inl _ resolved
         (mkResult false, kube_Update W t (RemoveFinalizer user sftpgoUserFinalizer)),
       t ++ [EvUpdate (RemoveFinalizer user sftpgoUserFinalizer)])).
  { intros t. unfold Update, ret.
    destruct (kube_Update W t _); reflexivity. }
  assert (Hrun : exists t,
    Reconcile W req []
      = ((mkResult false, kube_Update W t (RemoveFinalizer user sftpgoUserFinalizer)),
         t ++ [EvUpdate (RemoveFinalizer user sftpgoUserFinalizer)])
    /\ http_requests t = []).
  { unfold Reconcile, Reconcile_resolve, bind, Get_SftpGoUser.
    rewrite Huser, Hfin, Hdel. cbn [negb app].
    unfold deleteUserFromSFTPGO, bind, Get_SftpGoServer.
    destruct Hwhy as [(err & Hsrv & Hnf) | (server & n & p & err & t2 & Hsrv & Hcred & Hbad)];
      rewrite Hsrv.
    - rewrite Hnf. unfold ret at 1. rewrite Hshape.
      eexists. split; reflexivity.
    - cbn [app]. rewrite Hcred.
      pose proof (quiet_getAdminCredentials W server
                    [EvGetUser req; EvGetServer (serverKey user)]) as Hq.
      rewrite Hcred in Hq. cbn [snd] in Hq.
      assert (Hskip :
        match err with
        | Some _ => ret None
        | None =>
            if String.eqb n "" || String.eqb p "" then ret None
            else DeleteUser W
                   (NewClient (ServiceURL (Name (SftpGoServer_ObjectMeta server))
                                 (serverNamespace user) (apiPort server)) n p)
                   (SftpGoUserSpec_Username (SftpGoUser_Spec user))
        end t2 = (None, t2)).
      { destruct err as [e |]; [reflexivity |].
        destruct Hbad as [Hbad | [-> | ->]]; [congruence | reflexivity |].
        now rewrite orb_true_r. }
      rewrite Hskip, Hshape.
      eexists. split; [reflexivity | exact Hq]. }
  destruct Hrun as (t & Hrun & Hquiet).
  exists t. cbv zeta. repeat split.
  - exact Hrun.
  - rewrite http_requests_snoc, Hquiet. reflexivity.
  - apply RemoveFinalizer_removes.
  - intros Hok. rewrite Hrun, Hok. reflexivity.
Qed.

(** Alice is deleted after the server: the finalizer goes at once. *)
Lemma deletion_without_server_or_credentials_witness :
  exists t : trace,
    let released := RemoveFinalizer (alice "s3cret" None (Some 1700000000))
                      sftpgoUserFinalizer in
    Reconcile world_orphan alice_key []
      = ((mkResult false, kube_Update world_orphan t released), t ++ [EvUpdate released])
    /\ http_requests (t ++ [EvUpdate released]) = []
    /\ ContainsFinalizer released sftpgoUserFinalizer = false
    /\ (kube_Update world_orphan t released = None ->
        Reconcile world_orphan alice_key []
          = ((mkResult false, None), t ++ [EvUpdate released])).
Proof.
  apply (deletion_without_server_or_credentials world_orphan alice_key
           (alice "s3cret" None (Some 1700000000))).
  - vm_compute. reflexivity.
  - vm_compute. reflexivity.
  - vm_compute. reflexivity.
  - left. exists (NotFoundError (key "default" "my-sftpgo")).
    split; vm_compute; reflexivity.
Defined.

(** C3.  [DeleteUser] is not idempotent on not-found: when the request is
    sent and the remote service answers 404, because the user does not
    exist, the call returns the error [API returned 404]; only a 200 counts
    as success.  ([GetUser], next to it, does treat 404 as absence.) *)
Theorem DeleteUser_not_found_is_an_error (W : World) (c : Client)
    (username : string) (t : trace) (req : Request) (resp : Response) :
  NewRequest W "DELETE" (Client_BaseURL c +:+ "/api/v2/users/" +:+ username) None
    = inr req ->
  http_Do W t (setAuth c req) = inr resp ->
  Response_StatusCode resp = StatusNotFound ->
  DeleteUser W c username t
    = (Some (Errorf "API returned 404"), t ++ [EvHTTP (setAuth c req)]).
Proof.
  intros Hreq Hdo Hcode. unfold DeleteUser. rewrite Hreq.
  unfold bind, HTTPClient_Do. rewrite Hdo, Hcode. reflexivity.
Qed.

(** The remote service has no alice and answers the DELETE with 404. *)
Lemma DeleteUser_not_found_is_an_error_witness :
  DeleteUser world_already_deleted admin_client "alice" []
  = (Some (Errorf "API returned 404"),
     [EvHTTP (setAuth admin_client
                {| Request_Method := "DELETE";
                   Request_URL := "http://my-sftpgo.default.svc.cluster.local:8080/api/v2/users/alice";
                   Request_BasicAuth := None;
                   Request_ContentType := None;
                   Request_Body := None |})]).
Proof.
  apply (DeleteUser_not_found_is_an_error world_already_deleted admin_client "alice" []
           {| Request_Method := "DELETE";
              Request_URL := "http://my-sftpgo.default.svc.cluster.local:8080/api/v2/users/alice";
              Request_BasicAuth := None;
              Request_ContentType := None;
              Request_Body := None |}
           {| Response_StatusCode := StatusNotFound; Response_Decoded := no_body |}).
  - vm_compute. reflexivity.
  - vm_compute. reflexivity.
  - reflexivity.
Defined.

(** What the 404 costs: alice is being deleted and the remote service no
    longer has that user; the pass fails and the finalizer is never removed. *)
Example deletion_is_held_by_remote_not_found :
  fst (Reconcile world_already_deleted alice_key [])
    = (mkResult false, Some (Errorf "API returned 404"))
  /\ object_writes (snd (Reconcile world_already_deleted alice_key [])) = [].
Proof. split; vm_compute; reflexivity. Qed.

(** By contrast [GetUser] reads a 404 as "no such user", without an error. *)
Lemma GetUser_not_found_is_absence (W : World) (c : Client) (username : string)
    (t : trace) (req : Request) (resp : Response) :
  NewRequest W "GET" (Client_BaseURL c +:+ "/api/v2/users/" +:+ username) None
    = inr req ->
  http_Do W t (setAuth c req) = inr resp ->
  Response_StatusCode resp = StatusNotFound ->
  fst (GetUser W c username t) = (None, None).
Proof.
  intros Hreq Hdo Hcode. unfold GetUser. rewrite Hreq.
  unfold bind, HTTPClient_Do. rewrite Hdo, Hcode. reflexivity.
Qed.

(* ================================================================== *)
(** ** Failures and the condition list                                 *)
(* ================================================================== *)

Lemma Get_Secret_writes_no_status (W : World) k :
  writes_no_status (Get_Secret W k).
Proof. intros t. cbn. rewrite status_writes_snoc. apply app_nil_r. Qed.

Lemma getAdminCredentials_writes_no_status (W : World) server :
  writes_no_status (getAdminCredentials W server).
Proof.
  intros t. unfold getAdminCredentials.
  destruct (SftpGoServerSpec_AdminSecretRef _) as [ref |]; [| reflexivity].
  destruct (String.eqb _ ""); [reflexivity |].
  unfold bind. pose proof (Get_Secret_writes_no_status W
    {| NamespacedName_Name := LocalObjectReference_Name ref;
       NamespacedName_Namespace := Namespace (SftpGoServer_ObjectMeta server) |} t) as H.
  destruct (Get_Secret W _ t) as [[e | sec] t1]; exact H.
Qed.

Lemma resolvePassword_writes_no_status (W : World) user :
  writes_no_status (resolvePassword W user).
Proof.
  intros t. unfold resolvePassword.
  destruct (negb _); [reflexivity |].
  destruct (SftpGoUserSpec_PasswordSecretRef _) as [ref |]; [| reflexivity].
  unfold bind. pose proof (Get_Secret_writes_no_status W
    {| NamespacedName_Name := SecretRef_Name ref;
       NamespacedName_Namespace := Namespace (SftpGoUser_ObjectMeta user) |} t) as H.
  destruct (Get_Secret W _ t) as [[e | sec] t1]; exact H.
Qed.

Lemma resolvePublicKeys_writes_no_status (W : World) user :
  writes_no_status (resolvePublicKeys W user).
Proof.
  intros t. unfold resolvePublicKeys.
  destruct (SftpGoUserSpec_PublicKeys _); [| reflexivity].
  destruct (SftpGoUserSpec_PublicKeysSecretRef _) as [ref |]; [| reflexivity].
  unfold bind. pose proof (Get_Secret_writes_no_status W
    {| NamespacedName_Name := SecretRef_Name ref;
       NamespacedName_Namespace := Namespace (SftpGoUser_ObjectMeta user) |} t) as H.
  destruct (Get_Secret W _ t) as [[e | sec] t1]; exact H.
Qed.

(** C8.  A pass that gets as far as the admin credentials and then fails to
    resolve the password of the user, or its public keys, returns the error
    of the resolver and writes no status at all: the condition list is left
    as it was, with no reason code for the failure. *)
Theorem secret_failure_writes_no_condition (W : World) (req : NamespacedName)
    (user : SftpGoUser) (server : SftpGoServer) (name password : string)
    (t3 t4 : trace) (e : error) :
  kube_Get_SftpGoUser W [] req = inr user ->
  ContainsFinalizer user sftpgoUserFinalizer = true ->
  Time_IsZero (DeletionTimestamp (SftpGoUser_ObjectMeta user)) = true ->
  kube_Get_SftpGoServer W [EvGetUser req] (serverKey user) = inr server ->
  getAdminCredentials W server [EvGetUser req; EvGetServer (serverKey user)]
    = ((name, password, None), t3) ->
  name <> "" ->
  password <> "" ->
  ((exists pw, resolvePassword W user t3 = ((pw, Some e), t4))
   \/ (exists pw t' keys,
          resolvePassword W user t3 = ((pw, None), t')
          /\ resolvePublicKeys W user t' = ((keys, Some e), t4))) ->
  Reconcile W req [] = ((mkResult false, Some e), t4)
  /\ status_writes t4 = [].
Proof.
  intros Huser Hfin Hdel Hsrv Hcred Hname Hpass Hfail.
  assert (Hs3 : status_writes t3 = []).
  { pose proof (getAdminCredentials_writes_no_status W server
                  [EvGetUser req; EvGetServer (serverKey user)]) as H.
    rewrite Hcred in H. exact H. }
  assert (Hne : String.eqb name "" || String.eqb password "" = false).
  { destruct (String.eqb_spec name ""), (String.eqb_spec password "");
      cbn [orb]; congruence. }
  unfold Reconcile, Reconcile_resolve, bind, Get_SftpGoUser.
  rewrite Huser, Hfin, Hdel. cbn [negb app].
  unfold Get_SftpGoServer. rewrite Hsrv. cbn [app]. rewrite Hcred, Hne.
  destruct Hfail as [(pw & Hpw) | (pw & t' & keys & Hpw & Hkeys)].
  - rewrite Hpw. cbn [snd]. split; [reflexivity |].
    pose proof (resolvePassword_writes_no_status W user t3) as H.
    rewrite Hpw in H. cbn [snd] in H. congruence.
  - rewrite Hpw. cbn [snd fst]. rewrite Hkeys. cbn [snd]. split; [reflexivity |].
    pose proof (resolvePassword_writes_no_status W user t3) as H.
    rewrite Hpw in H. cbn [snd] in H.
    pose proof (resolvePublicKeys_writes_no_status W user t') as H'.
    rewrite Hkeys in H'. cbn [snd] in H'. congruence.
Qed.

(** The secret named by [passwordSecretRef] does not exist: four lookups,
    an error, and no status write. *)
Lemma secret_failure_writes_no_condition_witness :
  Reconcile world_missing_secret alice_key []
    = ((mkResult false, Some (NotFoundError (key "default" "alice-password"))),
       [EvGetUser alice_key;
        EvGetServer (key "default" "my-sftpgo");
        EvGetSecret (key "default" "sftpgo-admin-secret");
        EvGetSecret (key "default" "alice-password")])
  /\ status_writes [EvGetUser alice_key;
                    EvGetServer (key "default" "my-sftpgo");
                    EvGetSecret (key "default" "sftpgo-admin-secret");
                    EvGetSecret (key "default" "alice-password")] = [].
Proof.
  apply (secret_failure_writes_no_condition world_missing_secret alice_key
           (alice "" (Some {| SecretRef_Name := "alice-password";
                              SecretRef_Key := "password" |}) None)
           my_sftpgo "admin" "your-admin-password"
           [EvGetUser alice_key; EvGetServer (key "default" "my-sftpgo");
            EvGetSecret (key "default" "sftpgo-admin-secret")]).
  - vm_compute. reflexivity.
  - vm_compute. reflexivity.
  - vm_compute. reflexivity.
  - vm_compute. reflexivity.
  - vm_compute. reflexivity.
  - discriminate.
  - discriminate.
  - left. exists "". vm_compute. reflexivity.
Defined.

(* ================================================================== *)
(** * Further properties of the code                                   *)
(* ================================================================== *)

(** ** Hoare rules *)

Lemma hoare_ret {A} (P : trace -> Prop) (Q : A -> trace -> Prop) (a : A) :
  (forall t, P t -> Q a t) -> hoare P (ret a) Q.
Proof. intros H t Ht. exact (H t Ht). Qed.

Lemma hoare_bind {A B} (P : trace -> Prop) (R : A -> trace -> Prop)
    (Q : B -> trace -> Prop) (m : Run A) (k : A -> Run B) :
  hoare P m R -> (forall a, hoare (R a) (k a) Q) -> hoare P (bind m k) Q.
Proof.
  intros Hm Hk t Ht. unfold bind. specialize (Hm t Ht).
  destruct (m t) as [a t1]. exact (Hk a t1 Hm).
Qed.

Lemma hoare_weaken {A} (P P' : trace -> Prop) (Q Q' : A -> trace -> Prop)
    (m : Run A) :
  hoare P' m Q' -> (forall t, P t -> P' t) -> (forall a t, Q' a t -> Q a t) ->
  hoare P m Q.
Proof. intros H HP HQ t Ht. apply HQ, H, HP, Ht. Qed.

Lemma bind_assoc {A B C} (m : Run A) (k1 : A -> Run B) (k2 : B -> Run C) t :
  bind (bind m k1) k2 t = bind m (fun a => bind (k1 a) k2) t.
Proof. unfold bind. destruct (m t) as [a t1]. reflexivity. Qed.

(** ** The stages of a pass *)

Lemma reads_then_requests_nil n : reads_then_requests n [].
Proof.
  exists [], []. repeat split; try constructor. cbn. lia.
Qed.

Lemma reads_then_requests_mono n n' t :
  (n <= n')%nat -> reads_then_requests n t -> reads_then_requests n' t.
Proof.
  intros Hn (reads & https & -> & Hr & Ha & Hl).
  exists reads, https. repeat split; try assumption. lia.
Qed.

Lemma reads_then_requests_read t e :
  is_read e -> reads_then_requests 0 t -> reads_then_requests 0 (t ++ [e]).
Proof.
  intros He (reads & https & -> & Hr & Ha & Hl).
  destruct https as [| r https]; [| cbn in Hl; lia].
  exists (reads ++ [e]), []. cbn. rewrite !app_nil_r.
  repeat split; try constructor; try lia.
  apply Forall_app. split; [assumption | now constructor].
Qed.

Lemma reads_then_requests_request n t r :
  authenticated r -> reads_then_requests n t ->
  reads_then_requests (S n) (t ++ [EvHTTP r]).
Proof.
  intros Hauth (reads & https & -> & Hr & Ha & Hl).
  exists reads, (https ++ [r]).
  rewrite List.map_app, List.length_app. cbn. rewrite <- app_assoc.
  repeat split; try assumption; try lia.
  apply Forall_app. split; [assumption | now constructor].
Qed.

Lemma reads_then_requests_done user n t :
  (n <= 2)%nat -> reads_then_requests n t -> calls_of_pass user t.
Proof.
  intros Hn H. exists t, []. rewrite app_nil_r.
  repeat split; try constructor; try (cbn; lia).
  now apply (reads_then_requests_mono n).
Qed.

Lemma reads_then_requests_write user n t e :
  (n <= 2)%nat -> write_of user e -> reads_then_requests n t ->
  calls_of_pass user (t ++ [e]).
Proof.
  intros Hn He H. exists t, [e].
  repeat split; try (cbn; lia).
  - now apply (reads_then_requests_mono n).
  - now constructor.
Qed.

Lemma setAuth_authenticated (c : Client) (req : Request) :
  client_ok c -> authenticated (setAuth c req).
Proof.
  intros [Hu Hp]. unfold setAuth.
  destruct (String.eqb_spec (Client_Username c) ""); [contradiction |].
  destruct (String.eqb_spec (Client_Password c) ""); [contradiction |].
  cbn [negb andb]. exists (Client_Username c), (Client_Password c). now repeat split.
Qed.

Lemma NewClient_ok (url name password : string) :
  String.eqb name "" || String.eqb password "" = false ->
  client_ok (NewClient url name password).
Proof.
  intros H. unfold client_ok, NewClient. cbn.
  destruct (String.eqb_spec name ""); [discriminate |].
  destruct (String.eqb_spec password ""); [discriminate |]. now split.
Qed.

Section Stages.

Variable W : World.

Lemma hoare_Get_Secret k :
  hoare (reads_then_requests 0) (Get_Secret W k) (fun _ => reads_then_requests 0).
Proof. intros t Ht. cbn. now apply reads_then_requests_read. Qed.

Lemma hoare_Get_SftpGoServer k :
  hoare (reads_then_requests 0) (Get_SftpGoServer W k)
        (fun _ => reads_then_requests 0).
Proof. intros t Ht. cbn. now apply reads_then_requests_read. Qed.

Lemma hoare_getAdminCredentials server :
  hoare (reads_then_requests 0) (getAdminCredentials W server)
        (fun _ => reads_then_requests 0).
Proof.
  unfold getAdminCredentials.
  destruct (SftpGoServerSpec_AdminSecretRef _) as [ref |];
    [| now apply hoare_ret].
  destruct (String.eqb _ ""); [now apply hoare_ret |].
  eapply hoare_bind; [apply hoare_Get_Secret |].
  intros [e | secret]; now apply hoare_ret.
Qed.

Lemma hoare_resolvePassword user :
  hoare (reads_then_requests 0) (resolvePassword W user)
        (fun _ => reads_then_requests 0).
Proof.
  unfold resolvePassword.
  destruct (negb _); [now apply hoare_ret |].
  destruct (SftpGoUserSpec_PasswordSecretRef _) as [ref |];
    [| now apply hoare_ret].
  eapply hoare_bind; [apply hoare_Get_Secret |].
  intros [e | secret]; now apply hoare_ret.
Qed.

Lemma hoare_resolvePublicKeys user :
  hoare (reads_then_requests 0) (resolvePublicKeys W user)
        (fun _ => reads_then_requests 0).
Proof.
  unfold resolvePublicKeys.
  destruct (SftpGoUserSpec_PublicKeys _); [| now apply hoare_ret].
  destruct (SftpGoUserSpec_PublicKeysSecretRef _) as [ref |];
    [| now apply hoare_ret].
  eapply hoare_bind; [apply hoare_Get_Secret |].
  intros [e | secret]; now apply hoare_ret.
Qed.

Lemma hoare_Do n req :
  authenticated req ->
  hoare (reads_then_requests n) (HTTPClient_Do W req)
        (fun _ => reads_then_requests (S n)).
Proof. intros Ha t Ht. cbn. now apply reads_then_requests_request. Qed.

Lemma hoare_GetUser n c username :
  client_ok c ->
  hoare (reads_then_requests n) (GetUser W c username)
        (fun _ => reads_then_requests (S n)).
Proof.
  intros Hc. unfold GetUser, NewRequest.
  destruct (http_NewRequest W "GET" _).
  { apply hoare_ret. intros t. apply reads_then_requests_mono. lia. }
  eapply hoare_bind; [apply hoare_Do, setAuth_authenticated, Hc |].
  intros [e | resp]; [now apply hoare_ret |].
  destruct (_ =? StatusNotFound); [now apply hoare_ret |].
  destruct (negb _); [now apply hoare_ret |].
  destruct (Response_Decoded resp); now apply hoare_ret.
Qed.

Lemma hoare_upsertUser n c method suffix payload :
  client_ok c ->
  hoare (reads_then_requests n) (upsertUser W c method suffix payload)
        (fun _ => reads_then_requests (S n)).
Proof.
  intros Hc. unfold upsertUser, NewRequest. cbv zeta.
  destruct (http_NewRequest W method _).
  { apply hoare_ret. intros t. apply reads_then_requests_mono. lia. }
  eapply hoare_bind.
  { apply hoare_Do.
    destruct (setAuth_authenticated c
                {| Request_Method := method;
                   Request_URL := if negb (String.eqb suffix "")
                                  then (Client_BaseURL c +:+ "/api/v2/users") +:+ "/" +:+ suffix
                                  else Client_BaseURL c +:+ "/api/v2/users";
                   Request_BasicAuth := None;
                   Request_ContentType := None;
                   Request_Body := Some (marshal_UserPayload payload) |} Hc)
      as (u & p & Hauth & Hu & Hp).
    exists u, p. repeat split; assumption. }
  intros [e | resp]; [now apply hoare_ret |].
  destruct (_ && _); [now apply hoare_ret |].
  destruct (Response_Decoded resp); now apply hoare_ret.
Qed.

Lemma hoare_DeleteUser n c username :
  client_ok c ->
  hoare (reads_then_requests n) (DeleteUser W c username)
        (fun _ => reads_then_requests (S n)).
Proof.
  intros Hc. unfold DeleteUser, NewRequest.
  destruct (http_NewRequest W "DELETE" _).
  { apply hoare_ret. intros t. apply reads_then_requests_mono. lia. }
  eapply hoare_bind; [apply hoare_Do, setAuth_authenticated, Hc |].
  intros [e | resp]; [now apply hoare_ret |].
  destruct (negb _); now apply hoare_ret.
Qed.

Lemma hoare_deleteUserFromSFTPGO user :
  hoare (reads_then_requests 0) (deleteUserFromSFTPGO W user)
        (fun _ => reads_then_requests 1).
Proof.
  assert (Hup : forall t, reads_then_requests 0 t -> reads_then_requests 1 t).
  { intros t. apply reads_then_requests_mono. lia. }
  unfold deleteUserFromSFTPGO. cbv zeta.
  eapply hoare_bind; [apply hoare_Get_SftpGoServer |].
  intros [e | server].
  { destruct (error_IsNotFound e); now apply hoare_ret. }
  eapply hoare_bind; [apply hoare_getAdminCredentials |].
  intros [[name password] [e |]]; [now apply hoare_ret |].
  destruct (String.eqb name "" || String.eqb password "") eqn:Hcred;
    [now apply hoare_ret |].
  apply hoare_DeleteUser, NewClient_ok, Hcred.
Qed.

End Stages.

(** ** What the writes of a pass change *)

Lemma Find_after_Set_other (now : Time) (conds : list Condition)
    (c : Condition) (ty : string) :
  ty <> Condition_Type c ->
  FindStatusCondition (SetStatusCondition now conds c) ty
  = FindStatusCondition conds ty.
Proof.
  intros Hne. induction conds as [| d conds IH]; cbn [SetStatusCondition].
  - cbn [FindStatusCondition Condition_Type].
    destruct (String.eqb_spec (Condition_Type c) ty); [congruence | reflexivity].
  - destruct (String.eqb_spec (Condition_Type d) (Condition_Type c)) as [E | E];
      cbn [FindStatusCondition Condition_Type].
    + destruct (String.eqb_spec (Condition_Type d) ty); [congruence | reflexivity].
    + destruct (String.eqb (Condition_Type d) ty); [reflexivity | exact IH].
Qed.

Lemma AddFinalizer_only_finalizers (u : SftpGoUser) (f : string) :
  only_finalizers_differ u (AddFinalizer u f).
Proof.
  unfold AddFinalizer. destruct (ContainsFinalizer u f); repeat split.
Qed.

Lemma RemoveFinalizer_only_finalizers (u : SftpGoUser) (f : string) :
  only_finalizers_differ u (RemoveFinalizer u f).
Proof. repeat split. Qed.

Lemma AddFinalizer_adds (u : SftpGoUser) (f : string) :
  ContainsFinalizer (AddFinalizer u f) f = true.
Proof.
  unfold AddFinalizer. destruct (ContainsFinalizer u f) eqn:E; [exact E |].
  unfold ContainsFinalizer, SftpGoUser_set_Finalizers.
  cbn [SftpGoUser_ObjectMeta Finalizers].
  rewrite existsb_app. cbn [existsb]. rewrite String.eqb_refl.
  now rewrite orb_true_r.
Qed.

Section Writes.

Variable W : World.

Lemma hoare_Update user obj n :
  (n <= 2)%nat -> only_finalizers_differ user obj ->
  hoare (reads_then_requests n) (Update W obj) (fun _ => calls_of_pass user).
Proof.
  intros Hn Hobj t Ht. cbn.
  now apply (reads_then_requests_write user n).
Qed.

Lemma hoare_Status_Update user obj n :
  (n <= 2)%nat -> only_status_differs user obj ->
  hoare (reads_then_requests n) (Status_Update W obj) (fun _ => calls_of_pass user).
Proof.
  intros Hn Hobj t Ht. cbn.
  now apply (reads_then_requests_write user n).
Qed.

Lemma hoare_fail user reason message phase res n :
  (n <= 2)%nat -> phase = "Error" \/ phase = "Pending" ->
  hoare (reads_then_requests n) (fail W reason message phase user res)
        (fun r t => r = res /\ calls_of_pass user t).
Proof.
  intros Hn Hphase t Ht.
  unfold fail, setCondition, bind, ret, Now, Status_Update. cbn [fst snd].
  split; [reflexivity |].
  apply (reads_then_requests_write user n); [exact Hn | | exact Ht].
  cbn [write_of]. unfold only_status_differs.
  cbn [set_Phase set_Conditions SftpGoUser_set_Status SftpGoUser_Spec
       SftpGoUser_ObjectMeta SftpGoUser_Status SftpGoUserStatus_Conditions
       SftpGoUserStatus_Phase SftpGoUserStatus_UserID SftpGoUserStatus_LastSynced].
  split; [reflexivity |]. split; [reflexivity |]. split.
  - intros ty Hty. now apply Find_after_Set_other.
  - destruct (Find_after_Set (time_Now W t)
                (SftpGoUserStatus_Conditions (SftpGoUser_Status user))
                (condition "Ready" ConditionFalse reason message))
      as (c & Hfind & Hst & _).
    exists c. split; [exact Hfind |]. right. now repeat split.
Qed.

Lemma hoare_Reconcile_finish user existing err n :
  (n <= 2)%nat ->
  hoare (reads_then_requests n) (Reconcile_finish W user existing err)
        (fun _ => calls_of_pass user).
Proof.
  intros Hn. unfold Reconcile_finish. destruct err as [e |].
  { eapply hoare_weaken;
      [apply (hoare_fail user "APIError" (error_Error e) "Error" _ n Hn); now left
      | auto | now intros a t [_ H] ]. }
  intros t Ht.
  unfold setCondition, bind, ret, Now, Status_Update.
  assert (Hobj : forall id,
    only_status_differs user
      (id (set_LastSynced (Some (time_Now W t))
         (set_Phase "Synced"
            (set_Conditions
               (SetStatusCondition (time_Now W t)
                  (SftpGoUserStatus_Conditions (SftpGoUser_Status user))
                  (condition "Ready" ConditionTrue "Synced" "")) user)))) ->
    calls_of_pass user
      (t ++ [EvStatusUpdate
               (id (set_LastSynced (Some (time_Now W t))
                  (set_Phase "Synced"
                     (set_Conditions
                        (SetStatusCondition (time_Now W t)
                           (SftpGoUserStatus_Conditions (SftpGoUser_Status user))
                           (condition "Ready" ConditionTrue "Synced" "")) user))))])).
  { intros id Hid. now apply (reads_then_requests_write user n). }
  assert (Hgood : forall uid,
    only_status_differs user
      (match uid with
       | Some i => set_UserID i
       | None => fun u => u
       end (set_LastSynced (Some (time_Now W t))
         (set_Phase "Synced"
            (set_Conditions
               (SetStatusCondition (time_Now W t)
                  (SftpGoUserStatus_Conditions (SftpGoUser_Status user))
                  (condition "Ready" ConditionTrue "Synced" "")) user))))).
  { intros uid. unfold only_status_differs.
    split; [now destruct uid |]. split; [now destruct uid |]. split.
    - intros ty Hty.
      destruct uid; cbn [set_UserID set_LastSynced set_Phase set_Conditions
        SftpGoUser_set_Status SftpGoUser_Status SftpGoUserStatus_Conditions];
        now apply Find_after_Set_other.
    - destruct (Find_after_Set (time_Now W t)
                  (SftpGoUserStatus_Conditions (SftpGoUser_Status user))
                  (condition "Ready" ConditionTrue "Synced" ""))
        as (c & Hfind & Hst & Hre & _).
      exists c. split; [now destruct uid |]. left.
      destruct uid; now repeat split. }
  destruct existing as [ex |].
  - specialize (Hobj (set_UserID (UserPayload_ID ex)) (Hgood (Some (UserPayload_ID ex)))).
    destruct (kube_Status_Update W t _); exact Hobj.
  - specialize (Hobj (fun u => u) (Hgood None)).
    destruct (kube_Status_Update W t _); exact Hobj.
Qed.

End Writes.

(** ** The calls of a whole pass *)

Section WholePass.

Variable W : World.

Lemma hoare_Reconcile_sync (x : resolved) :
  client_ok (resolved_client x) ->
  hoare (reads_then_requests 0) (Reconcile_sync W x)
        (fun _ => calls_of_pass (resolved_user x)).
Proof.
  intros Hc. unfold Reconcile_sync. cbv zeta.
  eapply hoare_bind; [apply (hoare_GetUser W 0), Hc |].
  intros [existing [e |]]; cbn [fst snd].
  { eapply hoare_weaken;
      [apply (hoare_fail W (resolved_user x) "APIError" (error_Error e) "Error" _ 1);
         [lia | now left]
      | auto | now intros a t [_ H] ]. }
  destruct existing as [ex |].
  - eapply hoare_bind; [apply (hoare_upsertUser W 1), Hc |].
    intros r. apply hoare_Reconcile_finish. lia.
  - destruct (_ && _).
    + eapply hoare_weaken;
        [apply (hoare_fail W (resolved_user x) "ValidationError"
                  "New user requires either password or publicKeys" "Error" _ 1);
           [lia | now left]
        | auto | now intros a t [_ H] ].
    + eapply hoare_bind; [apply (hoare_upsertUser W 1), Hc |].
      intros r. apply hoare_Reconcile_finish. lia.
Qed.

(** Every pass on a fetched user keeps to the order: reads of the object
    store, then at most two authenticated requests, then at most one
    write, which changes only the finalizers or only the status. *)
Lemma pass_calls (req : NamespacedName) (user : SftpGoUser) :
  kube_Get_SftpGoUser W [] req = inr user ->
  calls_of_pass user (snd (Reconcile W req [])).
Proof.
  intros Huser. unfold Reconcile, Reconcile_resolve. rewrite bind_assoc.
  unfold bind at 1. unfold Get_SftpGoUser at 1. rewrite Huser. cbn [app].
  match goal with
  | |- calls_of_pass user (snd (?m ?t)) =>
      enough (Hm : hoare (reads_then_requests 0) m (fun _ => calls_of_pass user))
  end.
  { apply Hm. apply (reads_then_requests_read [] (EvGetUser req)); [exact I |].
    apply reads_then_requests_nil. }
  assert (Hret : forall (n : nat) (res : Result * option error),
    (n <= 2)%nat ->
    hoare (reads_then_requests n)
      (bind (ret (@inl _ resolved res))
            (fun r => match r with inl res0 => ret res0 | inr x => Reconcile_sync W x end))
      (fun _ => calls_of_pass user)).
  { intros n res Hn t Ht. cbn. now apply (reads_then_requests_done user n). }
  assert (Hwrote : forall (m : Run (option error)),
    hoare (reads_then_requests 1) m (fun _ => calls_of_pass user) ->
    hoare (reads_then_requests 1)
      (bind (bind m (fun e => match e with
                              | Some err => ret (@inl _ resolved (mkResult false, Some err))
                              | None => ret (inl (mkResult false, None))
                              end))
            (fun r => match r with inl res0 => ret res0 | inr x => Reconcile_sync W x end))
      (fun _ => calls_of_pass user)).
  { intros m Hm t Ht. rewrite bind_assoc. unfold bind at 1.
    specialize (Hm t Ht). destruct (m t) as [[e |] t1]; exact Hm. }
  assert (Hfail : forall reason message phase res,
    phase = "Error" \/ phase = "Pending" ->
    hoare (reads_then_requests 0)
      (bind (bind (fail W reason message phase user res)
                  (fun res0 => ret (@inl _ resolved res0)))
            (fun r => match r with inl res0 => ret res0 | inr x => Reconcile_sync W x end))
      (fun _ => calls_of_pass user)).
  { intros reason message phase res Hphase t Ht. rewrite bind_assoc. unfold bind at 1.
    pose proof (hoare_fail W user reason message phase res 0 ltac:(lia) Hphase t Ht)
      as [_ H].
    destruct (fail W reason message phase user res t) as [r t1]. exact H. }
  destruct (negb (ContainsFinalizer user sftpgoUserFinalizer)).
  { intros t Ht. rewrite bind_assoc. unfold bind at 1.
    pose proof (hoare_Update W user (AddFinalizer user sftpgoUserFinalizer) 0
                  ltac:(lia) (AddFinalizer_only_finalizers _ _) t Ht) as H.
    destruct (Update W _ t) as [[e |] t1]; exact H. }
  destruct (negb (Time_IsZero _)).
  { intros t Ht. rewrite bind_assoc. unfold bind at 1.
    pose proof (hoare_deleteUserFromSFTPGO W user t Ht) as Hdel.
    destruct (deleteUserFromSFTPGO W user t) as [[e |] t1]; cbn [snd] in Hdel.
    - apply (Hret 1%nat); [lia | exact Hdel].
    - apply Hwrote; [| exact Hdel].
      apply hoare_Update; [lia | apply RemoveFinalizer_only_finalizers]. }
  cbv zeta. intros t Ht. rewrite bind_assoc. unfold bind at 1.
  pose proof (hoare_Get_SftpGoServer W (serverKey user) t Ht) as Hsrv.
  destruct (Get_SftpGoServer W (serverKey user) t) as [[e | server] t1];
    cbn [snd] in Hsrv.
  { destruct (error_IsNotFound e).
    - apply Hfail; [now left | exact Hsrv].
    - apply (Hret 0%nat); [lia | exact Hsrv]. }
  rewrite bind_assoc. unfold bind at 1.
  pose proof (hoare_getAdminCredentials W server t1 Hsrv) as Hcred.
  destruct (getAdminCredentials W server t1) as [[[name password] [e |]] t2];
    cbn [snd] in Hcred.
  { apply Hfail; [now left | exact Hcred]. }
  destruct (String.eqb name "" || String.eqb password "") eqn:Hne.
  { apply Hfail; [now right | exact Hcred]. }
  rewrite bind_assoc. unfold bind at 1.
  pose proof (hoare_resolvePassword W user t2 Hcred) as Hpw.
  destruct (resolvePassword W user t2) as [[pw [e |]] t3]; cbn [snd fst] in *.
  { apply (Hret 0%nat); [lia | exact Hpw]. }
  rewrite bind_assoc. unfold bind at 1.
  pose proof (hoare_resolvePublicKeys W user t3 Hpw) as Hkeys.
  destruct (resolvePublicKeys W user t3) as [[keys [e |]] t4]; cbn [snd fst] in *.
  { apply (Hret 0%nat); [lia | exact Hkeys]. }
  unfold bind, ret.
  apply (hoare_Reconcile_sync
           {| resolved_user := user;
              resolved_client :=
                NewClient (ServiceURL (Name (SftpGoServer_ObjectMeta server))
                             (serverNamespace user) (apiPort server)) name password;
              resolved_userPassword := pw;
              resolved_publicKeys := keys;
              resolved_payload := UserFromCR (SftpGoUser_Spec user) pw keys |}).
  - apply NewClient_ok, Hne.
  - exact Hkeys.
Qed.

End WholePass.

Lemma writes_of_reads (t : trace) :
  Forall is_read t -> object_writes t = [] /\ status_writes t = [].
Proof.
  induction 1 as [| e t He _ [IHo IHs]]; [now split |].
  destruct e; try contradiction; now split.
Qed.

Lemma writes_of_requests (l : list Request) :
  object_writes (List.map EvHTTP l) = [] /\ status_writes (List.map EvHTTP l) = [].
Proof. induction l as [| r l [IHo IHs]]; now split. Qed.

Lemma writes_of_writes (user : SftpGoUser) (t : trace) :
  Forall (write_of user) t ->
  Forall (only_finalizers_differ user) (object_writes t)
  /\ Forall (only_status_differs user) (status_writes t)
  /\ Forall is_write t.
Proof.
  induction 1 as [| e t He _ (IHo & IHs & IHw)]; [now repeat split |].
  destruct e; try contradiction; cbn in *;
    repeat split; try assumption; now constructor.
Qed.

(** X1.  The calls of every pass come in one order: reads of the object
    store first, then at most two requests to the remote service, each one
    with basic authentication made of a non-empty name and a non-empty
    password, then at most one write to the object store, which is the
    last call of the pass. *)
Theorem pass_reads_then_requests_then_writes_once (W : World)
    (req : NamespacedName) :
  exists (reads : trace) (https : list Request) (writes : trace),
    snd (Reconcile W req []) = reads ++ List.map EvHTTP https ++ writes
    /\ Forall is_read reads
    /\ Forall authenticated https
    /\ (List.length https <= 2)%nat
    /\ Forall is_write writes
    /\ (List.length writes <= 1)%nat.
Proof.
  destruct (kube_Get_SftpGoUser W [] req) as [e | user] eqn:Huser.
  - exists [EvGetUser req], [], [].
    unfold Reconcile, Reconcile_resolve, bind, Get_SftpGoUser. rewrite Huser.
    split; [destruct (error_IsNotFound e); reflexivity |].
    split; [repeat constructor |].
    split; [constructor |].
    split; [cbn; lia |].
    split; [constructor | cbn; lia].
  - destruct (pass_calls W req user Huser)
      as (before & writes & Ht & (reads & https & -> & Hr & Ha & Hl) & Hw & Hlw).
    exists reads, https, writes. rewrite Ht, <- app_assoc.
    repeat split; try assumption.
    now apply (writes_of_writes user).
Qed.

(** X2.  Whatever a pass writes, it writes the fetched user back with its
    spec untouched.  A write of the object changes the finalizers and
    nothing else; a status write changes the status and nothing else, and
    in the status only the Ready condition, the phase and, on success, the
    identifier and the time of the last synchronisation: Ready is True in
    phase Synced and False in phase Error or Pending, where the identifier
    and the last-synced time are kept. *)
Theorem writes_change_only_what_they_own (W : World) (req : NamespacedName)
    (user : SftpGoUser) :
  kube_Get_SftpGoUser W [] req = inr user ->
  Forall (only_finalizers_differ user) (object_writes (snd (Reconcile W req [])))
  /\ Forall (only_status_differs user) (status_writes (snd (Reconcile W req []))).
Proof.
  intros Huser.
  destruct (pass_calls W req user Huser)
    as (before & writes & -> & (reads & https & -> & Hr & _) & Hw & _).
  destruct (writes_of_reads reads Hr) as [Hro Hrs].
  destruct (writes_of_requests https) as [Hho Hhs].
  destruct (writes_of_writes user writes Hw) as (Hwo & Hws & _).
  unfold object_writes, status_writes in *.
  rewrite !omap_app, Hro, Hrs, Hho, Hhs. now split.
Qed.

(** On the README's user with a password, unknown to the remote service:
    the one write of the pass is the status of a success. *)
Lemma writes_change_only_what_they_own_witness :
  Forall (only_finalizers_differ (alice "s3cret" None None))
         (object_writes (snd (Reconcile world_create alice_key [])))
  /\ Forall (only_status_differs (alice "s3cret" None None))
            (status_writes (snd (Reconcile world_create alice_key []))).
Proof.
  apply (writes_change_only_what_they_own world_create alice_key
           (alice "s3cret" None None)).
  vm_compute. reflexivity.
Defined.

(* ================================================================== *)
(** ** The paths of a pass, one by one                                 *)
(* ================================================================== *)

(** X3.  A user that does not carry the finalizer yet gets it before
    anything else happens, also when its deletion is already requested: the
    pass fetches the user, writes it back with the finalizer added and
    nothing else changed, and returns, asking for a requeue when the write
    succeeded and handing back the error otherwise.  No server or secret is
    looked up, no request is sent, no status is written. *)
Theorem finalizer_is_recorded_first (W : World) (req : NamespacedName)
    (user : SftpGoUser) :
  kube_Get_SftpGoUser W [] req = inr user ->
  ContainsFinalizer user sftpgoUserFinalizer = false ->
  let marked := AddFinalizer user sftpgoUserFinalizer in
  let answer := kube_Update W [EvGetUser req] marked in
  Reconcile W req []
    = ((mkResult (match answer with None => true | Some _ => false end), answer),
       [EvGetUser req; EvUpdate marked])
  /\ Finalizers (SftpGoUser_ObjectMeta marked)
     = Finalizers (SftpGoUser_ObjectMeta user) ++ [sftpgoUserFinalizer]
  /\ only_finalizers_differ user marked.
Proof.
  intros Huser Hfin marked answer. split; [| split].
  - unfold Reconcile, Reconcile_resolve, bind, Get_SftpGoUser.
    rewrite Huser, Hfin. cbn [negb app]. unfold Update. fold marked. fold answer.
    destruct answer; reflexivity.
  - subst marked. unfold AddFinalizer. rewrite Hfin. reflexivity.
  - apply AddFinalizer_only_finalizers.
Qed.

(** A fresh alice: one write, and a requeue. *)
Lemma finalizer_is_recorded_first_witness :
  Reconcile world_new alice_key []
    = ((mkResult true, None),
       [EvGetUser alice_key; EvUpdate (alice "s3cret" None None)])
  /\ Finalizers (SftpGoUser_ObjectMeta (alice "s3cret" None None))
     = [] ++ [sftpgoUserFinalizer]
  /\ only_finalizers_differ alice_new (alice "s3cret" None None).
Proof.
  apply (finalizer_is_recorded_first world_new alice_key alice_new).
  - vm_compute. reflexivity.
  - vm_compute. reflexivity.
Defined.

(** X4.  When the lookup of the referenced server fails, a not-found
    answer is reported and swallowed: the status is written with condition
    Ready=False, reason [ServerNotFound], a message naming the server and
    the namespace searched (the user's own when the reference names none),
    and phase [Error], and the pass returns without an error.  Any other
    failure of the lookup is returned as it is, and no status is written.
    No request reaches the remote service either way. *)
Theorem server_lookup_failure (W : World) (req : NamespacedName)
    (user : SftpGoUser) (err : error) :
  kube_Get_SftpGoUser W [] req = inr user ->
  ContainsFinalizer user sftpgoUserFinalizer = true ->
  Time_IsZero (DeletionTimestamp (SftpGoUser_ObjectMeta user)) = true ->
  kube_Get_SftpGoServer W [EvGetUser req] (serverKey user) = inl err ->
  let lookups := [EvGetUser req; EvGetServer (serverKey user)] in
  if error_IsNotFound err then
    exists written : SftpGoUser,
      Reconcile W req [] = ((mkResult false, None), lookups ++ [EvStatusUpdate written])
      /\ has_condition written "Ready" ConditionFalse "ServerNotFound"
           ("SftpGoServer "
              +:+ ServerRef_Name (SftpGoUserSpec_ServerRef (SftpGoUser_Spec user))
              +:+ " not found in namespace "
              +:+ (if String.eqb (ServerRef_Namespace
                                    (SftpGoUserSpec_ServerRef (SftpGoUser_Spec user))) ""
                   then Namespace (SftpGoUser_ObjectMeta user)
                   else ServerRef_Namespace
                          (SftpGoUserSpec_ServerRef (SftpGoUser_Spec user))))
      /\ SftpGoUserStatus_Phase (SftpGoUser_Status written) = "Error"
  else Reconcile W req [] = ((mkResult false, Some err), lookups).
Proof.
  intros Huser Hfin Hdel Hsrv lookups.
  unfold Reconcile, Reconcile_resolve, bind, Get_SftpGoUser.
  rewrite Huser, Hfin, Hdel. cbn [negb app].
  unfold Get_SftpGoServer. rewrite Hsrv. cbn [app].
  destruct (error_IsNotFound err); [| reflexivity].
  match goal with
  | |- context [fail W ?r ?m ?p ?u ?res ?t] =>
      destruct (fail_writes W r m p u res t) as (written & Hrun & Hcond & Hphase & _);
      rewrite Hrun
  end.
  exists written. repeat split; assumption.
Qed.

(** Alice refers to a server that does not exist. *)
Lemma server_lookup_failure_witness :
  exists written : SftpGoUser,
    Reconcile world_no_server alice_key []
      = ((mkResult false, None),
         [EvGetUser alice_key; EvGetServer (key "default" "my-sftpgo")]
           ++ [EvStatusUpdate written])
    /\ has_condition written "Ready" ConditionFalse "ServerNotFound"
         "SftpGoServer my-sftpgo not found in namespace default"
    /\ SftpGoUserStatus_Phase (SftpGoUser_Status written) = "Error".
Proof.
  apply (server_lookup_failure world_no_server alice_key (alice "s3cret" None None)
           (NotFoundError (key "default" "my-sftpgo"))).
  - vm_compute. reflexivity.
  - vm_compute. reflexivity.
  - vm_compute. reflexivity.
  - vm_compute. reflexivity.
Defined.

(** X5.  Admin credentials that resolve without an error to an empty name
    or an empty password park the user: the status is written with
    condition Ready=False, reason [AuthNotConfigured] and phase [Pending],
    the pass returns without an error, so nothing is retried, and no
    request reaches the remote service. *)
Theorem missing_admin_credentials_park_the_user (W : World)
    (req : NamespacedName) (user : SftpGoUser) (server : SftpGoServer)
    (name password : string) (t3 : trace) :
  kube_Get_SftpGoUser W [] req = inr user ->
  ContainsFinalizer user sftpgoUserFinalizer = true ->
  Time_IsZero (DeletionTimestamp (SftpGoUser_ObjectMeta user)) = true ->
  kube_Get_SftpGoServer W [EvGetUser req] (serverKey user) = inr server ->
  getAdminCredentials W server [EvGetUser req; EvGetServer (serverKey user)]
    = ((name, password, None), t3) ->
  name = "" \/ password = "" ->
  exists written : SftpGoUser,
    Reconcile W req [] = ((mkResult false, None), t3 ++ [EvStatusUpdate written])
    /\ has_condition written "Ready" ConditionFalse "AuthNotConfigured"
         "SftpGoServer AdminSecretRef not configured - cannot manage users via API"
    /\ SftpGoUserStatus_Phase (SftpGoUser_Status written) = "Pending"
    /\ http_requests (t3 ++ [EvStatusUpdate written]) = [].
Proof.
  intros Huser Hfin Hdel Hsrv Hcred Hempty.
  assert (Hq : http_requests t3 = []).
  { pose proof (quiet_getAdminCredentials W server
                  [EvGetUser req; EvGetServer (serverKey user)]) as H.
    rewrite Hcred in H. exact H. }
  assert (He : String.eqb name "" || String.eqb password "" = true).
  { destruct Hempty as [-> | ->]; [reflexivity | apply orb_true_r]. }
  unfold Reconcile, Reconcile_resolve, bind, Get_SftpGoUser.
  rewrite Huser, Hfin, Hdel. cbn [negb app].
  unfold Get_SftpGoServer. rewrite Hsrv. cbn [app]. rewrite Hcred, He.
  match goal with
  | |- context [fail W ?r ?m ?p ?u ?res ?t] =>
      destruct (fail_writes W r m p u res t) as (written & Hrun & Hcond & Hphase & _);
      rewrite Hrun
  end.
  exists written. repeat split; try assumption.
  rewrite http_requests_snoc, Hq. reflexivity.
Qed.

(** The server of the scenario has no [adminSecretRef]: no secret is read. *)
Lemma missing_admin_credentials_park_the_user_witness :
  exists written : SftpGoUser,
    Reconcile world_open_server alice_key []
      = ((mkResult false, None),
         [EvGetUser alice_key; EvGetServer (key "default" "my-sftpgo")]
           ++ [EvStatusUpdate written])
    /\ has_condition written "Ready" ConditionFalse "AuthNotConfigured"
         "SftpGoServer AdminSecretRef not configured - cannot manage users via API"
    /\ SftpGoUserStatus_Phase (SftpGoUser_Status written) = "Pending"
    /\ http_requests ([EvGetUser alice_key; EvGetServer (key "default" "my-sftpgo")]
                        ++ [EvStatusUpdate written]) = [].
Proof.
  apply (missing_admin_credentials_park_the_user world_open_server alice_key
           (alice "s3cret" None None) open_sftpgo "" "").
  - vm_compute. reflexivity.
  - vm_compute. reflexivity.
  - vm_compute. reflexivity.
  - vm_compute. reflexivity.
  - vm_compute. reflexivity.
  - left. reflexivity.
Defined.

(** X6.  When the admin secret cannot be read, the failure is reported and
    returned: the status is written with condition Ready=False, reason
    [AuthError], the text of the error as message, and phase [Error]; the
    pass returns that error and no request reaches the remote service. *)
Theorem unreadable_admin_secret_is_reported (W : World) (req : NamespacedName)
    (user : SftpGoUser) (server : SftpGoServer) (name password : string)
    (err : error) (t3 : trace) :
  kube_Get_SftpGoUser W [] req = inr user ->
  ContainsFinalizer user sftpgoUserFinalizer = true ->
  Time_IsZero (DeletionTimestamp (SftpGoUser_ObjectMeta user)) = true ->
  kube_Get_SftpGoServer W [EvGetUser req] (serverKey user) = inr server ->
  getAdminCredentials W server [EvGetUser req; EvGetServer (serverKey user)]
    = ((name, password, Some err), t3) ->
  exists written : SftpGoUser,
    Reconcile W req [] = ((mkResult false, Some err), t3 ++ [EvStatusUpdate written])
    /\ has_condition written "Ready" ConditionFalse "AuthError" (error_Error err)
    /\ SftpGoUserStatus_Phase (SftpGoUser_Status written) = "Error"
    /\ http_requests (t3 ++ [EvStatusUpdate written]) = [].
Proof.
  intros Huser Hfin Hdel Hsrv Hcred.
  assert (Hq : http_requests t3 = []).
  { pose proof (quiet_getAdminCredentials W server
                  [EvGetUser req; EvGetServer (serverKey user)]) as H.
    rewrite Hcred in H. exact H. }
  unfold Reconcile, Reconcile_resolve, bind, Get_SftpGoUser.
  rewrite Huser, Hfin, Hdel. cbn [negb app].
  unfold Get_SftpGoServer. rewrite Hsrv. cbn [app]. rewrite Hcred.
  match goal with
  | |- context [fail W ?r ?m ?p ?u ?res ?t] =>
      destruct (fail_writes W r m p u res t) as (written & Hrun & Hcond & Hphase & _);
      rewrite Hrun
  end.
  exists written. repeat split; try assumption.
  rewrite http_requests_snoc, Hq. reflexivity.
Qed.

(** The admin secret of the README's server has not been created. *)
Lemma unreadable_admin_secret_is_reported_witness :
  exists written : SftpGoUser,
    Reconcile world_no_admin_secret alice_key []
      = ((mkResult false, Some (NotFoundError (key "default" "sftpgo-admin-secret"))),
         [EvGetUser alice_key; EvGetServer (key "default" "my-sftpgo");
          EvGetSecret (key "default" "sftpgo-admin-secret")]
           ++ [EvStatusUpdate written])
    /\ has_condition written "Ready" ConditionFalse "AuthError"
         "sftpgo-admin-secret not found"
    /\ SftpGoUserStatus_Phase (SftpGoUser_Status written) = "Error"
    /\ http_requests ([EvGetUser alice_key; EvGetServer (key "default" "my-sftpgo");
                       EvGetSecret (key "default" "sftpgo-admin-secret")]
                        ++ [EvStatusUpdate written]) = [].
Proof.
  apply (unreadable_admin_secret_is_reported world_no_admin_secret alice_key
           (alice "s3cret" None None) my_sftpgo "" ""
           (NotFoundError (key "default" "sftpgo-admin-secret"))).
  - vm_compute. reflexivity.
  - vm_compute. reflexivity.
  - vm_compute. reflexivity.
  - vm_compute. reflexivity.
  - vm_compute. reflexivity.
Defined.

(** What the local variables of a pass are made of, once the payload is
    built: the fetched user, a client with credentials, and the payload of
    the user's spec with the resolved password and keys; so far the pass
    has only read the object store. *)
Lemma Reconcile_resolve_facts (W : World) (req : NamespacedName) (x : resolved)
    (t : trace) :
  Reconcile_resolve W req [] = (inr x, t) ->
  kube_Get_SftpGoUser W [] req = inr (resolved_user x)
  /\ client_ok (resolved_client x)
  /\ resolved_payload x
     = UserFromCR (SftpGoUser_Spec (resolved_user x)) (resolved_userPassword x)
         (resolved_publicKeys x)
  /\ reads_then_requests 0 t.
Proof.
  unfold Reconcile_resolve, bind, Get_SftpGoUser.
  destruct (kube_Get_SftpGoUser W [] req) as [e | user].
  { destruct (error_IsNotFound e); discriminate. }
  destruct (negb (ContainsFinalizer user sftpgoUserFinalizer)).
  { destruct (Update W _ _) as [[?|] ?]; discriminate. }
  destruct (negb (Time_IsZero (DeletionTimestamp (SftpGoUser_ObjectMeta user)))).
  { destruct (deleteUserFromSFTPGO W user _) as [[?|] ?]; [discriminate |].
    destruct (Update W _ _) as [[?|] ?]; discriminate. }
  cbn [app].
  assert (H1 : reads_then_requests 0 [EvGetUser req]).
  { apply (reads_then_requests_read [] (EvGetUser req)); [exact I |].
    apply reads_then_requests_nil. }
  pose proof (hoare_Get_SftpGoServer W (serverKey user) _ H1) as H2.
  destruct (Get_SftpGoServer W (serverKey user) _) as [[e | server] t2];
    cbn [snd] in H2.
  { destruct (error_IsNotFound e); [| discriminate].
    destruct (fail W _ _ _ _ _ t2); discriminate. }
  pose proof (hoare_getAdminCredentials W server _ H2) as H3.
  destruct (getAdminCredentials W server t2) as [[[u p] [e |]] t3]; cbn [snd] in H3.
  { destruct (fail W _ _ _ _ _ t3); discriminate. }
  destruct (String.eqb u "" || String.eqb p "") eqn:Hne.
  { destruct (fail W _ _ _ _ _ t3); discriminate. }
  pose proof (hoare_resolvePassword W user _ H3) as H4.
  destruct (resolvePassword W user t3) as [[pw [e |]] t4]; cbn [snd fst] in *;
    [discriminate |].
  pose proof (hoare_resolvePublicKeys W user _ H4) as H5.
  destruct (resolvePublicKeys W user t4) as [[ks [e |]] t5]; cbn [snd fst] in *;
    [discriminate |].
  unfold ret. intros [= <- <-]. cbn [resolved_user resolved_client
    resolved_payload resolved_userPassword resolved_publicKeys].
  split; [reflexivity |]. split; [apply NewClient_ok, Hne |].
  split; [reflexivity | exact H5].
Qed.

Lemma http_requests_of_calls (reads : trace) (https : list Request) :
  Forall is_read reads ->
  http_requests (reads ++ List.map EvHTTP https) = https.
Proof.
  intros Hr. unfold http_requests. rewrite omap_app.
  assert (Hreads : omap (fun e => match e with EvHTTP r => Some r | _ => None end) reads = []).
  { induction Hr as [| e l He _ IH]; [reflexivity |].
    destruct e; try contradiction; exact IH. }
  rewrite Hreads. cbn [app].
  induction https as [| r l IH]; [reflexivity |]. cbn. now rewrite IH.
Qed.

(** The requests a lookup leaves behind when it fails: none when the
    request could not be built, the GET otherwise. *)
Lemma GetUser_requests (W : World) (c : Client) (username : string) (t : trace) :
  Forall (fun r => Request_Method r = "GET")
         (http_requests (snd (GetUser W c username t)))
  <-> Forall (fun r => Request_Method r = "GET") (http_requests t).
Proof.
  assert (Hsnoc : forall req,
    Forall (fun r => Request_Method r = "GET")
           (http_requests (t ++ [EvHTTP (setAuth c req)]))
    <-> Forall (fun r => Request_Method r = "GET") (http_requests t)
        /\ Request_Method req = "GET").
  { intros req. rewrite http_requests_snoc, Forall_app.
    assert (Request_Method (setAuth c req) = Request_Method req) as Hm
      by (unfold setAuth; now destruct (_ && _)).
    split; intros [H1 H2]; split; try assumption.
    - inversion H2; subst. congruence.
    - constructor; [congruence | constructor]. }
  unfold GetUser, NewRequest.
  destruct (http_NewRequest W "GET" _); [reflexivity |].
  unfold bind, HTTPClient_Do.
  match goal with
  | |- context [http_Do W t ?r] => destruct (http_Do W t r) as [e | resp]
  end.
  { cbn [snd ret]. rewrite Hsnoc. tauto. }
  destruct (_ =? StatusNotFound); [cbn [snd ret]; rewrite Hsnoc; tauto |].
  destruct (negb _); [cbn [snd ret]; rewrite Hsnoc; tauto |].
  destruct (Response_Decoded resp); cbn [snd ret]; rewrite Hsnoc; tauto.
Qed.

(** X7.  When the lookup of the remote user fails (the request cannot be
    built or sent, the answer is neither 200 nor 404, or its body cannot be
    decoded), the pass stops there: the status is written with condition
    Ready=False, reason [APIError], the text of the error as message, and
    phase [Error]; the error is returned, and nothing but the lookup has
    been sent: a failed lookup is never followed by a create or an update. *)
Theorem failed_lookup_stops_the_pass (W : World) (req : NamespacedName)
    (x : resolved) (t t' : trace) (found : option UserPayload) (err : error) :
  Reconcile_resolve W req [] = (inr x, t) ->
  GetUser W (resolved_client x)
    (SftpGoUserSpec_Username (SftpGoUser_Spec (resolved_user x))) t
    = ((found, Some err), t') ->
  exists written : SftpGoUser,
    Reconcile W req [] = ((mkResult false, Some err), t' ++ [EvStatusUpdate written])
    /\ has_condition written "Ready" ConditionFalse "APIError" (error_Error err)
    /\ SftpGoUserStatus_Phase (SftpGoUser_Status written) = "Error"
    /\ Forall (fun r => Request_Method r = "GET")
              (http_requests (t' ++ [EvStatusUpdate written]))
    /\ (List.length (http_requests (t' ++ [EvStatusUpdate written])) <= 1)%nat.
Proof.
  intros Hres Hget.
  pose proof (Reconcile_resolve_quiet W _ _ _ _ Hres) as Hq. cbn in Hq.
  destruct (Reconcile_resolve_facts W _ _ _ Hres) as (_ & Hc & _ & Hin).
  pose proof (hoare_GetUser W 0 (resolved_client x)
                (SftpGoUserSpec_Username (SftpGoUser_Spec (resolved_user x))) Hc t Hin)
    as Hone.
  pose proof (GetUser_requests W (resolved_client x)
                (SftpGoUserSpec_Username (SftpGoUser_Spec (resolved_user x))) t) as Hmeth.
  rewrite Hget in Hone, Hmeth. cbn [snd] in Hone, Hmeth.
  unfold Reconcile, bind. rewrite Hres. unfold Reconcile_sync, bind.
  rewrite Hget. cbn [fst snd].
  destruct (fail_writes W "APIError" (error_Error err) "Error" (resolved_user x)
              (mkResult false, Some err) t')
    as (written & Hrun & Hcond & Hphase & _).
  rewrite Hrun. exists written. repeat split; try assumption.
  - rewrite http_requests_snoc, app_nil_r. apply Hmeth. rewrite Hq. constructor.
  - rewrite http_requests_snoc, app_nil_r.
    destruct Hone as (reads & https & -> & Hr & _ & Hl).
    now rewrite http_requests_of_calls.
Qed.

(** The lookup and the status write of a pass against a service that is down. *)
Lemma failed_lookup_stops_the_pass_witness :
  exists written : SftpGoUser,
    Reconcile world_remote_down alice_key []
      = ((mkResult false, Some (Errorf "API returned 500")),
         snd (GetUser world_remote_down admin_client "alice"
                (pass_trace world_remote_down)) ++ [EvStatusUpdate written])
    /\ has_condition written "Ready" ConditionFalse "APIError" "API returned 500"
    /\ SftpGoUserStatus_Phase (SftpGoUser_Status written) = "Error"
    /\ Forall (fun r => Request_Method r = "GET")
              (http_requests
                 (snd (GetUser world_remote_down admin_client "alice"
                         (pass_trace world_remote_down)) ++ [EvStatusUpdate written]))
    /\ (List.length
          (http_requests
             (snd (GetUser world_remote_down admin_client "alice"
                     (pass_trace world_remote_down)) ++ [EvStatusUpdate written]))
        <= 1)%nat.
Proof.
  apply (failed_lookup_stops_the_pass world_remote_down alice_key
           (pass_resolved world_remote_down) (pass_trace world_remote_down)
           (snd (GetUser world_remote_down admin_client "alice"
                   (pass_trace world_remote_down)))
           None (Errorf "API returned 500")).
  - vm_compute. reflexivity.
  - vm_compute. reflexivity.
Defined.

(** X8.  When the create or the update of the remote user fails, the
    failure is reported and returned, and the status keeps the identifier
    and the last-synced time it had: condition Ready=False, reason
    [APIError], the text of the error as message, phase [Error]. *)
Theorem failed_upsert_is_reported (W : World) (req : NamespacedName)
    (x : resolved) (t t1 t2 : trace) (found answer : option UserPayload)
    (err : error) :
  Reconcile_resolve W req [] = (inr x, t) ->
  GetUser W (resolved_client x)
    (SftpGoUserSpec_Username (SftpGoUser_Spec (resolved_user x))) t
    = ((found, None), t1) ->
  match found with
  | Some existing =>
      UpdateUser W (resolved_client x)
        (SftpGoUserSpec_Username (SftpGoUser_Spec (resolved_user x)))
        (if String.eqb (resolved_userPassword x) ""
         then UserPayload_set_Password ""
                (UserPayload_set_ID (UserPayload_ID existing) (resolved_payload x))
         else UserPayload_set_ID (UserPayload_ID existing) (resolved_payload x)) t1
      = ((answer, Some err), t2)
  | None =>
      String.eqb (resolved_userPassword x) ""
        && Nat.eqb (List.length (resolved_publicKeys x)) 0 = false
      /\ CreateUser W (resolved_client x) (resolved_payload x) t1
         = ((answer, Some err), t2)
  end ->
  exists written : SftpGoUser,
    Reconcile W req [] = ((mkResult false, Some err), t2 ++ [EvStatusUpdate written])
    /\ has_condition written "Ready" ConditionFalse "APIError" (error_Error err)
    /\ SftpGoUserStatus_Phase (SftpGoUser_Status written) = "Error"
    /\ SftpGoUserStatus_UserID (SftpGoUser_Status written)
       = SftpGoUserStatus_UserID (SftpGoUser_Status (resolved_user x))
    /\ SftpGoUserStatus_LastSynced (SftpGoUser_Status written)
       = SftpGoUserStatus_LastSynced (SftpGoUser_Status (resolved_user x)).
Proof.
  intros Hres Hget Hupsert.
  unfold Reconcile, bind. rewrite Hres. unfold Reconcile_sync, bind.
  rewrite Hget. cbn [fst snd].
  destruct found as [existing |].
  - rewrite Hupsert. cbn [fst snd]. unfold Reconcile_finish.
    apply (fail_writes W "APIError" (error_Error err) "Error" (resolved_user x)).
  - destruct Hupsert as [Hok Hcreate]. rewrite Hok, Hcreate. cbn [fst snd].
    unfold Reconcile_finish.
    apply (fail_writes W "APIError" (error_Error err) "Error" (resolved_user x)).
Qed.

(** The remote service has no alice and answers the create with 400. *)
Lemma failed_upsert_is_reported_witness :
  exists written : SftpGoUser,
    Reconcile world_refusing alice_key []
      = ((mkResult false, Some (Errorf "API returned 400")),
         snd (CreateUser world_refusing admin_client
                (resolved_payload (pass_resolved world_refusing))
                (snd (GetUser world_refusing admin_client "alice"
                        (pass_trace world_refusing))))
           ++ [EvStatusUpdate written])
    /\ has_condition written "Ready" ConditionFalse "APIError" "API returned 400"
    /\ SftpGoUserStatus_Phase (SftpGoUser_Status written) = "Error"
    /\ SftpGoUserStatus_UserID (SftpGoUser_Status written) = 0
    /\ SftpGoUserStatus_LastSynced (SftpGoUser_Status written) = None.
Proof.
  apply (failed_upsert_is_reported world_refusing alice_key
           (pass_resolved world_refusing) (pass_trace world_refusing)
           (snd (GetUser world_refusing admin_client "alice" (pass_trace world_refusing)))
           (snd (CreateUser world_refusing admin_client
                   (resolved_payload (pass_resolved world_refusing))
                   (snd (GetUser world_refusing admin_client "alice"
                           (pass_trace world_refusing)))))
           None None (Errorf "API returned 400")).
  - vm_compute. reflexivity.
  - vm_compute. reflexivity.
  - split; vm_compute; reflexivity.
Defined.

Lemma assoc_omit_list_eq {A} (k : string) (f : A -> json) (l : list A)
    (rest : list (string * json)) :
  assoc_json k (omit_list k f l ++ rest) =
  match l with
  | [] => assoc_json k rest
  | _ :: _ => Some (JArr (List.map f l))
  end.
Proof.
  destruct l; [reflexivity |]. cbn [omit_list app assoc_json].
  now rewrite String.eqb_refl.
Qed.

Lemma marshal_public_keys (p : UserPayload) :
  json_field "public_keys" (marshal_UserPayload p) =
  match UserPayload_PublicKeys p with
  | [] => None
  | _ :: _ => Some (JArr (List.map JStr (UserPayload_PublicKeys p)))
  end.
Proof.
  unfold marshal_UserPayload, json_field.
  do 5 skip_member. rewrite assoc_omit_list_eq.
  destruct (UserPayload_PublicKeys p); [| reflexivity].
  repeat skip_member. apply assoc_omit_list_ne. reflexivity.
Qed.

(** X9.  Public keys alone are enough to create a user: with an empty
    resolved password, at least one resolved key and no remote user, the
    pass sends the lookup and then one POST to the collection of users,
    whose body lists the keys and has no password member. *)
Theorem user_is_created_with_keys_only (W : World) (req : NamespacedName)
    (x : resolved) (t t1 : trace) :
  Reconcile_resolve W req [] = (inr x, t) ->
  GetUser W (resolved_client x)
    (SftpGoUserSpec_Username (SftpGoUser_Spec (resolved_user x))) t
    = ((None, None), t1) ->
  resolved_userPassword x = "" ->
  resolved_publicKeys x <> [] ->
  (forall url, http_NewRequest W "POST" url = None) ->
  exists (get post : Request) (body : json),
    http_requests (snd (Reconcile W req [])) = [get; post]
    /\ Request_Method post = "POST"
    /\ Request_URL post = Client_BaseURL (resolved_client x) +:+ "/api/v2/users"
    /\ Request_ContentType post = Some "application/json"
    /\ Request_Body post = Some body
    /\ json_field "password" body = None
    /\ json_field "public_keys" body
       = Some (JArr (List.map JStr (resolved_publicKeys x)))
    /\ json_field "username" body
       = Some (JStr (SftpGoUserSpec_Username (SftpGoUser_Spec (resolved_user x)))).
Proof.
  intros Hres Hget Hpw Hkeys Hpost.
  pose proof (Reconcile_resolve_quiet W _ _ _ _ Hres) as Hq.
  pose proof (GetUser_sends W _ _ _ _ _ Hget) as Ht1.
  destruct (Reconcile_resolve_facts W _ _ _ Hres) as (_ & _ & Hpayload & _).
  unfold Reconcile, bind. rewrite Hres. unfold Reconcile_sync, bind.
  rewrite Hget. cbn [fst snd]. rewrite Hpw.
  destruct (resolved_publicKeys x) as [| k ks] eqn:Eks; [congruence |].
  cbn [String.eqb List.length Nat.eqb andb].
  pose proof (upsertUser_sends W (resolved_client x) "POST" "" (resolved_payload x) t1
                (Hpost _)) as Hsent.
  unfold CreateUser.
  destruct (upsertUser W _ "POST" "" (resolved_payload x) t1) as [r t2].
  cbn [snd] in Hsent. rewrite quiet_Reconcile_finish.
  subst t2 t1. rewrite !http_requests_snoc, Hq. cbn [http_requests omap app].
  do 2 eexists. exists (marshal_UserPayload (resolved_payload x)).
  split; [reflexivity |].
  assert (Hp : UserPayload_Password (resolved_payload x) = "").
  { rewrite Hpayload, Hpw. reflexivity. }
  assert (Hk : UserPayload_PublicKeys (resolved_payload x) = k :: ks).
  { rewrite Hpayload. reflexivity. }
  repeat split.
  - unfold setAuth. now destruct (_ && _).
  - unfold setAuth. now destruct (_ && _).
  - unfold setAuth. now destruct (_ && _).
  - rewrite marshal_password, Hp. reflexivity.
  - rewrite marshal_public_keys, Hk. reflexivity.
  - rewrite Hpayload. unfold marshal_UserPayload, json_field.
    skip_member. reflexivity.
Qed.

(** Alice has an ed25519 key and no password. *)
Lemma user_is_created_with_keys_only_witness :
  exists (get post : Request) (body : json),
    http_requests (snd (Reconcile world_key_only alice_key [])) = [get; post]
    /\ Request_Method post = "POST"
    /\ Request_URL post = "http://my-sftpgo.default.svc.cluster.local:8080/api/v2/users"
    /\ Request_ContentType post = Some "application/json"
    /\ Request_Body post = Some body
    /\ json_field "password" body = None
    /\ json_field "public_keys" body
       = Some (JArr [JStr "ssh-ed25519 AAAAC3Nza alice@laptop"])
    /\ json_field "username" body = Some (JStr "alice").
Proof.
  apply (user_is_created_with_keys_only world_key_only alice_key
           (pass_resolved world_key_only) (pass_trace world_key_only)
           (snd (GetUser world_key_only admin_client "alice" (pass_trace world_key_only)))).
  - vm_compute. reflexivity.
  - vm_compute. reflexivity.
  - vm_compute. reflexivity.
  - vm_compute. discriminate.
  - intros url. reflexivity.
Defined.

(** X10.  The deletion of a user whose server and admin credentials are
    there: one DELETE goes to the user's URL on the server's service, with
    the admin's basic authentication; answered with 200, the object is
    written back without the finalizer, and the pass returns what that
    write returns. *)
Theorem remote_user_is_deleted_then_released (W : World) (req : NamespacedName)
    (user : SftpGoUser) (server : SftpGoServer) (name password : string)
    (t3 : trace) (resp : Response) :
  kube_Get_SftpGoUser W [] req = inr user ->
  ContainsFinalizer user sftpgoUserFinalizer = true ->
  Time_IsZero (DeletionTimestamp (SftpGoUser_ObjectMeta user)) = false ->
  kube_Get_SftpGoServer W [EvGetUser req] (serverKey user) = inr server ->
  getAdminCredentials W server [EvGetUser req; EvGetServer (serverKey user)]
    = ((name, password, None), t3) ->
  name <> "" ->
  password <> "" ->
  let del :=
    {| Request_Method := "DELETE";
       Request_URL :=
         ServiceURL (Name (SftpGoServer_ObjectMeta server)) (serverNamespace user)
                    (apiPort server)
           +:+ "/api/v2/users/" +:+ SftpGoUserSpec_Username (SftpGoUser_Spec user);
       Request_BasicAuth := Some (name, password);
       Request_ContentType := None;
       Request_Body := None |} in
  http_NewRequest W "DELETE" (Request_URL del) = None ->
  http_Do W t3 del = inr resp ->
  Response_StatusCode resp = StatusOK ->
  let released := RemoveFinalizer user sftpgoUserFinalizer in
  Reconcile W req []
    = ((mkResult false, kube_Update W (t3 ++ [EvHTTP del]) released),
       t3 ++ [EvHTTP del; EvUpdate released])
  /\ ContainsFinalizer released sftpgoUserFinalizer = false
  /\ only_finalizers_differ user released.
Proof.
  intros Huser Hfin Hdel Hsrv Hcred Hname Hpass del Hreq Hdo Hcode released.
  split; [| split; [apply RemoveFinalizer_removes
                   | apply RemoveFinalizer_only_finalizers]].
  assert (Hne : String.eqb name "" || String.eqb password "" = false).
  { destruct (String.eqb_spec name ""), (String.eqb_spec password "");
      cbn [orb]; congruence. }
  assert (Hauth : setAuth
            (NewClient (ServiceURL (Name (SftpGoServer_ObjectMeta server))
                          (serverNamespace user) (apiPort server)) name password)
            {| Request_Method := "DELETE";
               Request_URL := Request_URL del;
               Request_BasicAuth := None;
               Request_ContentType := None;
               Request_Body := None |} = del).
  { unfold setAuth, NewClient. cbn [Client_Username Client_Password].
    destruct (String.eqb_spec name ""); [contradiction |].
    destruct (String.eqb_spec password ""); [contradiction |]. reflexivity. }
  unfold Reconcile, Reconcile_resolve, bind, Get_SftpGoUser.
  rewrite Huser, Hfin, Hdel. cbn [negb app].
  unfold deleteUserFromSFTPGO, bind, Get_SftpGoServer.
  rewrite Hsrv. cbn [app]. rewrite Hcred, Hne.
  unfold DeleteUser, NewRequest. cbn [Client_BaseURL NewClient].
  change (http_NewRequest W "DELETE" _) with (http_NewRequest W "DELETE" (Request_URL del)).
  rewrite Hreq. unfold bind, HTTPClient_Do.
  change (ServiceURL _ _ _ +:+ "/api/v2/users/" +:+ _) with (Request_URL del).
  rewrite Hauth, Hdo, Hcode, Z.eqb_refl. cbn [negb]. unfold ret at 1.
  unfold Update. fold released.
  destruct (kube_Update W _ released); unfold ret; rewrite <- app_assoc; reflexivity.
Qed.

(** Alice is deleted while the remote service still has the user. *)
Lemma remote_user_is_deleted_then_released_witness :
  Reconcile world_deleting alice_key []
    = ((mkResult false, None),
       [EvGetUser alice_key; EvGetServer (key "default" "my-sftpgo");
        EvGetSecret (key "default" "sftpgo-admin-secret")]
         ++ [EvHTTP {| Request_Method := "DELETE";
                       Request_URL := "http://my-sftpgo.default.svc.cluster.local:8080/api/v2/users/alice";
                       Request_BasicAuth := Some ("admin", "your-admin-password");
                       Request_ContentType := None;
                       Request_Body := None |};
             EvUpdate (RemoveFinalizer (alice "s3cret" None (Some 1700000000))
                         sftpgoUserFinalizer)])
  /\ ContainsFinalizer (RemoveFinalizer (alice "s3cret" None (Some 1700000000))
                          sftpgoUserFinalizer) sftpgoUserFinalizer = false
  /\ only_finalizers_differ (alice "s3cret" None (Some 1700000000))
       (RemoveFinalizer (alice "s3cret" None (Some 1700000000)) sftpgoUserFinalizer).
Proof.
  apply (remote_user_is_deleted_then_released world_deleting alice_key
           (alice "s3cret" None (Some 1700000000)) my_sftpgo
           "admin" "your-admin-password"
           [EvGetUser alice_key; EvGetServer (key "default" "my-sftpgo");
            EvGetSecret (key "default" "sftpgo-admin-secret")]
           {| Response_StatusCode := StatusOK; Response_Decoded := inr alice_42 |}).
  - vm_compute. reflexivity.
  - vm_compute. reflexivity.
  - vm_compute. reflexivity.
  - vm_compute. reflexivity.
  - vm_compute. reflexivity.
  - discriminate.
  - discriminate.
  - reflexivity.
  - vm_compute. reflexivity.
  - reflexivity.
Defined.

(** X11.  When the cleanup of a deleted user fails (the lookup of the
    server fails otherwise than by not-found, or the DELETE is not answered
    with 200), the pass returns the error and writes nothing: the finalizer
    stays, and no condition records the failure. *)
Theorem failed_cleanup_keeps_the_finalizer (W : World) (req : NamespacedName)
    (user : SftpGoUser) (err : error) (t' : trace) :
  kube_Get_SftpGoUser W [] req = inr user ->
  ContainsFinalizer user sftpgoUserFinalizer = true ->
  Time_IsZero (DeletionTimestamp (SftpGoUser_ObjectMeta user)) = false ->
  deleteUserFromSFTPGO W user [EvGetUser req] = (Some err, t') ->
  Reconcile W req [] = ((mkResult false, Some err), t')
  /\ object_writes t' = []
  /\ status_writes t' = [].
Proof.
  intros Huser Hfin Hdel Hclean.
  split.
  - unfold Reconcile, Reconcile_resolve, bind, Get_SftpGoUser.
    rewrite Huser, Hfin, Hdel. cbn [negb app]. rewrite Hclean. reflexivity.
  - assert (H1 : reads_then_requests 0 [EvGetUser req]).
    { apply (reads_then_requests_read [] (EvGetUser req)); [exact I |].
      apply reads_then_requests_nil. }
    pose proof (hoare_deleteUserFromSFTPGO W user _ H1) as H.
    rewrite Hclean in H. cbn [snd] in H.
    destruct H as (reads & https & -> & Hr & _).
    destruct (writes_of_reads reads Hr) as [Hro Hrs].
    destruct (writes_of_requests https) as [Hho Hhs].
    unfold object_writes, status_writes in *.
    rewrite !omap_app, Hro, Hrs, Hho, Hhs. now split.
Qed.

(** The remote service no longer has alice and answers the DELETE with 404. *)
Lemma failed_cleanup_keeps_the_finalizer_witness :
  Reconcile world_already_deleted alice_key []
    = ((mkResult false, Some (Errorf "API returned 404")),
       snd (deleteUserFromSFTPGO world_already_deleted
              (alice "s3cret" None (Some 1700000000)) [EvGetUser alice_key]))
  /\ object_writes
       (snd (deleteUserFromSFTPGO world_already_deleted
               (alice "s3cret" None (Some 1700000000)) [EvGetUser alice_key])) = []
  /\ status_writes
       (snd (deleteUserFromSFTPGO world_already_deleted
               (alice "s3cret" None (Some 1700000000)) [EvGetUser alice_key])) = [].
Proof.
  apply (failed_cleanup_keeps_the_finalizer world_already_deleted alice_key
           (alice "s3cret" None (Some 1700000000)) (Errorf "API returned 404")).
  - vm_compute. reflexivity.
  - vm_compute. reflexivity.
  - vm_compute. reflexivity.
  - vm_compute. reflexivity.
Defined.

(* ================================================================== *)
(** ** The answers of the client                                       *)
(* ================================================================== *)

Lemma setAuth_Method (c : Client) (req : Request) :
  Request_Method (setAuth c req) = Request_Method req.
Proof. unfold setAuth. now destruct (_ && _). Qed.

(** What stands behind an answer of [GetUser]. *)
Lemma GetUser_inversion (W : World) (c : Client) (username : string)
    (t t' : trace) (found : option UserPayload) (err : option error) :
  GetUser W c username t = ((found, err), t') ->
  match found, err with
  | Some user, None =>
      exists get resp,
        http_Do W t get = inr resp /\ Request_Method get = "GET"
        /\ t' = t ++ [EvHTTP get]
        /\ Response_StatusCode resp = StatusOK
        /\ Response_Decoded resp = inr user
  | None, None =>
      exists get resp,
        http_Do W t get = inr resp /\ Request_Method get = "GET"
        /\ t' = t ++ [EvHTTP get]
        /\ Response_StatusCode resp = StatusNotFound
  | Some _, Some _ => False
  | None, Some _ => True
  end.
Proof.
  unfold GetUser, NewRequest.
  destruct (http_NewRequest W "GET" _); [now intros [= <- <- <-] |].
  unfold bind, HTTPClient_Do, ret.
  match goal with
  | |- context [http_Do W t ?r] =>
      set (get := r); destruct (http_Do W t get) as [e | resp] eqn:Hdo
  end; [now intros [= <- <- <-] |].
  assert (Hm : Request_Method get = "GET") by apply setAuth_Method.
  destruct (Z.eqb_spec (Response_StatusCode resp) StatusNotFound) as [H404 | H404].
  { intros [= <- <- <-]. exists get, resp. now repeat split. }
  destruct (Z.eqb_spec (Response_StatusCode resp) StatusOK) as [H200 | H200];
    cbn [negb]; [| now intros [= <- <- <-]].
  destruct (Response_Decoded resp) as [e | user] eqn:Hdec; intros [= <- <- <-];
    [exact I |].
  exists get, resp. now repeat split.
Qed.

(** X12.  [GetUser] tells three cases apart and never mixes them: it
    returns a user exactly when the request was sent and answered 200 with
    a body that decodes to that user; it returns neither user nor error
    exactly when the answer was 404; in every other case (request not
    built or not sent, another status, a body that does not decode) it
    returns an error and no user. *)
Theorem GetUser_tells_found_absent_and_failed_apart (W : World) (c : Client)
    (username : string) (t : trace) (get : Request) :
  NewRequest W "GET" (Client_BaseURL c +:+ "/api/v2/users/" +:+ username) None
    = inr get ->
  let answer := fst (GetUser W c username t) in
  (forall user,
      answer = (Some user, None) <->
      exists resp, http_Do W t (setAuth c get) = inr resp
                   /\ Response_StatusCode resp = StatusOK
                   /\ Response_Decoded resp = inr user)
  /\ (answer = (None, None) <->
      exists resp, http_Do W t (setAuth c get) = inr resp
                   /\ Response_StatusCode resp = StatusNotFound)
  /\ (forall user err, answer <> (Some user, Some err)).
Proof.
  intros Hreq answer. subst answer. unfold GetUser. rewrite Hreq.
  unfold bind, HTTPClient_Do, ret.
  destruct (http_Do W t (setAuth c get)) as [e | resp]; cbn [fst].
  { repeat split; try congruence; try (intros (resp & H & _); discriminate);
      intros; congruence. }
  destruct (Z.eqb_spec (Response_StatusCode resp) StatusNotFound) as [H404 | H404];
    cbn [fst].
  { repeat split; try congruence.
    - intros (r & [= <-] & H200 & _). rewrite H404 in H200. discriminate.
    - intros _. now exists resp. }
  destruct (Z.eqb_spec (Response_StatusCode resp) StatusOK) as [H200 | H200];
    cbn [negb fst].
  - destruct (Response_Decoded resp) as [e | user] eqn:Hdec; cbn [fst].
    + repeat split; try congruence.
      * intros (r & [= <-] & _ & Hd). congruence.
      * intros (r & [= <-] & H'). congruence.
    + repeat split; try congruence.
      * intros [= <-]. now exists resp.
      * intros (r & [= <-] & _ & Hd). congruence.
      * intros (r & [= <-] & H'). congruence.
  - repeat split; try congruence.
    + intros (r & [= <-] & H' & _). congruence.
    + intros (r & [= <-] & H'). congruence.
Qed.

(** Against the service that has no alice, the lookup says "absent". *)
Lemma GetUser_tells_found_absent_and_failed_apart_witness :
  fst (GetUser world_create admin_client "alice" []) = (None, None).
Proof.
  pose proof (GetUser_tells_found_absent_and_failed_apart world_create admin_client
                "alice" []
                {| Request_Method := "GET";
                   Request_URL := "http://my-sftpgo.default.svc.cluster.local:8080/api/v2/users/alice";
                   Request_BasicAuth := None;
                   Request_ContentType := None;
                   Request_Body := None |}) as H.
  cbv zeta in H. destruct H as (_ & Habsent & _).
  - vm_compute. reflexivity.
  - apply Habsent.
    exists {| Response_StatusCode := StatusNotFound; Response_Decoded := no_body |}.
    split; vm_compute; reflexivity.
Defined.

(** X13.  [upsertUser], behind [CreateUser] and [UpdateUser], succeeds
    exactly when the request is sent and answered 200 or 201 with a body
    that decodes, and then returns the decoded user; any other status is
    the error [API returned <status>]. *)
Theorem upsertUser_succeeds_on_200_or_201 (W : World) (c : Client)
    (method suffix : string) (payload : UserPayload) (t : trace) (req : Request) :
  NewRequest W method
    (if negb (String.eqb suffix "")
     then (Client_BaseURL c +:+ "/api/v2/users") +:+ "/" +:+ suffix
     else Client_BaseURL c +:+ "/api/v2/users")
    (Some (marshal_UserPayload payload)) = inr req ->
  let sent := Header_Set_ContentType "application/json" (setAuth c req) in
  let answer := fst (upsertUser W c method suffix payload t) in
  (forall user,
      answer = (Some user, None) <->
      exists resp, http_Do W t sent = inr resp
                   /\ (Response_StatusCode resp = StatusOK
                       \/ Response_StatusCode resp = StatusCreated)
                   /\ Response_Decoded resp = inr user)
  /\ (snd answer = None -> exists user, fst answer = Some user)
  /\ (forall resp,
        http_Do W t sent = inr resp ->
        Response_StatusCode resp <> StatusOK ->
        Response_StatusCode resp <> StatusCreated ->
        answer = (None, Some (Errorf ("API returned " +:+ itoa (Response_StatusCode resp))))).
Proof.
  intros Hreq sent answer. subst answer. unfold upsertUser. cbv zeta.
  rewrite Hreq. unfold bind, HTTPClient_Do, ret. fold sent.
  destruct (http_Do W t sent) as [e | resp]; cbn [fst snd].
  { repeat split; try congruence; try discriminate.
    intros (r & H & _). discriminate. }
  destruct (Z.eqb_spec (Response_StatusCode resp) StatusOK) as [H200 | H200];
    destruct (Z.eqb_spec (Response_StatusCode resp) StatusCreated) as [H201 | H201];
    cbn [negb andb fst snd];
    try (destruct (Response_Decoded resp) as [e | user] eqn:Hdec; cbn [fst snd];
         repeat split; try congruence; try discriminate; eauto;
         try (intros [= <-]; exists resp; now auto);
         try (intros (r & [= <-] & _ & Hd); congruence);
         try (intros (r & [= <-] & [H' | H'] & _); congruence);
         intros r [= <-]; congruence).
Qed.

(** The create of alice, answered 201 with user 7. *)
Lemma upsertUser_succeeds_on_200_or_201_witness :
  fst (upsertUser world_create admin_client "POST" "" alice_7 []) = (Some alice_7, None).
Proof.
  pose proof (upsertUser_succeeds_on_200_or_201 world_create admin_client "POST" ""
                alice_7 []
                {| Request_Method := "POST";
                   Request_URL := "http://my-sftpgo.default.svc.cluster.local:8080/api/v2/users";
                   Request_BasicAuth := None;
                   Request_ContentType := None;
                   Request_Body := Some (marshal_UserPayload alice_7) |}) as H.
  cbv zeta in H. destruct H as (Hok & _).
  - vm_compute. reflexivity.
  - apply Hok.
    exists {| Response_StatusCode := StatusCreated; Response_Decoded := inr alice_7 |}.
    split; [vm_compute; reflexivity |]. split; [now right | reflexivity].
Defined.

(** X14.  [DeleteUser] succeeds exactly when the request is sent and
    answered 200; a request that cannot be built or sent, and every other
    status, 204 and 404 included, is an error. *)
Theorem DeleteUser_succeeds_only_on_200 (W : World) (c : Client)
    (username : string) (t : trace) :
  fst (DeleteUser W c username t) = None <->
  exists req resp,
    NewRequest W "DELETE" (Client_BaseURL c +:+ "/api/v2/users/" +:+ username) None
      = inr req
    /\ http_Do W t (setAuth c req) = inr resp
    /\ Response_StatusCode resp = StatusOK.
Proof.
  unfold DeleteUser.
  destruct (NewRequest W "DELETE" _ None) as [e | req].
  { split; [discriminate | intros (r & _ & H & _); discriminate]. }
  unfold bind, HTTPClient_Do, ret.
  destruct (http_Do W t (setAuth c req)) as [e | resp] eqn:Hdo; cbn [fst].
  { split; [discriminate | intros (r & resp & [= <-] & H & _); congruence]. }
  destruct (Z.eqb_spec (Response_StatusCode resp) StatusOK) as [H200 | H200];
    cbn [negb fst].
  - split; [intros _; now exists req, resp | reflexivity].
  - split; [discriminate | intros (r & resp' & [= <-] & H & H'); congruence].
Qed.

(** ** What has to come before a create *)

Lemma keeps_quiet {A} (P : Request -> Prop) (m : Run A) : quiet m -> keeps P m.
Proof. intros Hq t H. now rewrite Hq. Qed.

Lemma keeps_bind {A B} (P : Request -> Prop) (m : Run A) (k : A -> Run B) :
  keeps P m -> (forall a, keeps P (k a)) -> keeps P (bind m k).
Proof.
  intros Hm Hk t H. unfold bind. specialize (Hm t H).
  destruct (m t) as [a t1]. now apply Hk.
Qed.

Ltac keeps_step :=
  first [ apply keeps_bind; [| intros ?]
        | apply keeps_quiet;
          first [ apply quiet_ret | apply quiet_Get_Secret
                | apply quiet_Get_SftpGoServer | apply quiet_Get_SftpGoUser
                | apply quiet_Update | apply quiet_Status_Update | apply quiet_Now
                | apply quiet_fail | apply quiet_getAdminCredentials
                | apply quiet_resolvePassword | apply quiet_resolvePublicKeys ]
        | match goal with
          | |- keeps _ (match ?x with _ => _ end) => destruct x
          | |- keeps _ (if ?x then _ else _) => destruct x
          | |- keeps _ (let (_, _) := ?x in _) => destruct x
          end ].

Lemma DeleteUser_methods (W : World) (c : Client) (username : string) :
  keeps (fun r => Request_Method r = "DELETE") (DeleteUser W c username).
Proof.
  intros t Ht. unfold DeleteUser, NewRequest.
  destruct (http_NewRequest W "DELETE" _); [exact Ht |].
  unfold bind, HTTPClient_Do.
  assert (Hsent : forall req,
    Request_Method req = "DELETE" ->
    Forall (fun r => Request_Method r = "DELETE")
           (http_requests (t ++ [EvHTTP (setAuth c req)]))).
  { intros req Hm. rewrite http_requests_snoc. apply Forall_app. split; [exact Ht |].
    constructor; [now rewrite setAuth_Method | constructor]. }
  match goal with
  | |- context [http_Do W t ?r] => destruct (http_Do W t r) as [e | resp]
  end; [now apply Hsent |].
  destruct (negb _); now apply Hsent.
Qed.

Lemma deleteUserFromSFTPGO_methods (W : World) (user : SftpGoUser) :
  keeps (fun r => Request_Method r = "DELETE") (deleteUserFromSFTPGO W user).
Proof.
  unfold deleteUserFromSFTPGO. cbv zeta.
  repeat first [ apply DeleteUser_methods | keeps_step ].
Qed.

(** The part of a pass before the payload is built sends nothing but,
    for a deleted user, the DELETE. *)
Lemma Reconcile_resolve_methods (W : World) (req : NamespacedName) :
  keeps (fun r => Request_Method r = "DELETE") (Reconcile_resolve W req).
Proof.
  unfold Reconcile_resolve. cbv zeta.
  repeat first [ apply deleteUserFromSFTPGO_methods | keeps_step ].
Qed.

Lemma upsertUser_methods (W : World) (c : Client) (method suffix : string)
    (payload : UserPayload) (t : trace) :
  exists l,
    http_requests (snd (upsertUser W c method suffix payload t)) = http_requests t ++ l
    /\ Forall (fun r => Request_Method r = method) l.
Proof.
  unfold upsertUser, NewRequest. cbv zeta.
  destruct (http_NewRequest W method _).
  { exists []. rewrite app_nil_r. split; [reflexivity | constructor]. }
  unfold bind, HTTPClient_Do.
  match goal with
  | |- context [http_Do W t ?r] =>
      exists [r]; split;
      [| constructor; [cbn; now rewrite setAuth_Method | constructor]];
      destruct (http_Do W t r) as [e | resp]
  end.
  { cbn [snd ret]. now rewrite http_requests_snoc. }
  destruct (_ && _); [cbn [snd ret]; now rewrite http_requests_snoc |].
  destruct (Response_Decoded resp); cbn [snd ret]; now rewrite http_requests_snoc.
Qed.

Lemma method_of_member (m : string) (l : list Request) (r : Request) :
  Forall (fun r => Request_Method r = m) l -> In r l -> Request_Method r = m.
Proof. intros H Hin. exact (proj1 (List.Forall_forall _ l) H r Hin). Qed.

Lemma extends_ret {A} (a : A) : extends (ret a).
Proof. intros t. exists []. cbn. now rewrite app_nil_r. Qed.

Lemma extends_bind {A B} (m : Run A) (k : A -> Run B) :
  extends m -> (forall a, extends (k a)) -> extends (bind m k).
Proof.
  intros Hm Hk t. unfold bind. destruct (Hm t) as [l Hl].
  destruct (m t) as [a t1]. cbn [snd] in Hl. subst t1.
  destruct (Hk a (t ++ l)) as [l' Hl']. exists (l ++ l').
  now rewrite Hl', app_assoc.
Qed.

Lemma extends_call {A} (answer : trace -> A) (e : event) :
  extends (fun t => (answer t, t ++ [e])).
Proof. intros t. now exists [e]. Qed.

Ltac extends_step :=
  first [ apply extends_ret
        | apply extends_call
        | apply extends_bind; [| intros ?]
        | match goal with
          | |- extends (match ?x with _ => _ end) => destruct x
          end ].

Lemma extends_upsertUser (W : World) (c : Client) (method suffix : string)
    (payload : UserPayload) :
  extends (upsertUser W c method suffix payload).
Proof.
  unfold upsertUser, HTTPClient_Do. cbv zeta. repeat extends_step.
Qed.

Lemma extends_fail (W : World) (reason message phase : string) (u : SftpGoUser)
    (res : Result * option error) :
  extends (fail W reason message phase u res).
Proof.
  intros t. destruct (fail_writes W reason message phase u res t) as (w & Hrun & _).
  rewrite Hrun. now eexists.
Qed.

Lemma extends_Reconcile_finish (W : World) (u : SftpGoUser)
    (existing : option UserPayload) (err : option error) :
  extends (Reconcile_finish W u existing err).
Proof.
  unfold Reconcile_finish. destruct err; [apply extends_fail |].
  unfold Now, setCondition, Status_Update.
  apply extends_bind; [intros t; exists []; cbn; now rewrite app_nil_r | intros ?].
  apply extends_bind.
  { apply extends_bind; [intros t; exists []; cbn; now rewrite app_nil_r | intros ?].
    apply extends_ret. }
  intros ?. repeat extends_step.
Qed.

(** X15.  A user is created only after the remote service has said that
    it does not exist: whenever a POST is among the requests of a pass, the
    pass has sent a GET before it, and that GET was answered 404.  No failed
    lookup, and no lookup that found the user, is followed by a create. *)
Theorem create_follows_a_not_found (W : World) (req : NamespacedName)
    (post : Request) :
  In post (http_requests (snd (Reconcile W req []))) ->
  Request_Method post = "POST" ->
  exists (before rest : trace) (get : Request) (resp : Response),
    snd (Reconcile W req []) = before ++ EvHTTP get :: rest
    /\ Request_Method get = "GET"
    /\ http_Do W before get = inr resp
    /\ Response_StatusCode resp = StatusNotFound
    /\ In post (http_requests rest).
Proof.
  intros Hin Hpost.
  pose proof (Reconcile_resolve_methods W req [] ltac:(constructor)) as Hres.
  unfold Reconcile, bind in *.
  destruct (Reconcile_resolve W req []) as [[res | x] t] eqn:Hx; cbn [snd] in *.
  { exfalso. pose proof (method_of_member _ _ _ Hres Hin) as Hm.
    rewrite Hpost in Hm. discriminate. }
  pose proof (Reconcile_resolve_quiet W _ _ _ _ Hx) as Hq. cbn in Hq.
  unfold Reconcile_sync, bind in *.
  pose proof (GetUser_requests W (resolved_client x)
                (SftpGoUserSpec_Username (SftpGoUser_Spec (resolved_user x))) t) as Hgets.
  destruct (GetUser W (resolved_client x) _ t) as [[found err] t1] eqn:Hget.
  pose proof (GetUser_inversion W _ _ _ _ _ _ Hget) as Hinv.
  cbn [fst snd] in *.
  assert (Hg1 : Forall (fun r => Request_Method r = "GET") (http_requests t1)).
  { apply Hgets. rewrite Hq. constructor. }
  assert (Hno : forall l, In post l -> Forall (fun r => Request_Method r = "GET") l -> False).
  { intros l Hl Hall. pose proof (method_of_member _ _ _ Hall Hl) as Hm.
    rewrite Hpost in Hm. discriminate. }
  destruct err as [e |].
  { exfalso. rewrite quiet_fail in Hin. exact (Hno _ Hin Hg1). }
  destruct found as [existing |].
  - exfalso. unfold UpdateUser in Hin.
    match type of Hin with
    | context [upsertUser W ?c ?m ?s ?p t1] =>
        destruct (upsertUser_methods W c m s p t1) as (l & Hl & Hput);
        destruct (upsertUser W c m s p t1) as [r t2]
    end.
    cbn [snd] in *. rewrite quiet_Reconcile_finish, Hl in Hin.
    apply in_app_or in Hin. destruct Hin as [Hin | Hin]; [exact (Hno _ Hin Hg1) |].
    pose proof (method_of_member _ _ _ Hput Hin) as Hm.
    rewrite Hpost in Hm. discriminate.
  - destruct Hinv as (get & resp & Hdo & Hm & -> & H404).
    assert (Hrest : forall rest,
              In post (http_requests ((t ++ [EvHTTP get]) ++ rest)) ->
              In post (http_requests rest)).
    { intros rest H. unfold http_requests in H. rewrite !omap_app in H.
      fold (http_requests t) in H. rewrite Hq in H. cbn in H.
      destruct H as [<- | H]; [| exact H].
      rewrite Hpost in Hm. discriminate. }
    assert (Hfinish : forall m : Run (Result * option error),
              extends m ->
              In post (http_requests (snd (m (t ++ [EvHTTP get])))) ->
              exists (before rest : trace) (get' : Request) (resp' : Response),
                snd (m (t ++ [EvHTTP get])) = before ++ EvHTTP get' :: rest
                /\ Request_Method get' = "GET"
                /\ http_Do W before get' = inr resp'
                /\ Response_StatusCode resp' = StatusNotFound
                /\ In post (http_requests rest)).
    { intros m Hext Hin'. destruct (Hext (t ++ [EvHTTP get])) as [rest Hrun].
      exists t, rest, get, resp. rewrite Hrun in Hin' |- *. rewrite <- app_assoc.
      repeat split; try assumption. now apply Hrest. }
    destruct (_ && _).
    + apply Hfinish; [apply extends_fail | exact Hin].
    + apply (Hfinish (bind (CreateUser W (resolved_client x) (resolved_payload x))
                           (fun a => Reconcile_finish W (resolved_user x) None (snd a))));
        [| exact Hin].
      apply extends_bind; [apply extends_upsertUser |].
      intros a. apply extends_Reconcile_finish.
Qed.

(** Alice is created in [world_create]: the POST follows a 404. *)
Lemma create_follows_a_not_found_witness :
  exists (before rest : trace) (get : Request) (resp : Response),
    snd (Reconcile world_create alice_key []) = before ++ EvHTTP get :: rest
    /\ Request_Method get = "GET"
    /\ http_Do world_create before get = inr resp
    /\ Response_StatusCode resp = StatusNotFound
    /\ In (Header_Set_ContentType "application/json"
             (setAuth admin_client
                {| Request_Method := "POST";
                   Request_URL := "http://my-sftpgo.default.svc.cluster.local:8080/api/v2/users";
                   Request_BasicAuth := None;
                   Request_ContentType := None;
                   Request_Body :=
                     Some (marshal_UserPayload
                             (UserFromCR (alice_spec "s3cret" None) "s3cret" [])) |}))
          (http_requests rest).
Proof.
  apply (create_follows_a_not_found world_create alice_key
           (Header_Set_ContentType "application/json"
              (setAuth admin_client
                 {| Request_Method := "POST";
                    Request_URL := "http://my-sftpgo.default.svc.cluster.local:8080/api/v2/users";
                    Request_BasicAuth := None;
                    Request_ContentType := None;
                    Request_Body :=
                      Some (marshal_UserPayload
                              (UserFromCR (alice_spec "s3cret" None) "s3cret" [])) |}))).
  - vm_compute. right. left. reflexivity.
  - reflexivity.
Defined.

(** ** The body sent for a user *)

Lemma assoc_omit_map_eq (k : string) (m : gmap string (list string))
    (rest : list (string * json)) :
  m <> ∅ ->
  assoc_json k (omit_map k m ++ rest) =
  Some (JObj (List.map (fun kv => (fst kv, JArr (List.map JStr (snd kv))))
                       (map_to_list m))).
Proof.
  intros Hne. unfold omit_map. destruct (decide (m = ∅)); [contradiction |].
  cbn [app assoc_json]. now rewrite String.eqb_refl.
Qed.

Lemma marshal_permissions (p : UserPayload) :
  UserPayload_Permissions p <> ∅ ->
  json_field "permissions" (marshal_UserPayload p) =
  Some (JObj (List.map (fun kv => (fst kv, JArr (List.map JStr (snd kv))))
                       (map_to_list (UserPayload_Permissions p)))).
Proof.
  intros Hne. unfold marshal_UserPayload, json_field.
  do 8 skip_member. now apply assoc_omit_map_eq.
Qed.

(** X16.  Every body carries permissions, and only for the root path: the
    permissions of the spec, or all permissions when the spec lists none. *)
Theorem permissions_default_to_all (spec : SftpGoUserSpec) (password : string)
    (publicKeys : list string) :
  json_field "permissions" (marshal_UserPayload (UserFromCR spec password publicKeys)) =
  Some (JObj [("/", JArr (List.map JStr
                            (match SftpGoUserSpec_Permissions spec with
                             | [] => ["*"]
                             | perms => perms
                             end)))]).
Proof.
  rewrite marshal_permissions.
  - cbn [UserFromCR UserPayload_Permissions].
    destruct (SftpGoUserSpec_Permissions spec); now rewrite map_to_list_singleton.
  - cbn [UserFromCR UserPayload_Permissions].
    destruct (SftpGoUserSpec_Permissions spec); apply insert_non_empty.
Qed.

Lemma marshal_status (p : UserPayload) :
  json_field "status" (marshal_UserPayload p) = Some (JNum (UserPayload_Status p)).
Proof.
  unfold marshal_UserPayload, json_field.
  do 2 skip_member. rewrite assoc_json_app. cbn [assoc_json].
  now rewrite String.eqb_refl.
Qed.

(** X17.  The status is always sent, also when it is 0, and it is 0 for
    exactly one spelling of the spec's status: any other value, the empty
    one included, leaves the user enabled. *)
Theorem only_disabled_disables (spec : SftpGoUserSpec) (password : string)
    (publicKeys : list string) :
  (SftpGoUserSpec_Status spec = "disabled" /\
   json_field "status" (marshal_UserPayload (UserFromCR spec password publicKeys))
   = Some (JNum 0))
  \/
  (SftpGoUserSpec_Status spec <> "disabled" /\
   json_field "status" (marshal_UserPayload (UserFromCR spec password publicKeys))
   = Some (JNum 1)).
Proof.
  rewrite marshal_status. cbn [UserFromCR UserPayload_Status].
  destruct (String.eqb_spec (SftpGoUserSpec_Status spec) "disabled"); auto.
Qed.

Lemma marshal_max_sessions (p : UserPayload) :
  json_field "max_sessions" (marshal_UserPayload p) =
  if UserPayload_MaxSessions p =? 0 then None
  else Some (JNum (UserPayload_MaxSessions p)).
Proof.
  unfold marshal_UserPayload, json_field.
  do 13 skip_member. rewrite assoc_omit_num_eq.
  destruct (UserPayload_MaxSessions p =? 0); [| reflexivity].
  repeat skip_member. apply assoc_omit_list_ne. reflexivity.
Qed.

(** X18.  A session limit reaches the remote service only when it is
    positive: zero and negative limits are both left out of the body, which
    the service reads as no limit. *)
Theorem max_sessions_sent_only_when_positive (spec : SftpGoUserSpec)
    (password : string) (publicKeys : list string) :
  json_field "max_sessions" (marshal_UserPayload (UserFromCR spec password publicKeys)) =
  if 0 <? SftpGoUserSpec_MaxSessions spec
  then Some (JNum (SftpGoUserSpec_MaxSessions spec))
  else None.
Proof.
  rewrite marshal_max_sessions. cbn [UserFromCR UserPayload_MaxSessions].
  destruct (Z.ltb_spec 0 (SftpGoUserSpec_MaxSessions spec)) as [H | H];
    [| reflexivity].
  destruct (Z.eqb_spec (SftpGoUserSpec_MaxSessions spec) 0); [lia | reflexivity].
Qed.

(** ** Public keys read from a secret *)

Lemma SplitLines_not_nil (s : string) : SplitLines s <> [].
Proof.
  induction s as [| c r IH]; cbn [SplitLines]; [discriminate |].
  destruct (Ascii.eqb c (ascii_of_nat 10)); [discriminate |].
  destruct (SplitLines r); discriminate.
Qed.

(** [strings.Split] cuts at every line feed: the pieces of two texts joined
    by a line feed are the pieces of the one followed by those of the other. *)
Lemma SplitLines_app (a b : string) :
  SplitLines (a +:+ String line_feed b) = SplitLines a ++ SplitLines b.
Proof.
  induction a as [| c r IH].
  - change (EmptyString +:+ String line_feed b) with (String line_feed b).
    reflexivity.
  - change (String c r +:+ String line_feed b)
      with (String c (r +:+ String line_feed b)).
    cbn [SplitLines]. rewrite IH.
    destruct (Ascii.eqb c (ascii_of_nat 10)); [reflexivity |].
    pose proof (SplitLines_not_nil r) as Hne.
    destruct (SplitLines r); [contradiction | reflexivity].
Qed.

Lemma SplitLines_one (s : string) : no_line_feed s -> SplitLines s = [s].
Proof.
  unfold no_line_feed. induction s as [| c r IH]; [reflexivity |].
  cbn [list_ascii_of_string SplitLines]. intros Hno.
  destruct (Ascii.eqb_spec c (ascii_of_nat 10)) as [-> | Hc].
  - exfalso. apply Hno. now left.
  - rewrite IH; [reflexivity |]. intros Hin. apply Hno. now right.
Qed.

Lemma SplitLines_no_line_feed (s piece : string) :
  In piece (SplitLines s) -> no_line_feed piece.
Proof.
  unfold no_line_feed. revert piece.
  induction s as [| c r IH]; cbn [SplitLines]; intros piece Hin.
  - destruct Hin as [<- | []]. intros [].
  - destruct (Ascii.eqb_spec c (ascii_of_nat 10)) as [-> | Hc].
    + destruct Hin as [<- | Hin]; [intros [] | now apply IH].
    + pose proof (SplitLines_not_nil r) as Hne.
      destruct (SplitLines r) as [| p ps]; [contradiction |].
      destruct Hin as [<- | Hin].
      * cbn [list_ascii_of_string]. intros [Heq | Hp]; [now apply Hc |].
        apply (IH p); [now left | exact Hp].
      * apply IH. now right.
Qed.

Lemma strip_prefix_suffix (p : list nat) (s r : list ascii) :
  strip_prefix p s = Some r -> forall c, In c r -> In c s.
Proof.
  revert s. induction p as [| b p IH]; intros s.
  - destruct s; intros [= <-]; auto.
  - destruct s as [| c' s]; cbn [strip_prefix]; [discriminate |].
    destruct (Nat.eqb b (nat_of_ascii c')); [| discriminate].
    intros H c Hc. right. exact (IH s H c Hc).
Qed.

Lemma strip_any_suffix (ps : list (list nat)) (s r : list ascii) :
  strip_any ps s = Some r -> forall c, In c r -> In c s.
Proof.
  induction ps as [| p ps IH]; cbn [strip_any]; [discriminate |].
  destruct (strip_prefix p s) as [r' |] eqn:E; [| exact IH].
  intros [= <-]. exact (strip_prefix_suffix p s r' E).
Qed.

Lemma trim_left_fuel_suffix (fuel : nat) (ps : list (list nat)) (s : list ascii) :
  forall c, In c (trim_left_fuel fuel ps s) -> In c s.
Proof.
  revert s. induction fuel as [| f IH]; intros s c; cbn [trim_left_fuel]; [auto |].
  destruct (strip_any ps s) as [r |] eqn:E; [| auto].
  intros H. exact (strip_any_suffix ps s r E c (IH r c H)).
Qed.

(** [strings.TrimSpace] only removes: a byte of the result is a byte of
    the argument. *)
Lemma TrimSpace_bytes (s : string) (c : ascii) :
  In c (list_ascii_of_string (TrimSpace s)) -> In c (list_ascii_of_string s).
Proof.
  unfold TrimSpace, trim_left. cbv zeta.
  rewrite list_ascii_of_string_of_list_ascii. intros H.
  apply in_rev in H. apply trim_left_fuel_suffix in H.
  apply in_rev in H. now apply trim_left_fuel_suffix in H.
Qed.

(** X19.  The keys read from a secret value are what a line-by-line reader
    expects: no key is empty, none is a comment, and none spans lines. *)
Theorem keysOfLines_keys_are_single_lines (raw k : string) :
  In k (keysOfLines raw) ->
  k <> "" /\ HasPrefix k "#" = false /\ no_line_feed k.
Proof.
  unfold keysOfLines. intros H. apply filter_In in H. destruct H as [Hin Hkeep].
  apply andb_prop in Hkeep. destruct Hkeep as [Hne Hcomment].
  repeat split.
  - intros ->. discriminate.
  - now apply negb_true_iff in Hcomment.
  - apply in_map_iff in Hin. destruct Hin as (line & <- & Hline).
    intros Hlf. apply TrimSpace_bytes in Hlf.
    exact (SplitLines_no_line_feed raw line Hline Hlf).
Qed.

Lemma keysOfLines_keys_are_single_lines_witness :
  "ssh-ed25519 AAAA alice" <> ""
  /\ HasPrefix "ssh-ed25519 AAAA alice" "#" = false
  /\ no_line_feed "ssh-ed25519 AAAA alice".
Proof.
  apply (keysOfLines_keys_are_single_lines
           ("# laptop" +:+ String line_feed "  ssh-ed25519 AAAA alice ")).
  vm_compute. left. reflexivity.
Defined.

(** X20.  Lines are read independently of each other: the keys of two
    texts joined by a line feed are the keys of the first followed by the keys
    of the second. *)
Theorem keysOfLines_reads_line_by_line (a b : string) :
  keysOfLines (a +:+ String line_feed b) = keysOfLines a ++ keysOfLines b.
Proof.
  unfold keysOfLines. now rewrite SplitLines_app, map_app, List.filter_app.
Qed.

Lemma keysOfLines_clean (k : string) : clean_key k -> keysOfLines k = [k].
Proof.
  intros (Htrim & Hne & Hcomment & Hlf). unfold keysOfLines.
  rewrite (SplitLines_one k Hlf). cbn [List.map List.filter].
  rewrite Htrim, Hcomment.
  destruct (String.eqb_spec k ""); [contradiction | reflexivity].
Qed.

(** X21.  Keys written one per line come back as they were written: for
    clean keys, reading the text that joins them with line feeds gives the
    same keys in the same order, and a line feed after the last one changes
    nothing. *)
Theorem keysOfLines_round_trip (ks : list string) :
  Forall clean_key ks ->
  keysOfLines (String.concat (String line_feed "") ks) = ks
  /\ keysOfLines (String.concat (String line_feed "") ks +:+ String line_feed "") = ks.
Proof.
  intros Hks.
  assert (Happ : forall a b,
            keysOfLines (a +:+ String line_feed b) = keysOfLines a ++ keysOfLines b).
  { intros a b. unfold keysOfLines.
    now rewrite SplitLines_app, map_app, List.filter_app. }
  assert (Hjoin : keysOfLines (String.concat (String line_feed "") ks) = ks).
  { induction Hks as [| k ks Hk Hks IH]; [reflexivity |].
    destruct ks as [| k' ks'].
    - now apply keysOfLines_clean.
    - change (String.concat (String line_feed "") (k :: k' :: ks'))
        with (k +:+ String line_feed (String.concat (String line_feed "") (k' :: ks'))).
      rewrite Happ, IH.
      now rewrite (keysOfLines_clean k Hk). }
  split; [exact Hjoin |].
  rewrite Happ, Hjoin. apply app_nil_r.
Qed.

Lemma keysOfLines_round_trip_witness :
  keysOfLines (String.concat (String line_feed "")
                 ["ssh-ed25519 AAAA alice"; "ssh-rsa BBBB alice@work"])
  = ["ssh-ed25519 AAAA alice"; "ssh-rsa BBBB alice@work"]
  /\ keysOfLines (String.concat (String line_feed "")
                    ["ssh-ed25519 AAAA alice"; "ssh-rsa BBBB alice@work"]
                  +:+ String line_feed "")
  = ["ssh-ed25519 AAAA alice"; "ssh-rsa BBBB alice@work"].
Proof.
  apply (keysOfLines_round_trip
           ["ssh-ed25519 AAAA alice"; "ssh-rsa BBBB alice@work"]).
  repeat constructor; try (vm_compute; congruence);
    intros H; vm_compute in H; intuition congruence.
Defined.

(** ** The children of a server fit together *)

(** X22.  The Service reaches the pods of the Deployment: both live in the
    server's namespace, the Service selects by the labels the pod template
    carries, which are the labels the Deployment selects by, and the Service
    forwards each of its ports to the port of the same name of the one
    container. *)
Theorem service_reaches_the_pods (s : SftpGoServer) :
  let d := deploymentForServer s in
  let svc := serviceForServer s in
  Service_Namespace svc = Deployment_Namespace d
  /\ Service_Selector svc = Deployment_TemplateLabels d
  /\ Deployment_Selector d = Deployment_TemplateLabels d
  /\ exists c : Container,
       Deployment_Containers d = [c]
       /\ List.map (fun p => (ServicePort_Name p, ServicePort_TargetPort p,
                              ServicePort_Protocol p)) (Service_Ports svc)
          = List.map (fun p => (ContainerPort_Name p, ContainerPort_ContainerPort p,
                                ContainerPort_Protocol p)) (Container_Ports c).
Proof.
  unfold deploymentForServer, serviceForServer. cbv zeta.
  destruct (SftpGoServerSpec_DataVolume (applyDefaults s));
    cbn [Service_Namespace Deployment_Namespace Service_Selector
         Deployment_TemplateLabels Deployment_Selector Deployment_Containers
         Service_Ports];
    (split; [reflexivity |]); (split; [reflexivity |]); (split; [reflexivity |]);
    eexists; split; reflexivity.
Qed.

(** X23.  The Deployment is wired to the other two children.  Its volumes
    are the ConfigMap of the server and, under the name [data], the claim of
    [pvcForServer] when there is one and scratch space otherwise; the one
    container mounts exactly these volumes, the configuration read-only, and
    the file it is told to read is a key of the ConfigMap under that mount. *)
Theorem deployment_mounts_the_other_children
    (ParseQuantity : string -> Quantity * option error) (s : SftpGoServer) :
  let d := deploymentForServer s in
  let cm := configMapForServer s in
  Deployment_Namespace d = ConfigMap_Namespace cm
  /\ Deployment_Volumes d =
       [ {| Volume_Name := "config";
            Volume_VolumeSource := ConfigMapVolumeSource (ConfigMap_Name cm) |};
         {| Volume_Name := "data";
            Volume_VolumeSource :=
              match pvcForServer ParseQuantity s with
              | Some pvc =>
                  PersistentVolumeClaimVolumeSource (PersistentVolumeClaim_Name pvc)
              | None => EmptyDirVolumeSource
              end |} ]
  /\ (forall pvc, pvcForServer ParseQuantity s = Some pvc ->
        PersistentVolumeClaim_Namespace pvc = Deployment_Namespace d)
  /\ exists (c : Container) (m : VolumeMount) (file text : string),
       Deployment_Containers d = [c]
       /\ List.map VolumeMount_Name (Container_VolumeMounts c)
          = List.map Volume_Name (Deployment_Volumes d)
       /\ In m (Container_VolumeMounts c)
       /\ VolumeMount_Name m = "config"
       /\ VolumeMount_ReadOnly m = true
       /\ ConfigMap_Data cm !! file = Some text
       /\ In (VolumeMount_MountPath m +:+ "/" +:+ file) (Container_Args c).
Proof.
  unfold deploymentForServer, configMapForServer, pvcForServer. cbv zeta.
  change (SftpGoServerSpec_DataVolume (applyDefaults s))
    with (SftpGoServerSpec_DataVolume (SftpGoServer_Spec s)).
  destruct (SftpGoServerSpec_DataVolume (SftpGoServer_Spec s)) as [v |];
    cbn [Deployment_Namespace ConfigMap_Namespace Deployment_Volumes ConfigMap_Name
         ConfigMap_Data Deployment_Containers PersistentVolumeClaim_Name app];
    (split; [reflexivity |]); (split; [reflexivity |]);
    (split; [first [intros pvc [= <-]; reflexivity | intros pvc; discriminate] |]);
    (eexists _, {| VolumeMount_Name := "config"; VolumeMount_MountPath := "/etc/sftpgo";
                   VolumeMount_ReadOnly := true |}, "sftpgo.json", _);
    (split; [reflexivity |]);
    (split; [reflexivity |]);
    (split; [left; reflexivity |]);
    (split; [reflexivity |]); (split; [reflexivity |]);
    (split; [apply lookup_singleton_eq |]);
    cbn; auto.
Qed.

(** X24.  The operator logs in as the administrator the container was
    started with: the two environment variables of the container take the
    name and the password of the default administrator from the secret the
    server names, and [getAdminCredentials] reads the same secret, in the
    server's namespace, under the same two keys. *)
Theorem operator_logs_in_as_the_container_admin (W : World) (server : SftpGoServer)
    (t : trace) (ref : LocalObjectReference) (secret : Secret) :
  SftpGoServerSpec_AdminSecretRef (SftpGoServer_Spec server) = Some ref ->
  LocalObjectReference_Name ref <> "" ->
  kube_Get_Secret W t
    {| NamespacedName_Name := LocalObjectReference_Name ref;
       NamespacedName_Namespace := Namespace (SftpGoServer_ObjectMeta server) |}
    = inr secret ->
  Deployment_Namespace (deploymentForServer server)
    = Namespace (SftpGoServer_ObjectMeta server)
  /\ exists (c : Container) (u p : EnvVar),
       Deployment_Containers (deploymentForServer server) = [c]
       /\ Container_Env c = [u; p]
       /\ EnvVar_Name u = "SFTPGO_DEFAULT_ADMIN_USERNAME"
       /\ EnvVar_Name p = "SFTPGO_DEFAULT_ADMIN_PASSWORD"
       /\ SecretKeySelector_Name (EnvVar_SecretKeyRef u) = LocalObjectReference_Name ref
       /\ SecretKeySelector_Name (EnvVar_SecretKeyRef p) = LocalObjectReference_Name ref
       /\ fst (getAdminCredentials W server t)
          = (Secret_string secret (SecretKeySelector_Key (EnvVar_SecretKeyRef u)),
             Secret_string secret (SecretKeySelector_Key (EnvVar_SecretKeyRef p)),
             None).
Proof.
  intros Href Hname Hsecret.
  unfold deploymentForServer, getAdminCredentials. cbv zeta.
  change (SftpGoServerSpec_AdminSecretRef (applyDefaults server))
    with (SftpGoServerSpec_AdminSecretRef (SftpGoServer_Spec server)).
  rewrite Href.
  destruct (String.eqb_spec (LocalObjectReference_Name ref) ""); [contradiction |].
  unfold bind, Get_Secret. rewrite Hsecret.
  destruct (SftpGoServerSpec_DataVolume (applyDefaults server));
    cbn [Deployment_Namespace Deployment_Containers];
    (split; [reflexivity |]);
    (do 3 eexists); (split; [reflexivity |]);
    cbn [Container_Env]; repeat split.
Qed.

Lemma operator_logs_in_as_the_container_admin_witness :
  Deployment_Namespace (deploymentForServer my_sftpgo) = "default"
  /\ exists (c : Container) (u p : EnvVar),
       Deployment_Containers (deploymentForServer my_sftpgo) = [c]
       /\ Container_Env c = [u; p]
       /\ EnvVar_Name u = "SFTPGO_DEFAULT_ADMIN_USERNAME"
       /\ EnvVar_Name p = "SFTPGO_DEFAULT_ADMIN_PASSWORD"
       /\ SecretKeySelector_Name (EnvVar_SecretKeyRef u) = "sftpgo-admin-secret"
       /\ SecretKeySelector_Name (EnvVar_SecretKeyRef p) = "sftpgo-admin-secret"
       /\ fst (getAdminCredentials world_update my_sftpgo [])
          = (Secret_string admin_secret (SecretKeySelector_Key (EnvVar_SecretKeyRef u)),
             Secret_string admin_secret (SecretKeySelector_Key (EnvVar_SecretKeyRef p)),
             None).
Proof.
  apply (operator_logs_in_as_the_container_admin world_update my_sftpgo []
           {| LocalObjectReference_Name := "sftpgo-admin-secret" |} admin_secret).
  - reflexivity.
  - discriminate.
  - vm_compute. reflexivity.
Defined.

(** X25.  The user reconciler dials the port the Service exposes unless the
    HTTP block of the configuration overrides it: for a top-level web port
    that is not negative, the port named [web] of the Service is the port of
    [apiPort] exactly when no positive [Config.HTTP.Port] differs from it. *)
Theorem dialled_port_is_the_service_port (s : SftpGoServer) :
  0 <= SftpGoServerSpec_WebPort (SftpGoServer_Spec s) ->
  port_named "web" (serviceForServer s) = Some (apiPort s)
  <->
  (forall c, SFTPGOConfig_HTTP (SftpGoServerSpec_Config (SftpGoServer_Spec s)) = Some c ->
             0 < HTTPConfig_Port c -> HTTPConfig_Port c = apiPort s).
Proof.
  intros Hweb. unfold port_named, serviceForServer, apiPort, getWebPort, applyDefaults.
  cbn [Service_Ports List.find ServicePort_Name ServicePort_Port String.eqb
       Ascii.eqb Bool.eqb SftpGoServerSpec_Config SftpGoServerSpec_WebPort].
  assert (Hdefault :
    (if SftpGoServerSpec_WebPort (SftpGoServer_Spec s) =? 0 then 8080
     else SftpGoServerSpec_WebPort (SftpGoServer_Spec s))
    = (if 0 <? SftpGoServerSpec_WebPort (SftpGoServer_Spec s)
       then SftpGoServerSpec_WebPort (SftpGoServer_Spec s) else 8080)).
  { destruct (Z.eqb_spec (SftpGoServerSpec_WebPort (SftpGoServer_Spec s)) 0),
             (Z.ltb_spec 0 (SftpGoServerSpec_WebPort (SftpGoServer_Spec s))); lia. }
  destruct (SFTPGOConfig_HTTP (SftpGoServerSpec_Config (SftpGoServer_Spec s))) as [c |].
  - destruct (Z.ltb_spec 0 (HTTPConfig_Port c)) as [Hpos | Hneg].
    + split.
      * intros [= H] c' [= <-] _. exact H.
      * intros H. f_equal. now apply H.
    + rewrite Hdefault. split; [| reflexivity].
      intros _ c' [= <-] Hpos. lia.
  - rewrite Hdefault. split; [| reflexivity]. intros _ c' [=].
Qed.

(** The README server: the Service exposes 8080 and 8080 is dialled; with
    an HTTP block on 9090 the Service exposes 9090 and 8080 is still dialled. *)
Lemma dialled_port_is_the_service_port_witness :
  (port_named "web" (serviceForServer my_sftpgo) = Some (apiPort my_sftpgo)
   <-> (forall c, SFTPGOConfig_HTTP (SftpGoServerSpec_Config (SftpGoServer_Spec my_sftpgo))
                  = Some c -> 0 < HTTPConfig_Port c -> HTTPConfig_Port c = apiPort my_sftpgo))
  /\ (port_named "web" (serviceForServer (my_sftpgo_http 9090))
        = Some (apiPort (my_sftpgo_http 9090))
      <-> (forall c, SFTPGOConfig_HTTP
                       (SftpGoServerSpec_Config (SftpGoServer_Spec (my_sftpgo_http 9090)))
                     = Some c -> 0 < HTTPConfig_Port c ->
                     HTTPConfig_Port c = apiPort (my_sftpgo_http 9090))).
Proof.
  split.
  - apply (dialled_port_is_the_service_port my_sftpgo). vm_compute. discriminate.
  - apply (dialled_port_is_the_service_port (my_sftpgo_http 9090)).
    vm_compute. discriminate.
Defined.

(** X26.  Defaulting is idempotent, and the children do not depend on who
    applied the defaults: a server whose spec already holds the defaults
    gets the same defaults, ConfigMap, Deployment, claim and Service. *)
Theorem defaults_written_back_change_nothing
    (ParseQuantity : string -> Quantity * option error) (s : SftpGoServer) :
  let s' := with_Spec (applyDefaults s) s in
  applyDefaults s' = applyDefaults s
  /\ configMapForServer s' = configMapForServer s
  /\ deploymentForServer s' = deploymentForServer s
  /\ pvcForServer ParseQuantity s' = pvcForServer ParseQuantity s
  /\ serviceForServer s' = serviceForServer s.
Proof.
  cbv zeta.
  assert (H : applyDefaults (with_Spec (applyDefaults s) s) = applyDefaults s).
  { unfold applyDefaults, with_Spec.
    cbn [SftpGoServer_Spec SftpGoServerSpec_Image SftpGoServerSpec_Replicas
         SftpGoServerSpec_SFTPPort SftpGoServerSpec_WebPort
         SftpGoServerSpec_StorageBackend SftpGoServerSpec_ImagePullPolicy
         SftpGoServerSpec_ServiceAccount SftpGoServerSpec_Config
         SftpGoServerSpec_DataVolume SftpGoServerSpec_AdminSecretRef].
    f_equal.
    - destruct (String.eqb_spec (SftpGoServerSpec_Image (SftpGoServer_Spec s)) "") as [E | E];
        [reflexivity |].
      now destruct (String.eqb_spec (SftpGoServerSpec_Image (SftpGoServer_Spec s)) "").
    - now destruct (SftpGoServerSpec_Replicas (SftpGoServer_Spec s)).
    - destruct (Z.eqb_spec (SftpGoServerSpec_SFTPPort (SftpGoServer_Spec s)) 0) as [E | E];
        [reflexivity |].
      now destruct (Z.eqb_spec (SftpGoServerSpec_SFTPPort (SftpGoServer_Spec s)) 0).
    - destruct (Z.eqb_spec (SftpGoServerSpec_WebPort (SftpGoServer_Spec s)) 0) as [E | E];
        [reflexivity |].
      now destruct (Z.eqb_spec (SftpGoServerSpec_WebPort (SftpGoServer_Spec s)) 0).
    - destruct (String.eqb_spec (SftpGoServerSpec_StorageBackend (SftpGoServer_Spec s)) "")
        as [E | E]; [reflexivity |].
      now destruct (String.eqb_spec (SftpGoServerSpec_StorageBackend (SftpGoServer_Spec s)) ""). }
  split; [exact H |].
  unfold configMapForServer, deploymentForServer, serviceForServer, pvcForServer.
  rewrite H. repeat split.
Qed.

(** ** A pass of the server reconciler *)

Lemma pvcForServer_Some (P : string -> Quantity * option error) (s : SftpGoServer)
    (v : VolumeConfig) :
  SftpGoServerSpec_DataVolume (applyDefaults s) = Some v ->
  exists pvc, pvcForServer P s = Some pvc.
Proof.
  unfold pvcForServer. cbn [applyDefaults SftpGoServerSpec_DataVolume].
  intros ->. eexists. reflexivity.
Qed.

Lemma pvcForServer_None (P : string -> Quantity * option error) (s : SftpGoServer) :
  SftpGoServerSpec_DataVolume (applyDefaults s) = None ->
  pvcForServer P s = None.
Proof.
  unfold pvcForServer. cbn [applyDefaults SftpGoServerSpec_DataVolume].
  now intros ->.
Qed.

(** Runs a pass symbolically: one goal for every way through [Reconcile],
    with the answers of the cluster along that way as hypotheses. *)
Ltac server_pass W Hget :=
  unfold ServerReconciler.Reconcile, ServerReconciler.Reconcile_deployment,
    ServerReconciler.Reconcile_service_and_status, ServerReconciler.degraded,
    ServerReconciler.setCondition, ServerReconciler.createOrUpdate,
    ServerReconciler.Get, ServerReconciler.Update, ServerReconciler.Status_Update,
    ServerReconciler.Get_Deployment, ServerReconciler.Now,
    ServerReconciler.bind, ServerReconciler.ret;
  cbn [app]; rewrite Hget;
  match goal with
  | |- context [ServerReconciler.ContainsFinalizer ?s ?f] =>
      destruct (ServerReconciler.ContainsFinalizer s f) eqn:Hfinalizer
  end;
  cbn [negb];
  repeat match goal with
         | |- context [match ?x with _ => _ end] => destruct x eqn:?
         end;
  cbn [fst snd app] in *;
  try match goal with
      | Hv : SftpGoServerSpec_DataVolume (applyDefaults ?s) = Some ?v,
        Hp : pvcForServer ?P ?s = None |- _ =>
          exfalso; destruct (pvcForServer_Some P s v Hv) as [? Hsome];
          rewrite Hsome in Hp; discriminate Hp
      end;
  try match goal with
      | Hv : SftpGoServerSpec_DataVolume (applyDefaults ?s) = None |- _ =>
          pose proof (pvcForServer_None (ServerReconciler.resource_ParseQuantity W) s Hv)
      end.

(** The children of a server, once the claim is known. *)
Ltac known_children :=
  unfold children;
  try match goal with
      | H : pvcForServer _ _ = _ |- _ => rewrite H
      end;
  cbn [app applied server_status_writes server_object_writes omap list_omap].

(** X27.  A pass on a server that was found never panics, and it applies
    the children in one order: the ConfigMap, the claim when the spec has a
    data volume, the Deployment, the Service.  What it has applied is always
    a prefix of that list, each child with the server as owner, and a pass
    that returns without an error has applied all of them or none. *)
Theorem children_are_applied_in_order (W : ServerReconciler.World)
    (req : NamespacedName) (server : SftpGoServer) :
  ServerReconciler.kube_Get W [] req = inr server ->
  let out := fst (ServerReconciler.Reconcile W req []) in
  let t := snd (ServerReconciler.Reconcile W req []) in
  out <> ServerReconciler.Panic
  /\ applied t `prefix_of` children W server
  /\ (forall res, out = ServerReconciler.Return res None ->
        applied t = [] \/ applied t = children W server)
  /\ Forall (fun e => match e with
                      | ServerReconciler.EvCreateOrUpdate owner _ => owner = server
                      | _ => True
                      end) t.
Proof.
  intros Hget. cbv zeta.
  server_pass W Hget; known_children;
    (split; [discriminate |]);
    (split; [eexists; reflexivity |]);
    (split; [| repeat (apply List.Forall_cons; [reflexivity || exact I |]);
               apply List.Forall_nil]);
    intros res Hres; first [discriminate Hres | now left | now right].
Qed.

Lemma children_are_applied_in_order_witness :
  fst (ServerReconciler.Reconcile world_server_ok my_sftpgo_key [])
    <> ServerReconciler.Panic
  /\ applied (snd (ServerReconciler.Reconcile world_server_ok my_sftpgo_key []))
       `prefix_of` children world_server_ok my_sftpgo
  /\ (forall res,
        fst (ServerReconciler.Reconcile world_server_ok my_sftpgo_key [])
          = ServerReconciler.Return res None ->
        applied (snd (ServerReconciler.Reconcile world_server_ok my_sftpgo_key [])) = []
        \/ applied (snd (ServerReconciler.Reconcile world_server_ok my_sftpgo_key []))
           = children world_server_ok my_sftpgo)
  /\ Forall (fun e => match e with
                      | ServerReconciler.EvCreateOrUpdate owner _ => owner = my_sftpgo
                      | _ => True
                      end)
            (snd (ServerReconciler.Reconcile world_server_ok my_sftpgo_key [])).
Proof.
  apply (children_are_applied_in_order world_server_ok my_sftpgo_key my_sftpgo).
  vm_compute. reflexivity.
Defined.

Lemma degraded_is_only_degraded (now : Time) (reason message : string)
    (server : SftpGoServer) :
  only_degraded reason message server
    (ServerReconciler.set_Conditions
       (SetStatusCondition now
          (SftpGoServerStatus_Conditions (SftpGoServer_Status server))
          (condition "Degraded" ConditionTrue reason message))
       server).
Proof.
  unfold only_degraded.
  cbn [ServerReconciler.set_Conditions ServerReconciler.SftpGoServer_set_Status
       SftpGoServer_ObjectMeta SftpGoServer_Spec SftpGoServer_Status
       SftpGoServerStatus_Phase SftpGoServerStatus_Ports SftpGoServerStatus_Replicas
       SftpGoServerStatus_ReadyReplicas SftpGoServerStatus_Conditions].
  repeat (split; [reflexivity |]). split.
  - intros ty Hty. now apply Find_after_Set_other.
  - exact (Find_after_Set now _ (condition "Degraded" ConditionTrue reason message)).
Qed.

(** Finds where a trace that is known was cut. *)
Ltac split_trace H t1 :=
  destruct t1 as [| ? t1]; cbn [app] in H;
  [ first [ discriminate H | injection H as ? ?; subst ]
  | first [ discriminate H | injection H as ? H; subst; split_trace H t1 ] ].

(** X28.  A call that fails ends the pass.  Whichever child is refused,
    and also when the Deployment cannot be read back, the pass returns that
    error and applies nothing more.  Only a refused ConfigMap or Deployment
    is recorded: one status write follows, which sets the Degraded condition,
    with the error as message, and changes nothing else.  A refused claim, a
    refused Service and an unreadable Deployment leave the status untouched. *)
Theorem a_failed_call_ends_the_pass (W : ServerReconciler.World)
    (req : NamespacedName) (server : SftpGoServer)
    (before : ServerReconciler.trace) (e : ServerReconciler.event)
    (rest : ServerReconciler.trace) (err : error) :
  ServerReconciler.kube_Get W [] req = inr server ->
  snd (ServerReconciler.Reconcile W req []) = before ++ e :: rest ->
  failed W before e err ->
  fst (ServerReconciler.Reconcile W req [])
    = ServerReconciler.Return (mkResult false) (Some err)
  /\ aftermath server err e rest.
Proof.
  intros Hget. revert before e rest err.
  server_pass W Hget; intros before ev rest err Hcut Hfailed;
    split_trace Hcut before; cbn [failed] in Hfailed;
    try contradiction; try congruence;
    match goal with
    | H : ?call = Some ?e0 |- _ =>
        match type of Hfailed with call = Some err =>
          assert (e0 = err) by congruence; subst e0
        end
    | H : ?call = inl ?e0 |- _ =>
        match type of Hfailed with call = inl err =>
          assert (e0 = err) by congruence; subst e0
        end
    end;
    (split; [reflexivity |]); cbn [aftermath];
    first [ reflexivity
          | eexists; split; [reflexivity | apply degraded_is_only_degraded] ].
Qed.

(** The claim of the README server is refused: the pass stops there. *)
Lemma a_failed_call_ends_the_pass_witness :
  fst (ServerReconciler.Reconcile world_claim_refused my_sftpgo_key [])
    = ServerReconciler.Return (mkResult false) (Some (Errorf "storage class not found"))
  /\ aftermath my_sftpgo (Errorf "storage class not found")
       (nth 2 (snd (ServerReconciler.Reconcile world_claim_refused my_sftpgo_key []))
            (ServerReconciler.EvGet my_sftpgo_key))
       (skipn 3 (snd (ServerReconciler.Reconcile world_claim_refused my_sftpgo_key []))).
Proof.
  apply (a_failed_call_ends_the_pass world_claim_refused my_sftpgo_key my_sftpgo
           (firstn 2 (snd (ServerReconciler.Reconcile world_claim_refused my_sftpgo_key [])))).
  - vm_compute. reflexivity.
  - vm_compute. reflexivity.
  - vm_compute. reflexivity.
Defined.

Lemma reconciled_status (now : Time) (server : SftpGoServer)
    (deployment : ServerReconciler.DeploymentStatus) :
  reconciled server deployment
    (let server' :=
       ServerReconciler.set_Ports
         {| ServicePorts_SFTP := getSFTPPort (applyDefaults server);
            ServicePorts_Web := getWebPort (applyDefaults server);
            ServicePorts_HTTP := getWebPort (applyDefaults server);
            ServicePorts_FTP := 0 |}
         (ServerReconciler.set_Phase "Running"
            (ServerReconciler.set_Conditions
               (SetStatusCondition now
                  (SftpGoServerStatus_Conditions (SftpGoServer_Status server))
                  (condition "Ready" ConditionTrue "Reconciled" ""))
               server)) in
     if 0 <? ServerReconciler.DeploymentStatus_Replicas deployment
     then ServerReconciler.set_Replicas
            (ServerReconciler.DeploymentStatus_Replicas deployment)
            (ServerReconciler.DeploymentStatus_ReadyReplicas deployment) server'
     else server').
Proof.
  unfold reconciled. cbv zeta.
  destruct (0 <? ServerReconciler.DeploymentStatus_Replicas deployment);
    cbn [ServerReconciler.set_Conditions ServerReconciler.set_Phase
         ServerReconciler.set_Ports ServerReconciler.set_Replicas
         ServerReconciler.SftpGoServer_set_Status
         SftpGoServer_ObjectMeta SftpGoServer_Spec SftpGoServer_Status
         SftpGoServerStatus_Phase SftpGoServerStatus_Ports SftpGoServerStatus_Replicas
         SftpGoServerStatus_ReadyReplicas SftpGoServerStatus_Conditions
         ServicePorts_SFTP ServicePorts_Web ServicePorts_HTTP ServicePorts_FTP];
    repeat (split; [reflexivity |]);
    (split; [intros ty Hty; now apply Find_after_Set_other |]);
    destruct (Find_after_Set now
                (SftpGoServerStatus_Conditions (SftpGoServer_Status server))
                (condition "Ready" ConditionTrue "Reconciled" ""))
      as (c & Hc & Hstatus & Hreason & _);
    exists c; auto.
Qed.

(** X29.  A pass that goes through ends with one status write, and that
    write is its last call: for a server that has its finalizer and is not
    being deleted, a pass that returns without an error has read the
    Deployment back, applied the Service and then written the status: Ready,
    phase Running, the ports of the Service, the replica counters of the
    Deployment when it has any replica and the old counters otherwise.  No
    other condition is touched: a Degraded condition of an earlier pass stays
    as it is. *)
Theorem successful_pass_reports_running (W : ServerReconciler.World)
    (req : NamespacedName) (server : SftpGoServer) (res : Result) :
  ServerReconciler.kube_Get W [] req = inr server ->
  ServerReconciler.ContainsFinalizer server sftpgoServerFinalizer = true ->
  Time_IsZero (DeletionTimestamp (SftpGoServer_ObjectMeta server)) = true ->
  fst (ServerReconciler.Reconcile W req []) = ServerReconciler.Return res None ->
  res = mkResult false
  /\ exists (before : ServerReconciler.trace)
            (deployment : ServerReconciler.DeploymentStatus) (written : SftpGoServer),
       snd (ServerReconciler.Reconcile W req [])
       = before
         ++ [ServerReconciler.EvGetDeployment
               {| NamespacedName_Name := Name (SftpGoServer_ObjectMeta server);
                  NamespacedName_Namespace := Namespace (SftpGoServer_ObjectMeta server) |};
             ServerReconciler.EvCreateOrUpdate server
               (ServerReconciler.ChildService (serviceForServer server));
             ServerReconciler.EvStatusUpdate written]
       /\ server_status_writes before = []
       /\ ServerReconciler.kube_Get_Deployment W before
            {| NamespacedName_Name := Name (SftpGoServer_ObjectMeta server);
               NamespacedName_Namespace := Namespace (SftpGoServer_ObjectMeta server) |}
          = inr deployment
       /\ reconciled server deployment written.
Proof.
  intros Hget Hfin Hzero. revert Hfin Hzero.
  server_pass W Hget; intros Hfin Hzero Hout;
    try discriminate Hfin; try discriminate Hout;
    try (rewrite Hzero in *; discriminate);
    injection Hout as <-; (split; [reflexivity |]);
    match goal with
    | Hd : ServerReconciler.kube_Get_Deployment W ?b _ = inr ?d |- _ =>
        exists b, d; eexists; split; [reflexivity |];
        split; [reflexivity |]; split; [exact Hd |]
    end;
    match goal with
    | |- reconciled _ ?d ?w =>
        match w with
        | context [SetStatusCondition ?now _ _] =>
            pose proof (reconciled_status now server d) as Hrec
        end
    end.
  all: cbv zeta in Hrec.
  all: match goal with
       | H : (0 <? _) = _ |- _ => rewrite H in Hrec
       end.
  all: exact Hrec.
Qed.

Lemma successful_pass_reports_running_witness :
  mkResult false = mkResult false
  /\ exists (before : ServerReconciler.trace)
            (deployment : ServerReconciler.DeploymentStatus) (written : SftpGoServer),
       snd (ServerReconciler.Reconcile world_server_ok my_sftpgo_key [])
       = before
         ++ [ServerReconciler.EvGetDeployment
               {| NamespacedName_Name := Name (SftpGoServer_ObjectMeta my_sftpgo);
                  NamespacedName_Namespace := Namespace (SftpGoServer_ObjectMeta my_sftpgo) |};
             ServerReconciler.EvCreateOrUpdate my_sftpgo
               (ServerReconciler.ChildService (serviceForServer my_sftpgo));
             ServerReconciler.EvStatusUpdate written]
       /\ server_status_writes before = []
       /\ ServerReconciler.kube_Get_Deployment world_server_ok before
            {| NamespacedName_Name := Name (SftpGoServer_ObjectMeta my_sftpgo);
               NamespacedName_Namespace := Namespace (SftpGoServer_ObjectMeta my_sftpgo) |}
          = inr deployment
       /\ reconciled my_sftpgo deployment written.
Proof.
  apply (successful_pass_reports_running world_server_ok my_sftpgo_key my_sftpgo
           (mkResult false)).
  - vm_compute. reflexivity.
  - vm_compute. reflexivity.
  - vm_compute. reflexivity.
  - vm_compute. reflexivity.
Defined.

Lemma server_AddFinalizer_adds (s : SftpGoServer) (f : string) :
  ServerReconciler.ContainsFinalizer (ServerReconciler.AddFinalizer s f) f = true.
Proof.
  unfold ServerReconciler.AddFinalizer.
  destruct (ServerReconciler.ContainsFinalizer s f) eqn:E; [exact E |].
  unfold ServerReconciler.ContainsFinalizer, ServerReconciler.SftpGoServer_set_Finalizers.
  cbn [SftpGoServer_ObjectMeta Finalizers].
  rewrite existsb_app. cbn [existsb]. rewrite String.eqb_refl.
  now rewrite orb_true_r.
Qed.

Lemma server_RemoveFinalizer_removes (s : SftpGoServer) (f : string) :
  ServerReconciler.ContainsFinalizer (ServerReconciler.RemoveFinalizer s f) f = false.
Proof.
  unfold ServerReconciler.ContainsFinalizer, ServerReconciler.RemoveFinalizer,
    ServerReconciler.SftpGoServer_set_Finalizers.
  cbn [SftpGoServer_ObjectMeta Finalizers].
  induction (Finalizers (SftpGoServer_ObjectMeta s)) as [| x l IH]; [reflexivity |].
  cbn [List.filter]. destruct (String.eqb_spec x f) as [-> | Hne]; cbn [negb].
  - exact IH.
  - cbn [existsb]. rewrite IH.
    destruct (String.eqb_spec f x); [congruence | reflexivity].
Qed.

Lemma server_AddFinalizer_keeps (s : SftpGoServer) (f : string) :
  SftpGoServer_Spec (ServerReconciler.AddFinalizer s f) = SftpGoServer_Spec s
  /\ SftpGoServer_Status (ServerReconciler.AddFinalizer s f) = SftpGoServer_Status s.
Proof.
  unfold ServerReconciler.AddFinalizer.
  destruct (ServerReconciler.ContainsFinalizer s f); split; reflexivity.
Qed.

(** X30.  The finalizer comes first and a deletion touches no child.  For a
    server without the finalizer, or one that is being deleted, the whole
    pass is the fetch and one write of the object: the write changes neither
    spec nor status, it adds the finalizer when it was missing and removes it
    otherwise, no child is applied and no status is written.  The pass asks to
    be run again exactly when it has added the finalizer. *)
Theorem finalizer_first_and_deletion_applies_nothing (W : ServerReconciler.World)
    (req : NamespacedName) (server : SftpGoServer) :
  ServerReconciler.kube_Get W [] req = inr server ->
  ServerReconciler.ContainsFinalizer server sftpgoServerFinalizer = false
  \/ Time_IsZero (DeletionTimestamp (SftpGoServer_ObjectMeta server)) = false ->
  exists written : SftpGoServer,
    snd (ServerReconciler.Reconcile W req [])
      = [ServerReconciler.EvGet req; ServerReconciler.EvUpdate written]
    /\ SftpGoServer_Spec written = SftpGoServer_Spec server
    /\ SftpGoServer_Status written = SftpGoServer_Status server
    /\ ServerReconciler.ContainsFinalizer written sftpgoServerFinalizer
       = negb (ServerReconciler.ContainsFinalizer server sftpgoServerFinalizer)
    /\ fst (ServerReconciler.Reconcile W req [])
       = match ServerReconciler.kube_Update W [ServerReconciler.EvGet req] written with
         | Some err => ServerReconciler.Return (mkResult false) (Some err)
         | None =>
             ServerReconciler.Return
               (mkResult (negb (ServerReconciler.ContainsFinalizer
                                  server sftpgoServerFinalizer)))
               None
         end.
Proof.
  intros Hget Hcase.
  pose proof (server_AddFinalizer_adds server sftpgoServerFinalizer) as Hadd.
  pose proof (server_AddFinalizer_keeps server sftpgoServerFinalizer) as [Hspec Hstatus].
  pose proof (server_RemoveFinalizer_removes server sftpgoServerFinalizer) as Hrem.
  revert Hcase.
  server_pass W Hget; intros [Hcase | Hcase];
    try discriminate Hcase;
    try (rewrite Hcase in *; discriminate);
    eexists; (split; [reflexivity |]);
    match goal with
    | H : ServerReconciler.kube_Update W _ _ = _ |- _ => rewrite H
    end;
    auto.
Qed.

(** The README server is being deleted: the finalizer goes, nothing else. *)
Lemma finalizer_first_and_deletion_applies_nothing_witness :
  exists written : SftpGoServer,
    snd (ServerReconciler.Reconcile world_server_deleting my_sftpgo_key [])
      = [ServerReconciler.EvGet my_sftpgo_key; ServerReconciler.EvUpdate written]
    /\ SftpGoServer_Spec written = SftpGoServer_Spec my_sftpgo_deleting
    /\ SftpGoServer_Status written = SftpGoServer_Status my_sftpgo_deleting
    /\ ServerReconciler.ContainsFinalizer written sftpgoServerFinalizer
       = negb (ServerReconciler.ContainsFinalizer my_sftpgo_deleting sftpgoServerFinalizer)
    /\ fst (ServerReconciler.Reconcile world_server_deleting my_sftpgo_key [])
       = match ServerReconciler.kube_Update world_server_deleting
                 [ServerReconciler.EvGet my_sftpgo_key] written with
         | Some err => ServerReconciler.Return (mkResult false) (Some err)
         | None =>
             ServerReconciler.Return
               (mkResult (negb (ServerReconciler.ContainsFinalizer
                                  my_sftpgo_deleting sftpgoServerFinalizer)))
               None
         end.
Proof.
  apply (finalizer_first_and_deletion_applies_nothing
           world_server_deleting my_sftpgo_key my_sftpgo_deleting).
  - vm_compute. reflexivity.
  - right. reflexivity.
Defined.
